(** * Monte Carlo spectral-bundle scripts: a shallow embedding

    The development embeds the two bundle scripts of the repository,
    [bin/model_veg_bundles.py] (canopy bundles through PROSAIL) and
    [projects/unsma/spec-soil-bundles.py] (soil bundles through 6S), and
    proves what their sampling loops, simulation loops and export steps do.

    Conventions of the embedding:
    - a Python float is a rational ([Q]); a literal such as [0.0022] is the
      rational it spells.  Comparisons are the order of [Q];
    - the generators ([random], [numpy.random]), the radiative-transfer
      models ([pyprosail.run], the [SixSHelpers] runners) and the soil
      reader ([aei.readJFSC]) are external: they are the fields of type
      classes, so every theorem holds for every implementation of them;
    - a script is a computation that emits a trace of [event]s (model
      invocations and file writes) and ends with [Ok] or with a raised
      exception;
    - a [numpy] 2-d array carries its shape and its rows. *)

From Stdlib Require Import QArith DecimalString DecimalNat Lqa.
From stdpp Require Import list strings gmap.

(** ** Exceptions and results *)

Inductive exn : Type :=
  | ValueError
  | IndexError
  | NameError
  | OSError (msg : string)
  | ModelError
  | ReadError.

Inductive result (A : Type) : Type :=
  | Ok (a : A)
  | Raise (e : exn).
Arguments Ok {A} a.
Arguments Raise {A} e.

Definition is_raise {A} (r : result A) : bool :=
  match r with Ok _ => false | Raise _ => true end.

Definition rbind {A B} (r : result A) (k : A -> result B) : result B :=
  match r with Ok a => k a | Raise e => Raise e end.

Declare Scope result_scope.
Delimit Scope result_scope with result.
Notation "'let*' x := m 'in' k" := (rbind m (fun x => k))
  (at level 10, x pattern, m at level 100, k at level 200, only parsing)
  : result_scope.

(** [l[i]] on a Python list or a 1-d array, for [0 <= i]. *)
Definition getitem {A} (l : list A) (i : nat) : result A :=
  match l !! i with Some x => Ok x | None => Raise IndexError end.

(** [a[idx]] for an index array [idx] (numpy fancy indexing). *)
Fixpoint take_indices {A} (l : list A) (idx : list nat) : result (list A) :=
  match idx with
  | [] => Ok []
  | i :: rest =>
      (let* x := getitem l i in
       let* xs := take_indices l rest in
       Ok (x :: xs))%result
  end.

(** ** Numpy arrays *)

Module Numpy.

Record ndarray : Type := NdArray {
  nrows : nat;
  ncols : nat;
  data : list (list Q)
}.

(** [np.zeros([r, c])] *)
Definition zeros (r c : nat) : ndarray :=
  NdArray r c (replicate r (replicate c 0%Q)).

(** [a[:, k]] *)
Definition column (k : nat) (a : ndarray) : list Q :=
  map (fun row => nth k row 0%Q) (data a).

Definition put_column (k : nat) (v : list Q) (a : ndarray) : ndarray :=
  NdArray (nrows a) (ncols a) (zip_with (fun row x => <[k:=x]> row) (data a) v).

(** [a[:, k] = v] for a 1-d [v]: a [v] of one element is broadcast over
    the column, any other length than the column's raises. *)
Definition assign_column (k : nat) (v : list Q) (a : ndarray) : result ndarray :=
  if Nat.ltb k (ncols a) then
    if Nat.eqb (length v) (nrows a) then Ok (put_column k v a)
    else if Nat.eqb (length v) 1
         then Ok (put_column k (replicate (nrows a) (hd 0%Q v)) a)
         else Raise ValueError
  else Raise IndexError.

(** [a.transpose()] *)
Definition transpose (a : ndarray) : ndarray :=
  NdArray (ncols a) (nrows a) (map (fun j => column j a) (seq 0 (ncols a))).

(** [a[:, 1:]] *)
Definition drop_first_column (a : ndarray) : ndarray :=
  NdArray (nrows a) (ncols a - 1) (map (drop 1) (data a)).

(** [a.tofile(f)]: the items in C order, row after row. *)
Definition tofile (a : ndarray) : list Q := concat (data a).

(** [np.savetxt(f, a, delimiter=",")]: one text line per row of [a], one
    field per item of the row.  The text of a field is not modelled. *)
Definition savetxt (a : ndarray) : list (list Q) := data a.

(** The rows agree with the declared shape. *)
Definition wf (a : ndarray) : Prop :=
  length (data a) = nrows a /\ Forall (fun row => length row = ncols a) (data a).

End Numpy.

(** ** The external models' arguments, and the trace of a script *)

(** The arguments of [pyprosail.run], in its order. *)
Record prosail_args : Type := ProsailArgs {
  a_N : Q;
  a_chloro : Q;
  a_caroten : Q;
  a_brown : Q;
  a_EWT : Q;
  a_LMA : Q;
  a_soil_reflectance : Q;
  a_LAI : Q;
  a_hot_spot : Q;
  a_solar_zenith : Q;
  a_solar_azimuth : Q;
  a_view_zenith : Q;
  a_view_azimuth : Q;
  a_LIDF : Q * Q
}.

Inductive aero_profile_t : Type := Continental | BiomassBurning.
Inductive atmos_profile_t : Type := Tropical.
Inductive ground_reflectance_t : Type := HomogeneousLambertian.

Inductive altitude_t : Type := SeaLevel | SatelliteLevel.

(** [Geometry.User()] with the four angles the soil script assigns. *)
Record geometry_t : Type := Geometry {
  geo_solar_a : Q;
  geo_solar_z : Q;
  geo_view_a : Q;
  geo_view_z : Q
}.

(** The fields of the [SixS] object the soil script assigns; [None] is the
    library's default, which the script overwrites before every run. *)
Record sixs : Type := SixS {
  s_altitudes : option (altitude_t * altitude_t);
  s_aero_profile : option aero_profile_t;
  s_atmos_profile : option atmos_profile_t;
  s_aot550 : option Q;
  s_geometry : option geometry_t;
  s_ground_reflectance : option (ground_reflectance_t * list (Q * Q))
}.

(** [SixSHelpers.Wavelengths.run_*] *)
Inductive runner : Type :=
  | run_wavelengths | run_ali | run_aster | run_er2_mas | run_gli
  | run_landsat_etm | run_landsat_mss | run_landsat_oli | run_landsat_tm
  | run_meris | run_modis | run_polder | run_spot_hrv | run_spot_vgt
  | run_vnir | run_whole_range.

(** A value of the ENVI header dictionary. *)
Inductive hdr_value : Type :=
  | HInt (n : nat)
  | HStr (s : string)
  | HNames (l : list string)
  | HFloats (l : list Q).

Inductive event : Type :=
  | Ev_prosail (a : prosail_args)
  | Ev_readJFSC (path : string)
  | Ev_sixs (r : runner) (s : sixs)
  | Ev_write_input_file (path : string) (s : sixs)
  | Ev_savetxt (path : string) (lines : list (list Q))
  | Ev_tofile (path : string) (items : list Q)
  | Ev_write_envi_header (path : string) (md : gmap string hdr_value).

(** The three spectral-library artifacts: csv, sli, hdr. *)
Definition is_artifact_write (e : event) : bool :=
  match e with
  | Ev_savetxt _ _ | Ev_tofile _ _ | Ev_write_envi_header _ _ => true
  | _ => false
  end.

Definition is_model_invocation (e : event) : bool :=
  match e with
  | Ev_prosail _ | Ev_sixs _ _ => true
  | _ => false
  end.

(** ** Scripts: a trace of events and a result *)

Definition script (A : Type) : Type := list event * result A.

Definition sret {A} (a : A) : script A := ([], Ok a).

Definition sbind {A B} (m : script A) (k : A -> script B) : script B :=
  match m with
  | (t, Ok a) => let '(t', r) := k a in (t ++ t', r)
  | (t, Raise e) => (t, Raise e)
  end.

Definition lift {A} (r : result A) : script A := ([], r).

Definition emit (e : event) : script unit := ([e], Ok tt).

Declare Scope script_scope.
Delimit Scope script_scope with script.
Notation "'let*' x := m 'in' k" := (sbind m (fun x => k))
  (at level 10, x pattern, m at level 100, k at level 200, only parsing)
  : script_scope.
Notation "m ;; k" := (sbind m (fun _ => k))
  (at level 100, k at level 200, right associativity, only parsing)
  : script_scope.

(** [for j in range(n): st = body(j, st)] *)
Fixpoint for_each {S} (js : list nat) (body : nat -> S -> script S) (st : S)
  : script S :=
  match js with
  | [] => sret st
  | j :: rest => sbind (body j st) (for_each rest body)
  end.

Definition for_range {S} (n : nat) (body : nat -> S -> script S) (st : S)
  : script S := for_each (seq 0 n) body st.

(** The value a loop variable holds after [for i in range(n)]: the last
    index, or what it held before when the range is empty ([None] is an
    unbound name). *)
Definition after_range (n : nat) (before : option nat) : option nat :=
  match n with 0 => before | S m => Some m end.

(** [str(n)] *)
Definition str (n : nat) : string := NilZero.string_of_uint (Nat.to_uint n).

(** ['%0wd' % n] *)
Definition zero_padded (w n : nat) : string :=
  let s := str n in
  String.concat "" (replicate (w - String.length s) "0") +:+ s.

(** ** The random source

    [random g] is [random.random()], a float of [0, 1); [gauss mu sigma g]
    is [random.gauss(mu, sigma)].  Both return the generator's next state. *)
Class RandomSource (G : Type) : Type := {
  random : G -> Q * G;
  gauss : Q -> Q -> G -> Q * G
}.

(** [pyprosail.run]: a 2-column array, one row [(wavelength, reflectance)]
    per band, or an exception. *)
Class Prosail : Type := {
  pyprosail_run : prosail_args -> result (list (Q * Q))
}.

(** ** [bin/model_veg_bundles.py] *)

Module Veg.

(** The constants at the head of the script. *)
Record config : Type := Config {
  output_base : string;
  n_bundles : nat;
  nb : nat
}.

(** The fifteen parameter lists the sampling loop appends to. *)
Record params : Type := Params {
  N : list Q;
  chloro : list Q;
  caroten : list Q;
  brown : list Q;
  EWT : list Q;
  LMA : list Q;
  soil_reflectance : list Q;
  LAI : list Q;
  hot_spot : list Q;
  LAD_inclination : list Q;
  LAD_bimodality : list Q;
  s_az : list Q;
  s_za : list Q;
  v_az : list Q;
  v_za : list Q
}.

Definition no_params : params :=
  Params [] [] [] [] [] [] [] [] [] [] [] [] [] [] [].

(** [x < lo or x > hi], the guard of the rejection loops. *)
Definition out_of_range (lo hi x : Q) : bool :=
  negb (Qle_bool lo x) || negb (Qle_bool x hi).

Section Sampling.
Context {G : Type} `{RandomSource G}.

(** A sampling computation threads the generator; [None] is a rejection
    loop that has not stopped within its fuel. *)
Definition sampler (A : Type) : Type := G -> option (A * G).

Definition gret {A} (a : A) : sampler A := fun g => Some (a, g).

Definition gbind {A B} (m : sampler A) (k : A -> sampler B) : sampler B :=
  fun g => match m g with Some (a, g') => k a g' | None => None end.

(** [random.uniform(a, b)], which is [a + (b - a) * random()]. *)
Definition uniform (a b : Q) : sampler Q :=
  fun g => let '(u, g') := random g in Some ((a + (b - a) * u)%Q, g').

Definition draw_gauss (mu sigma : Q) : sampler Q :=
  fun g => Some (gauss mu sigma g).

(** [while x < lo or x > hi: x = random.gauss(mu, sigma)], where [x] is the
    cell just appended ([chloro[-1]] and the like). *)
Fixpoint redraw (fuel : nat) (mu sigma lo hi x : Q) : sampler Q :=
  fun g =>
    if out_of_range lo hi x then
      match fuel with
      | 0 => None
      | S fuel' =>
          let '(x', g') := gauss mu sigma g in
          redraw fuel' mu sigma lo hi x' g'
      end
    else Some (x, g).

(** [l.append(random.gauss(mu, sigma))] followed by the rejection loop. *)
Definition truncated_gauss (fuel : nat) (mu sigma lo hi : Q) : sampler Q :=
  gbind (draw_gauss mu sigma) (redraw fuel mu sigma lo hi).

Declare Scope sampler_scope.
Delimit Scope sampler_scope with sampler.
Notation "'let*' x := m 'in' k" := (gbind m (fun x => k))
  (at level 10, x pattern, m at level 100, k at level 200, only parsing)
  : sampler_scope.

(** One pass of the loop of lines 57-136. *)
Definition sample_bundle (fuel : nat) (p : params) : sampler params :=
  (let* n := uniform 1.3 2.5 in
   let* c := truncated_gauss fuel 35 30 5 75 in
   let* k := truncated_gauss fuel 7.5 6.5 1.5 15 in
   let* w := uniform 0.002 0.05 in
   let* m := truncated_gauss fuel 0.012 0.005 0.0022 0.0365 in
   let* r := uniform 0 1 in
   let* l := truncated_gauss fuel 3 2 0.1 18 in
   let* h := uniform 0.05 0.5 in
   let* inc := uniform (-0.4) 0.4 in
   let* bim := uniform (-0.1) 0.2 in
   let* az := uniform 0 360 in
   let* za := uniform 20 20 in
   gret {| N := N p ++ [n];
           chloro := chloro p ++ [c];
           caroten := caroten p ++ [k];
           brown := brown p ++ [0%Q];
           EWT := EWT p ++ [w];
           LMA := LMA p ++ [m];
           soil_reflectance := soil_reflectance p ++ [r];
           LAI := LAI p ++ [l];
           hot_spot := hot_spot p ++ [h];
           LAD_inclination := LAD_inclination p ++ [inc];
           LAD_bimodality := LAD_bimodality p ++ [bim];
           s_az := s_az p ++ [az];
           s_za := s_za p ++ [za];
           v_az := v_az p ++ [0%Q];
           v_za := v_za p ++ [0%Q] |})%sampler%Q.

(** [for i in range(n): ...] of line 57. *)
Fixpoint sample_loop (fuel n : nat) (p : params) : sampler params :=
  match n with
  | 0 => gret p
  | S n' => gbind (sample_bundle fuel p) (sample_loop fuel n')
  end.

End Sampling.

Section Driver.
Context `{Prosail}.

(** The arguments of the call of lines 164-168 for loop index [j], where
    [i] is what the earlier [for i] loops left in [i]. *)
Definition bundle_args (p : params) (i : option nat) (j : nat)
  : result prosail_args :=
  (let* inc := getitem (LAD_inclination p) j in
   let* bim := getitem (LAD_bimodality p) j in
   let* n := getitem (N p) j in
   let* c := getitem (chloro p) j in
   let* k := getitem (caroten p) j in
   let* b := getitem (brown p) j in
   let* w := getitem (EWT p) j in
   let* m := getitem (LMA p) j in
   let* r := getitem (soil_reflectance p) j in
   let* l := getitem (LAI p) j in
   let* h := getitem (hot_spot p) j in
   let* i := match i with Some i => Ok i | None => Raise NameError end in
   let* sz := getitem (s_za p) i in
   let* sa := getitem (s_az p) i in
   let* vz := getitem (v_za p) i in
   let* va := getitem (v_az p) i in
   Ok (ProsailArgs n c k b w m r l h sz sa vz va (inc, bim)))%result.

(** The call itself: it is on the trace whether or not it raises. *)
Definition call_prosail (a : prosail_args) : script (list (Q * Q)) :=
  ([Ev_prosail a], pyprosail_run a).

(** The body of the loop of lines 161-171; the state is [output_array]
    and the variable [spectrum] (unbound before the first pass). *)
Definition simulate_bundle (p : params) (i : option nat) (j : nat)
    (st : Numpy.ndarray * option (list (Q * Q)))
  : script (Numpy.ndarray * option (list (Q * Q))) :=
  (let* a := lift (bundle_args p i j) in
   let* spectrum := call_prosail a in
   let* output_array :=
     lift (Numpy.assign_column (j + 1) (map snd spectrum) (fst st)) in
   sret (output_array, Some spectrum))%script.

Definition spectra_names (n : nat) : list string :=
  map (fun i => "veg bundle " +:+ str (i + 1)) (seq 0 n).

Definition metadata (cfg : config) (output_spec : list string)
    (output_array : Numpy.ndarray) : gmap string hdr_value :=
  <["samples" := HInt (nb cfg)]>
  (<["lines" := HInt (n_bundles cfg)]>
  (<["bands" := HInt 1]>
  (<["data type" := HInt 5]>
  (<["header offset" := HInt 0]>
  (<["interleave" := HStr "bsq"]>
  (<["byte order" := HInt 0]>
  (<["sensor type" := HStr "prosail"]>
  (<["spectra names" := HNames output_spec]>
  (<["wavelength units" := HStr "micrometers"]>
  (<["wavelength" := HFloats (Numpy.column 0 output_array)]> ∅)))))))))).

(** Lines 138-194, for the parameter lists [p] the sampling loop built. *)
Definition simulate_and_export (cfg : config) (p : params) : script unit :=
  let n := n_bundles cfg in
  let i := after_range n None in
  let output_csv := output_base cfg +:+ "_speclib.csv" in
  let output_sli := output_base cfg +:+ "_speclib.sli" in
  let output_hdr := output_base cfg +:+ "_speclib.hdr" in
  let output_spec := spectra_names n in
  let i := after_range n i in
  (let* st := for_range n (simulate_bundle p i)
                (Numpy.zeros (nb cfg) (n + 1), None) in
   let* spectrum :=
     lift (match snd st with Some s => Ok s | None => Raise NameError end) in
   let* output_array :=
     lift (Numpy.assign_column 0 (map fst spectrum) (fst st)) in
   emit (Ev_savetxt output_csv (Numpy.savetxt (Numpy.transpose output_array))) ;;
   emit (Ev_tofile output_sli
           (Numpy.tofile (Numpy.transpose (Numpy.drop_first_column output_array)))) ;;
   emit (Ev_write_envi_header output_hdr (metadata cfg output_spec output_array))
  )%script.

End Driver.

(** The whole script, from a generator state [g]; [None] when a rejection
    loop is still running after [fuel] redraws. *)
Definition main {G} `{RandomSource G} `{Prosail}
    (cfg : config) (fuel : nat) (g : G) : option (script unit) :=
  match sample_loop fuel (n_bundles cfg) no_params g with
  | Some (p, _) => Some (simulate_and_export cfg p)
  | None => None
  end.

End Veg.

(** ** [projects/unsma/spec-soil-bundles.py] *)

Module Soil.

(** The constants at the head of the script.  [wl] is the array
    [np.arange(wl_start, wl_end, wl_interval)], used by the custom sensor
    alone. *)
Record config : Type := Config {
  output_base : string;
  n_atmospheres : nat;
  n_bundles : nat;
  target_sensor : string;
  wl : list Q;
  output_type : string;
  soil_files : list string
}.

(** What the generators return at lines 59-87 and 127:
    the three [np.random.random_integers] index arrays, the
    [aei.randomFloats] arrays ([view_a] before its shift by 2.5), and the
    [random.sample] of soil-file indices. *)
Record draws : Type := Draws {
  atmos_profile_ind : list nat;
  aero_profile_ind : list nat;
  ground_reflectance_ind : list nat;
  aot : list Q;
  solar_a : list Q;
  solar_z : list Q;
  view_a : list Q;
  view_z : list Q;
  srnd : list nat
}.

(** The object [aei.readJFSC] returns. *)
Record soil_t : Type := SoilSpectrum {
  band_unit : string;
  band_centers : list Q;
  spectra : list (list Q)
}.

(** The external parts: the soil reader and its water-band filter, the
    [SixSHelpers.Wavelengths] runners (the wavelength array is passed for
    [run_wavelengths] alone), and whether the name [envi], which line 299
    uses without importing it, is bound by [from Py6S import *]. *)
Class World : Type := {
  readJFSC : string -> result soil_t;
  remove_water_bands : soil_t -> soil_t;
  run_sixs_params :
    runner -> sixs -> option (list Q) -> string -> result (list Q * list Q);
  envi_bound : bool
}.

Definition atmos_profile : list atmos_profile_t := [Tropical].
Definition aero_profile : list aero_profile_t := [Continental; BiomassBurning].
Definition ground_reflectance : list ground_reflectance_t := [HomogeneousLambertian].

(** Lines 86 and 90: [view_a - 2.5], then [+ 360] where negative. *)
Definition to_0_360 (l : list Q) : list Q :=
  map (fun x => let y := (x - 2.5)%Q in
                if negb (Qle_bool 0 y) then (y + 360)%Q else y) l.

(** Lines 127-130; [random.sample] raises when asked for more items than
    the population holds. *)
Definition sample_soil_files (cfg : config) (d : draws) : result (list string) :=
  if Nat.ltb (length (soil_files cfg)) (n_bundles cfg) then Raise ValueError
  else take_indices (soil_files cfg) (srnd d).

(** The names the comment of lines 37-38 and the chain of lines 135-202
    enumerate. *)
Definition supported_sensors : list string :=
  ["custom"; "ali"; "aster"; "er2_mas"; "gli"; "landsat_etm"; "landsat_mss";
   "landsat_oli"; "landsat_tm"; "meris"; "modis"; "polder"; "spot_hrv";
   "spot_vgt"; "vnir"; "whole_range"].

(** Lines 135-202: the runner, [num_bands] and [good_bands] of a sensor. *)
Definition sensor_setup (target_sensor : string) (wl : list Q)
  : result (runner * nat * list nat) :=
  if String.eqb target_sensor "custom" then
    Ok (run_wavelengths, length wl, seq 0 (length wl))
  else if String.eqb target_sensor "ali" then Ok (run_ali, 7, seq 0 7)
  else if String.eqb target_sensor "aster" then Ok (run_aster, 9, seq 0 9)
  else if String.eqb target_sensor "er2_mas" then Ok (run_er2_mas, 7, seq 0 7)
  else if String.eqb target_sensor "gli" then Ok (run_gli, 30, seq 0 30)
  else if String.eqb target_sensor "landsat_etm" then Ok (run_landsat_etm, 6, seq 0 6)
  else if String.eqb target_sensor "landsat_mss" then Ok (run_landsat_mss, 4, seq 0 4)
  else if String.eqb target_sensor "landsat_oli" then Ok (run_landsat_oli, 10, seq 1 6)
  else if String.eqb target_sensor "landsat_tm" then Ok (run_landsat_tm, 6, seq 0 6)
  else if String.eqb target_sensor "meris" then Ok (run_meris, 16, seq 0 16)
  else if String.eqb target_sensor "modis" then Ok (run_modis, 8, seq 0 8)
  else if String.eqb target_sensor "polder" then Ok (run_polder, 8, seq 0 8)
  else if String.eqb target_sensor "spot_hrv" then Ok (run_spot_hrv, 4, seq 0 4)
  else if String.eqb target_sensor "spot_vgt" then Ok (run_spot_vgt, 4, seq 0 4)
  else if String.eqb target_sensor "vnir" then Ok (run_vnir, 200, seq 0 200)
  else if String.eqb target_sensor "whole_range" then
    Ok (run_whole_range, 380, seq 20 210)
  else Raise (OSError "Unsupported sensor configuration").

(** [np.array([xs, ys]).transpose()]: the rows [(x, y)]; two lists of
    different lengths make no 2-d array. *)
Definition two_columns (xs ys : list Q) : result (list (Q * Q)) :=
  if Nat.eqb (length xs) (length ys) then Ok (zip xs ys) else Raise ValueError.

(** Lines 254-256: nanometers to micrometers. *)
Definition to_micrometers (soil : soil_t) : soil_t :=
  if String.eqb (band_unit soil) "Nanometers"
  then SoilSpectrum (band_unit soil)
         (map (fun x => (x / 1000)%Q) (band_centers soil)) (spectra soil)
  else soil.

Definition set_atmosphere (s : sixs) (aero : aero_profile_t)
    (atmos : atmos_profile_t) (aot550 : Q) (geo : geometry_t) : sixs :=
  SixS (s_altitudes s) (Some aero) (Some atmos) (Some aot550) (Some geo)
       (s_ground_reflectance s).

Definition set_ground_reflectance (s : sixs)
    (gr : ground_reflectance_t * list (Q * Q)) : sixs :=
  SixS (s_altitudes s) (s_aero_profile s) (s_atmos_profile s) (s_aot550 s)
       (s_geometry s) (Some gr).

(** The state the two loops thread: the [SixS] object, [output_array] and
    the variable [wavelengths] (unbound before the first run). *)
Definition loop_state : Type := sixs * Numpy.ndarray * option (list Q).

Section Driver.
Context `{World}.

(** A runner call: it is on the trace whether or not it raises. *)
Definition call_sixs (cfg : config) (run : runner) (s : sixs)
  : script (list Q * list Q) :=
  ([Ev_sixs run s],
   run_sixs_params run s
     (if String.eqb (target_sensor cfg) "custom" then Some (wl cfg) else None)
     (output_type cfg)).

Definition call_readJFSC (path : string) : script soil_t :=
  ([Ev_readJFSC path], readJFSC path).

(** The body of the inner loop, lines 246-272. *)
Definition simulate_soil (cfg : config) (run : runner) (good_bands : list nat)
    (soil_spectra : list string) (ground_refl : ground_reflectance_t)
    (i j : nat) (st : loop_state) : script loop_state :=
  let '(s, output_array, _) := st in
  (let* path := lift (getitem soil_spectra j) in
   let* soil := call_readJFSC path in
   let soil := to_micrometers (remove_water_bands soil) in
   let* first := lift (getitem (spectra soil) 0) in
   let* spectrum := lift (two_columns (band_centers soil) first) in
   let s := set_ground_reflectance s (ground_refl, spectrum) in
   let* out := call_sixs cfg run s in
   let* selected := lift (take_indices (snd out) good_bands) in
   let* output_array :=
     lift (Numpy.assign_column (i * n_bundles cfg + j + 1) selected output_array) in
   sret (s, output_array, Some (fst out)))%script.

(** The body of the outer loop, lines 232-275. *)
Definition simulate_atmosphere (cfg : config) (d : draws) (run : runner)
    (good_bands : list nat) (soil_spectra output_sixs : list string)
    (i : nat) (st : loop_state) : script loop_state :=
  let '(s, output_array, wavelengths) := st in
  (let* aero_i := lift (getitem (aero_profile_ind d) i) in
   let* aero := lift (getitem aero_profile aero_i) in
   let* atmos_i := lift (getitem (atmos_profile_ind d) i) in
   let* atmos := lift (getitem atmos_profile atmos_i) in
   let* aot550 := lift (getitem (aot d) i) in
   let* sa := lift (getitem (solar_a d) i) in
   let* sz := lift (getitem (solar_z d) i) in
   let* va := lift (getitem (to_0_360 (view_a d)) i) in
   let* vz := lift (getitem (view_z d) i) in
   let s := set_atmosphere s aero atmos aot550 (Geometry sa sz va vz) in
   let* ground_i := lift (getitem (ground_reflectance_ind d) i) in
   let* ground_refl := lift (getitem ground_reflectance ground_i) in
   let* st := for_range (n_bundles cfg)
                (simulate_soil cfg run good_bands soil_spectra ground_refl i)
                (s, output_array, wavelengths) in
   let* path := lift (getitem output_sixs i) in
   emit (Ev_write_input_file path (fst (fst st))) ;;
   sret st)%script.

Definition atmosphere_files (cfg : config) : list string :=
  map (fun i => output_base cfg +:+ "_atm_" +:+ zero_padded 2 (i + 1) +:+ ".sixs")
      (seq 0 (n_atmospheres cfg)).

Definition spectra_names (n : nat) : list string :=
  map (fun i => "Soil bundle " +:+ zero_padded 3 (i + 1)) (seq 0 n).

Definition metadata (cfg : config) (nb : nat) (output_spec : list string)
    (wavelength : list Q) : gmap string hdr_value :=
  <["samples" := HInt nb]>
  (<["lines" := HInt (n_bundles cfg * n_atmospheres cfg)]>
  (<["bands" := HInt 1]>
  (<["data type" := HInt 5]>
  (<["header offset" := HInt 0]>
  (<["interleave" := HStr "bsq"]>
  (<["byte order" := HInt 0]>
  (<["sensor type" := HStr (target_sensor cfg)]>
  (<["spectra names" := HNames output_spec]>
  (<["wavelength units" := HStr "micrometers"]>
  (<["wavelength" := HFloats wavelength]> ∅)))))))))).

(** The whole script, for the arrays [d] its generators return. *)
Definition main (cfg : config) (d : draws) : script unit :=
  let s := SixS (Some (SatelliteLevel, SeaLevel)) None None None None None in
  (let* soil_spectra := lift (sample_soil_files cfg d) in
   let* sensor := lift (sensor_setup (target_sensor cfg) (wl cfg)) in
   let '(run, num_bands, good_bands) := sensor in
   let nb := length good_bands in
   let output_csv := output_base cfg +:+ "_speclib.csv" in
   let output_sli := output_base cfg +:+ "_speclib.sli" in
   let output_hdr := output_base cfg +:+ "_speclib.hdr" in
   let output_sixs := atmosphere_files cfg in
   let output_spec := spectra_names (n_bundles cfg) in
   let* st := for_range (n_atmospheres cfg)
                (simulate_atmosphere cfg d run good_bands soil_spectra output_sixs)
                (s, Numpy.zeros nb (n_bundles cfg * n_atmospheres cfg + 1), None) in
   let* wavelengths :=
     lift (match snd st with Some w => Ok w | None => Raise NameError end) in
   let* axis := lift (take_indices wavelengths good_bands) in
   let* output_array := lift (Numpy.assign_column 0 axis (snd (fst st))) in
   emit (Ev_savetxt output_csv (Numpy.savetxt (Numpy.transpose output_array))) ;;
   emit (Ev_tofile output_sli
           (Numpy.tofile (Numpy.transpose (Numpy.drop_first_column output_array)))) ;;
   let* axis := lift (take_indices wavelengths good_bands) in
   if envi_bound
   then emit (Ev_write_envi_header output_hdr (metadata cfg nb output_spec axis))
   else lift (Raise NameError))%script.

End Driver.

End Soil.

(** ** Concrete stand-ins for the external parts, for running the scripts *)

Module Demo.

(** A counter as generator: draw [g] of [random] is [(g mod 10)/10], draw
    [g] of [gauss mu sigma] is [mu + sigma * ((g mod 5) - 2)]. *)
#[export] Instance counter_source : RandomSource nat := {|
  random g := (Z.of_nat (g mod 10) # 10, S g);
  gauss mu sigma g := ((mu + sigma * inject_Z (Z.of_nat (g mod 5) - 2))%Q, S g)
|}.

(** A canopy model of [bands] bands: band [k] has wavelength [k + 1] and
    a reflectance that records the chlorophyll and the solar azimuth it
    was called with. *)
Definition toy_prosail (bands : nat) : Prosail := {|
  pyprosail_run a :=
    Ok (map (fun k => (inject_Z (Z.of_nat k + 1),
                       (a_chloro a + 1000 * a_solar_azimuth a
                        + inject_Z (Z.of_nat k) / 1000)%Q))
            (seq 0 bands))
|}.

(** A canopy model that rejects a chlorophyll content above [limit], and
    answers like [toy_prosail] otherwise. *)
Definition picky_prosail (bands : nat) (limit : Q) : Prosail := {|
  pyprosail_run a :=
    if Qle_bool (a_chloro a) limit
    then @pyprosail_run (toy_prosail bands) a
    else Raise ModelError
|}.

Definition veg_cfg (n bands : nat) : Veg.config :=
  Veg.Config "/scratch/veg_bundles" n bands.

(** A soil world: the file name says the unit tag of the spectrum read
    ("nano.txt", "furlong.txt", anything else is in micrometers, and
    "missing.txt" cannot be read); the water-band filter drops the bands
    whose reflectance is negative; every runner answers [bands] bands,
    each recording the first wavelength of the ground spectrum and the
    aerosol optical thickness it ran with. *)
Definition toy_readJFSC (path : string) : result Soil.soil_t :=
  if String.eqb path "missing.txt" then Raise ReadError
  else if String.eqb path "nano.txt" then
    Ok (Soil.SoilSpectrum "Nanometers" [400; 1400; 2200]%Q [[0.1; -1; 0.3]%Q])
  else if String.eqb path "furlong.txt" then
    Ok (Soil.SoilSpectrum "Furlongs" [2; 7; 11]%Q [[0.1; -1; 0.3]%Q])
  else
    Ok (Soil.SoilSpectrum "Micrometers" [0.4; 1.4; 2.2]%Q [[0.2; -1; 0.4]%Q]).

Definition toy_remove_water_bands (soil : Soil.soil_t) : Soil.soil_t :=
  let keep := map (fun y => Qle_bool 0 y) (hd [] (Soil.spectra soil)) in
  let pick {A} (l : list A) := map snd (filter (fun bx => fst bx = true) (zip keep l)) in
  Soil.SoilSpectrum (Soil.band_unit soil) (pick (Soil.band_centers soil))
    (map pick (Soil.spectra soil)).

(** In this world the name [envi] is bound, as in a script that had
    imported it, so that runs can finish and their header be looked
    at.  spec-soil-bundles.py itself binds it nowhere: its own runs are
    those of the same world with [envi_bound := false]. *)
Definition toy_world (bands : nat) : Soil.World := {|
  Soil.readJFSC := toy_readJFSC;
  Soil.remove_water_bands := toy_remove_water_bands;
  Soil.run_sixs_params run s wl output_name :=
    match s_ground_reflectance s, s_aot550 s with
    | Some (_, (w, _) :: _), Some aot =>
        Ok (map (fun k => inject_Z (Z.of_nat k + 1)) (seq 0 bands),
            map (fun k => (w + aot / 100 + inject_Z (Z.of_nat k) / 1000)%Q)
                (seq 0 bands))
    | _, _ => Raise ModelError
    end;
  Soil.envi_bound := true
|}.

Definition soil_cfg (atmospheres bundles : nat) (sensor : string)
    (files : list string) : Soil.config :=
  Soil.Config "/data/soil_bundles" atmospheres bundles sensor [] "apparent_reflectance"
    files.

(** Generator output for up to three atmospheres and three soil files. *)
Definition soil_draws (picks : list nat) : Soil.draws :=
  Soil.Draws [0; 0; 0] [1; 0; 1] [0; 0; 0] [0.3; 0.5; 0.7]%Q [10; 200; 359]%Q
    [10; 30; 45]%Q [0.5; 2.5; 4]%Q [0; 0.5; 1]%Q picks.

End Demo.

(** * Properties *)

(** ** Arrays: shapes and columns *)

Module NumpyFacts.
Import Numpy.

(** The columns of an array, left to right: the rows of its transpose. *)
Definition columns (a : ndarray) : list (list Q) := data (transpose a).

Lemma zeros_wf r c : wf (zeros r c).
Proof.
  split; simpl.
  - apply length_replicate.
  - apply Forall_replicate, length_replicate.
Qed.

Lemma column_length k a : wf a -> length (column k a) = nrows a.
Proof. intros [Hr _]. unfold column. by rewrite length_map. Qed.

Lemma columns_length a : length (columns a) = ncols a.
Proof. unfold columns; simpl. by rewrite length_map, length_seq. Qed.

Lemma columns_zeros r c : columns (zeros r c) = replicate c (replicate r 0%Q).
Proof.
  unfold columns, transpose, column; simpl.
  assert (Hcol : forall j, map (fun row : list Q => nth j row 0%Q)
                             (replicate r (replicate c 0%Q)) = replicate r 0%Q).
  { intros j. induction r as [|r IH]; simpl; [done|].
    f_equal; [|done].
    rewrite nth_lookup. destruct (replicate c 0%Q !! j) eqn:E; [|done].
    by apply lookup_replicate in E as [-> _]. }
  rewrite (map_ext _ (fun _ => replicate r 0%Q) Hcol).
  generalize 0. clear Hcol. induction c as [|c IH]; intros s; simpl; [done|].
  by rewrite IH.
Qed.

Lemma put_column_wf k v a :
  wf a -> length v = nrows a -> wf (put_column k v a).
Proof.
  intros [Hr Hc] Hv. split; simpl.
  - rewrite length_zip_with. lia.
  - clear Hr Hv. revert v. induction Hc as [|row rows Hrow _ IH]; intros [|x v];
      simpl; constructor; auto.
    by rewrite length_insert.
Qed.

Lemma column_put_column j k v a :
  wf a -> length v = nrows a -> k < ncols a ->
  column j (put_column k v a) = if decide (j = k) then v else column j a.
Proof.
  intros [Hr Hc] Hv Hk. unfold column; simpl.
  rewrite <- Hr in Hv. clear Hr. revert v Hv.
  induction Hc as [|row rows Hrow _ IH]; intros [|x v] Hv; simpl in *; try done.
  - by case_decide.
  - injection Hv as Hv. rewrite (IH v Hv). rewrite !nth_lookup.
    case_decide as Hjk.
    + subst j. rewrite list_lookup_insert_eq by lia. done.
    + rewrite list_lookup_insert_ne by done. done.
Qed.

Lemma columns_put_column k v a :
  wf a -> length v = nrows a -> k < ncols a ->
  columns (put_column k v a) = <[k := v]> (columns a).
Proof.
  intros Hwf Hv Hk. apply list_eq. intros j.
  unfold columns at 1; simpl.
  rewrite list_lookup_fmap.
  destruct (decide (j < ncols a)) as [Hj|Hj].
  - rewrite lookup_seq_lt by done. simpl.
    rewrite column_put_column by done.
    case_decide as Hjk.
    + subst. rewrite list_lookup_insert_eq; [done|]. by rewrite columns_length.
    + rewrite list_lookup_insert_ne by done.
      unfold columns; simpl. rewrite list_lookup_fmap, lookup_seq_lt by done. done.
  - rewrite lookup_seq_ge by lia. simpl. symmetry.
    apply lookup_ge_None. rewrite length_insert, columns_length. lia.
Qed.

Lemma column_drop_first_column j a :
  column j (drop_first_column a) = column (S j) a.
Proof.
  unfold column; simpl. rewrite map_map. apply map_ext. intros row.
  rewrite !nth_lookup, lookup_drop. done.
Qed.

Lemma columns_drop_first_column a :
  columns (drop_first_column a) = drop 1 (columns a).
Proof.
  unfold columns; simpl.
  destruct (ncols a) as [|c]; simpl; [done|].
  rewrite Nat.sub_0_r, drop_0, <- seq_shift, map_map.
  apply map_ext. intros j. apply column_drop_first_column.
Qed.

(** What [a[:, k] = v] stores in the column: [v], or its one item
    repeated. *)
Definition broadcast (n : nat) (v : list Q) : list Q :=
  if Nat.eqb (length v) n then v else replicate n (hd 0%Q v).

Lemma broadcast_length n v :
  length v = n \/ length v = 1 -> length (broadcast n v) = n.
Proof.
  unfold broadcast. destruct (Nat.eqb_spec (length v) n); [done|].
  intros _. apply length_replicate.
Qed.

Lemma assign_column_ok k v a a' :
  wf a -> assign_column k v a = Ok a' ->
  k < ncols a /\ (length v = nrows a \/ length v = 1) /\
  a' = put_column k (broadcast (nrows a) v) a /\
  wf a' /\ nrows a' = nrows a /\ ncols a' = ncols a /\
  columns a' = <[k := broadcast (nrows a) v]> (columns a).
Proof.
  intros Hwf. unfold assign_column, broadcast.
  destruct (Nat.ltb_spec k (ncols a)) as [Hk|]; [|done].
  destruct (Nat.eqb_spec (length v) (nrows a)) as [Hv|Hv].
  - intros [= <-]. destruct (put_column_wf k v a Hwf Hv).
    repeat split; auto using columns_put_column.
  - destruct (Nat.eqb_spec (length v) 1) as [Hv1|]; [|done].
    intros [= <-].
    assert (Hrep : length (replicate (nrows a) (hd 0%Q v)) = nrows a)
      by apply length_replicate.
    destruct (put_column_wf k _ a Hwf Hrep).
    repeat split; auto using columns_put_column.
Qed.

End NumpyFacts.

(** ** Scripts: laws and loops *)

Lemma sbind_ret_r {A} (m : script A) : sbind m sret = m.
Proof. destruct m as [t [a|e]]; simpl; [|done]. by rewrite app_nil_r. Qed.

Lemma sbind_assoc {A B C} (m : script A) (f : A -> script B) (g : B -> script C) :
  sbind (sbind m f) g = sbind m (fun a => sbind (f a) g).
Proof.
  destruct m as [t [a|e]]; simpl; [|done].
  destruct (f a) as [t' [b|e]]; simpl; [|done].
  destruct (g b) as [t'' r]. by rewrite app_assoc.
Qed.

Lemma sbind_inv {A B} (m : script A) (k : A -> script B) tr r :
  sbind m k = (tr, r) ->
  (exists t1 a t2, m = (t1, Ok a) /\ k a = (t2, r) /\ tr = t1 ++ t2) \/
  (exists e, m = (tr, Raise e) /\ r = Raise e).
Proof.
  destruct m as [t [a|e]]; simpl.
  - destruct (k a) as [t' r'] eqn:Hk. intros [= <- <-]. left. by exists t, a, t'.
  - intros [= <- <-]. right. by exists e.
Qed.

Lemma sbind_ok_inv {A B} (m : script A) (k : A -> script B) tr b :
  sbind m k = (tr, Ok b) ->
  exists t1 a t2, m = (t1, Ok a) /\ k a = (t2, Ok b) /\ tr = t1 ++ t2.
Proof.
  intros Hb. apply sbind_inv in Hb as [?|(e & _ & ?)]; [done|discriminate].
Qed.

Lemma lift_ok_inv {A} (r : result A) tr a :
  lift r = (tr, Ok a) -> r = Ok a /\ tr = [].
Proof. unfold lift. by intros [= <- <-]. Qed.

Lemma for_each_app {S} (l1 l2 : list nat) (body : nat -> S -> script S) st :
  for_each (l1 ++ l2) body st = sbind (for_each l1 body st) (for_each l2 body).
Proof.
  revert st. induction l1 as [|j l1 IH]; intros st; simpl.
  - by destruct (for_each l2 body st).
  - rewrite sbind_assoc.
    destruct (body j st) as [t [st'|e]]; simpl; [|done]. by rewrite IH.
Qed.

Lemma for_range_S {St} n (body : nat -> St -> script St) st :
  for_range (S n) body st = sbind (for_range n body st) (body n).
Proof.
  unfold for_range. rewrite seq_S, for_each_app. simpl.
  destruct (for_each (seq 0 n) body st) as [t [st'|e]]; simpl; [|done].
  by rewrite sbind_ret_r.
Qed.

(** ** The output array while the loops fill it

    [filled nb N a vs]: [a] is [nb] by [N + 1]; its columns are a zero
    column, then the spectra [vs] stored so far, then zero columns. *)

Module Fill.
Import Numpy NumpyFacts.

Definition filled (nb N : nat) (a : ndarray) (vs : list (list Q)) : Prop :=
  wf a /\ nrows a = nb /\ ncols a = N + 1 /\ length vs <= N /\
  Forall (fun v => length v = nb) vs /\
  columns a = replicate nb 0%Q :: vs ++ replicate (N - length vs) (replicate nb 0%Q).

Lemma filled_zeros nb N : filled nb N (zeros nb (N + 1)) [].
Proof.
  unfold filled. split; [apply zeros_wf|].
  repeat split; simpl; auto with lia.
  rewrite columns_zeros, Nat.sub_0_r, Nat.add_1_r. done.
Qed.

Lemma filled_assign nb N a vs v a' :
  filled nb N a vs ->
  assign_column (length vs + 1) v a = Ok a' ->
  filled nb N a' (vs ++ [broadcast nb v]) /\ length vs < N.
Proof.
  intros (Hwf & Hr & Hc & Hlen & Hvs & Hcols) Ha.
  apply assign_column_ok in Ha as (Hk & Hv & _ & Hwf' & Hr' & Hc' & Hcols'); [|done].
  rewrite Hr in *. rewrite Hc in Hk.
  assert (Hlt : length vs < N) by lia.
  split; [|done].
  split; [done|]. split; [congruence|]. split; [congruence|].
  split; [rewrite length_app; simpl; lia|]. split.
  - apply Forall_app. split; [done|]. constructor; [|done].
    by apply broadcast_length.
  - rewrite Hcols', Hcols, Nat.add_1_r. simpl. f_equal.
    rewrite insert_app_r_alt, Nat.sub_diag by lia.
    rewrite length_app; simpl.
    replace (N - length vs) with (S (N - (length vs + 1))) by lia.
    simpl. by rewrite <- app_assoc.
Qed.

(** What the export step writes once every column is stored: the csv
    lines and the sli items. *)
Lemma filled_export nb N a vs axis a' :
  filled nb N a vs -> length vs = N ->
  assign_column 0 axis a = Ok a' ->
  savetxt (transpose a') = broadcast nb axis :: vs /\
  tofile (transpose (drop_first_column a')) = concat vs /\
  column 0 a' = broadcast nb axis.
Proof.
  intros (Hwf & Hr & Hc & _ & _ & Hcols) Hlen Ha.
  apply assign_column_ok in Ha as (_ & _ & _ & _ & _ & Hc' & Hcols'); [|done].
  rewrite Hr, Hcols, Hlen, Nat.sub_diag in Hcols'. simpl in Hcols'.
  rewrite app_nil_r in Hcols'.
  split; [exact Hcols'|]. split.
  - unfold tofile. fold (columns (drop_first_column a')).
    by rewrite columns_drop_first_column, Hcols'.
  - unfold columns in Hcols'; simpl in Hcols'.
    rewrite Hc', Hc, Nat.add_1_r in Hcols'. simpl in Hcols'. congruence.
Qed.

End Fill.

(** ** The canopy script: its simulation loop *)

Module VegFacts.
Import Numpy NumpyFacts Fill Veg.

Section Loop.
Context `{Prosail}.

(** The column the loop stores for a call of the canopy model that
    returned. *)
Definition stored_spectrum (nb : nat) (e : event) : option (list Q) :=
  match e with
  | Ev_prosail a =>
      match pyprosail_run a with
      | Ok sp => Some (broadcast nb (map snd sp))
      | Raise _ => None
      end
  | _ => None
  end.

(** A model call of the trace returned (rather than raised). *)
Definition returned (e : event) : Prop :=
  match e with
  | Ev_prosail a => is_raise (pyprosail_run a) = false
  | _ => True
  end.

Lemma simulate_bundle_cases p i j arr sp :
  (exists e, simulate_bundle p i j (arr, sp) = ([], Raise e) /\
             bundle_args p i j = Raise e) \/
  (exists a e, simulate_bundle p i j (arr, sp) = ([Ev_prosail a], Raise e) /\
               bundle_args p i j = Ok a /\
               (pyprosail_run a = Raise e \/
                exists s, pyprosail_run a = Ok s /\
                          assign_column (j + 1) (map snd s) arr = Raise e)) \/
  (exists a s arr', simulate_bundle p i j (arr, sp) = ([Ev_prosail a], Ok (arr', Some s)) /\
                    bundle_args p i j = Ok a /\ pyprosail_run a = Ok s /\
                    assign_column (j + 1) (map snd s) arr = Ok arr').
Proof.
  unfold simulate_bundle, call_prosail, lift; simpl.
  destruct (bundle_args p i j) as [a|e] eqn:Ha; simpl; [|left; eauto].
  right. destruct (pyprosail_run a) as [s|e] eqn:Hs; simpl.
  - destruct (assign_column (j + 1) (map snd s) arr) as [arr'|e] eqn:Harr; simpl.
    + right. exists a, s, arr'. eauto.
    + left. exists a, e. eauto 10.
  - left. exists a, e. eauto.
Qed.

(** Every run of the loop, finished or not: the trace is the calls made,
    each with the arguments of its own pass. *)
Lemma loop_trace p i n st tr r :
  for_range n (simulate_bundle p i) st = (tr, r) ->
  exists args, tr = map Ev_prosail args /\ length args <= n /\
    (forall k a, args !! k = Some a -> bundle_args p i k = Ok a) /\
    (forall st', r = Ok st' -> length args = n).
Proof.
  revert tr r. induction n as [|n IH]; intros tr r.
  - intros [= <- <-]. exists []. split_and!; auto. intros ??; by rewrite lookup_nil.
  - rewrite for_range_S. intros Hrun.
    apply sbind_inv in Hrun as [(t1 & [arr sp] & t2 & H1 & H2 & ->)|(e & H1 & ->)].
    + destruct (IH _ _ H1) as (args & -> & Hlen & Hargs & Hn).
      specialize (Hn _ eq_refl).
      destruct (simulate_bundle_cases p i n arr sp)
        as [(e & He & _)|[(a & e & He & Ha & _)|(a & s & arr' & He & Ha & _)]];
        rewrite He in H2; injection H2 as <- <-.
      * exists args. rewrite app_nil_r. split_and!; auto. done.
      * exists (args ++ [a]). rewrite map_app, length_app; simpl.
        split_and!; [done|lia| |done].
        intros k a' Hk. apply lookup_app_Some in Hk as [Hk|[Hge Hk]]; [eauto|].
        apply list_lookup_singleton_Some in Hk as [Hk ->].
        replace k with n by lia. done.
      * exists (args ++ [a]). rewrite map_app, length_app; simpl.
        split_and!; [done|lia| |intros; lia].
        intros k a' Hk. apply lookup_app_Some in Hk as [Hk|[Hge Hk]]; [eauto|].
        apply list_lookup_singleton_Some in Hk as [Hk ->].
        replace k with n by lia. done.
    + destruct (IH _ _ H1) as (args & -> & Hlen & Hargs & _).
      exists args. split_and!; auto. done.
Qed.

(** A finished loop: every call returned, and the array holds the
    spectra of the calls, in call order, in its columns 1, 2, ... *)
Lemma loop_finished p i nb N n arr0 sp0 tr arr sp :
  for_range n (simulate_bundle p i) (arr0, sp0) = (tr, Ok (arr, sp)) ->
  filled nb N arr0 [] ->
  Forall returned tr /\
  length (omap (stored_spectrum nb) tr) = n /\
  filled nb N arr (omap (stored_spectrum nb) tr) /\
  match n with
  | 0 => sp = sp0
  | S _ => exists a s, last tr = Some (Ev_prosail a) /\ pyprosail_run a = Ok s /\ sp = Some s
  end.
Proof.
  intros Hrun H0. revert tr arr sp Hrun. induction n as [|n IH]; intros tr arr sp.
  - intros [= <- <- <-]. simpl. auto.
  - rewrite for_range_S. intros Hrun.
    apply sbind_ok_inv in Hrun as (t1 & [arr1 sp1] & t2 & H1 & H2 & ->).
    destruct (IH _ _ _ H1) as (Hret & Hlen & Hfill & _).
    destruct (simulate_bundle_cases p i n arr1 sp1)
      as [(e & He & _)|[(a & e & He & _)|(a & s & arr' & He & Ha & Hs & Harr)]];
      rewrite He in H2; try discriminate.
    injection H2 as <- <- <-.
    destruct Hfill as (Hwf & Hr & Hfill').
    assert (Hfill : filled nb N arr1 (omap (stored_spectrum nb) t1)) by done.
    rewrite omap_app; simpl. rewrite Hs.
    rewrite <- Hlen in Harr.
    apply (filled_assign nb N) in Harr as [Harr _]; [|done].
    split_and!.
    + apply Forall_app. split; [done|]. constructor; [|done]. simpl. by rewrite Hs.
    + rewrite length_app; simpl. lia.
    + done.
    + exists a, s. by rewrite last_snoc.
Qed.

End Loop.
End VegFacts.

Module VegRun.
Import Numpy NumpyFacts Fill Veg VegFacts.

#[local] Arguments savetxt : simpl never.
#[local] Arguments tofile : simpl never.
#[local] Arguments transpose : simpl never.
#[local] Arguments drop_first_column : simpl never.
#[local] Arguments assign_column : simpl never.

Section Run.
Context `{Prosail}.

(** The three file names. *)
Definition csv_path (cfg : config) : string := output_base cfg +:+ "_speclib.csv".
Definition sli_path (cfg : config) : string := output_base cfg +:+ "_speclib.sli".
Definition hdr_path (cfg : config) : string := output_base cfg +:+ "_speclib.hdr".

(** What [i] holds when the simulation loop starts. *)
Definition leftover_i (cfg : config) : option nat :=
  after_range (n_bundles cfg) (after_range (n_bundles cfg) None).

(** The shape of every run of lines 138-194: the calls of the loop, and
    then either nothing more (the run raised) or the three writes. *)
Lemma veg_run_shape cfg p tr r :
  simulate_and_export cfg p = (tr, r) ->
  exists args,
    length args <= n_bundles cfg /\
    (forall k a, args !! k = Some a -> bundle_args p (leftover_i cfg) k = Ok a) /\
    ((tr = map Ev_prosail args /\ is_raise r = true) \/
     (exists axis arr a s,
        let spectra := omap (stored_spectrum (nb cfg)) (map Ev_prosail args) in
        r = Ok tt /\
        length args = n_bundles cfg /\
        Forall returned (map Ev_prosail args) /\
        length spectra = n_bundles cfg /\
        Forall (fun v => length v = nb cfg) spectra /\
        last args = Some a /\ pyprosail_run a = Ok s /\
        axis = broadcast (nb cfg) (map fst s) /\
        length axis = nb cfg /\
        column 0 arr = axis /\
        tr = map Ev_prosail args ++
             [Ev_savetxt (csv_path cfg) (axis :: spectra);
              Ev_tofile (sli_path cfg) (concat spectra);
              Ev_write_envi_header (hdr_path cfg)
                (metadata cfg (spectra_names (n_bundles cfg)) arr)])).
Proof.
  unfold simulate_and_export. fold (leftover_i cfg).
  fold (csv_path cfg) (sli_path cfg) (hdr_path cfg).
  set (n := n_bundles cfg).
  destruct (for_range n (simulate_bundle p (leftover_i cfg)) (zeros (nb cfg) (n + 1), None))
    as [t [[arr sp]|e]] eqn:Hloop; simpl.
  2:{ intros [= <- <-].
      destruct (loop_trace _ _ _ _ _ _ Hloop) as (args & -> & Hlen & Hargs & _).
      exists args. split_and!; auto. }
  destruct (loop_trace _ _ _ _ _ _ Hloop) as (args & -> & Hlen & Hargs & Hn).
  specialize (Hn _ eq_refl).
  destruct (loop_finished _ _ (nb cfg) n _ _ _ _ _ _ Hloop (filled_zeros _ _))
    as (Hret & Hcount & Hfill & Hsp).
  intros Hrun. exists args. split; [done|]. split; [done|].
  destruct n as [|n'] eqn:Hn0.
  { subst sp. simpl in Hrun. injection Hrun as <- <-. left. by rewrite app_nil_r. }
  destruct Hsp as (a & s & Hlast & Hs & ->). simpl in Hrun.
  destruct (assign_column 0 (map fst s) arr) as [arr'|e] eqn:Harr; simpl in Hrun.
  2:{ injection Hrun as <- <-. left. by rewrite app_nil_r. }
  injection Hrun as <- <-. right.
  pose proof Harr as Harr0.
  eapply filled_export in Harr as (Hcsv & Hsli & Hcol); [|exact Hfill|done].
  apply assign_column_ok in Harr0 as (_ & Haxis & _); [|apply Hfill].
  destruct Hfill as (_ & Hrows & _ & _ & Hlens & _). rewrite Hrows in Haxis.
  exists (broadcast (nb cfg) (map fst s)), arr', a, s. simpl.
  rewrite Hcsv, Hsli. split_and!; auto.
  - rewrite last_lookup in Hlast. rewrite last_lookup.
    rewrite length_map in Hlast. rewrite list_lookup_fmap in Hlast.
    destruct (args !! pred (length args)); simpl in *; congruence.
  - by apply broadcast_length.
Qed.

End Run.
End VegRun.

(** ** The canopy script: its sampling loop *)

Module VegSampling.
Import Veg.

(** [x] lies in the closed interval [lo, hi]. *)
Definition within (lo hi x : Q) : Prop := (lo <= x)%Q /\ (x <= hi)%Q.

(** The four truncated parameters of a parameter set lie in the
    intervals the script gives them. *)
Definition in_declared_intervals (c k m l : Q) : Prop :=
  within 5 75 c /\ within 1.5 15 k /\ within 0.0022 0.0365 m /\ within 0.1 18 l.

Definition lists_in_declared_intervals (p : params) : Prop :=
  Forall (within 5 75) (chloro p) /\
  Forall (within 1.5 15) (caroten p) /\
  Forall (within 0.0022 0.0365) (LMA p) /\
  Forall (within 0.1 18) (LAI p).

(** The fixed geometry: zenith 20 and nadir view, for every bundle. *)
Definition fixed_geometry (n : nat) (p : params) : Prop :=
  length (s_za p) = n /\ Forall (fun z => z == 20)%Q (s_za p) /\
  v_az p = replicate n 0%Q /\ v_za p = replicate n 0%Q.

Lemma out_of_range_false lo hi x :
  out_of_range lo hi x = false <-> within lo hi x.
Proof.
  unfold out_of_range, within.
  rewrite orb_false_iff, !negb_false_iff, !Qle_bool_iff. done.
Qed.

Section Facts.
Context {G : Type} `{RandomSource G}.

Lemma gbind_inv {A B} (m : @sampler G A) (k : A -> @sampler G B) g r :
  gbind m k g = Some r -> exists a g1, m g = Some (a, g1) /\ k a g1 = Some r.
Proof.
  unfold gbind. destruct (m g) as [[a g1]|]; [|done]. intros Hk. by exists a, g1.
Qed.

Lemma uniform_inv a b g x g' :
  uniform a b g = Some (x, g') -> exists u, x = (a + (b - a) * u)%Q.
Proof.
  unfold uniform. destruct (random g) as [u g1]. intros [= <- <-]. by exists u.
Qed.

(** What the rejection loop lets through lies in the interval. *)
Lemma redraw_within fuel mu sigma lo hi x g y g' :
  redraw fuel mu sigma lo hi x g = Some (y, g') -> within lo hi y.
Proof.
  revert x g. induction fuel as [|fuel IH]; intros x g; simpl;
    destruct (out_of_range lo hi x) eqn:Hx; try done.
  - intros [= <- <-]. by apply out_of_range_false.
  - destruct (gauss mu sigma g) as [x' g1]. apply IH.
  - intros [= <- <-]. by apply out_of_range_false.
Qed.

Lemma truncated_gauss_within fuel mu sigma lo hi g y g' :
  truncated_gauss fuel mu sigma lo hi g = Some (y, g') -> within lo hi y.
Proof.
  unfold truncated_gauss. intros Hy.
  apply gbind_inv in Hy as (x & g1 & _ & Hy). by eapply redraw_within.
Qed.



Lemma sample_bundle_inv fuel p g p' g' :
  sample_bundle fuel p g = Some (p', g') ->
  exists n c k w m r l h inc bim az u,
    in_declared_intervals c k m l /\
    p' = {| N := N p ++ [n];
            chloro := chloro p ++ [c];
            caroten := caroten p ++ [k];
            brown := brown p ++ [0%Q];
            EWT := EWT p ++ [w];
            LMA := LMA p ++ [m];
            soil_reflectance := soil_reflectance p ++ [r];
            LAI := LAI p ++ [l];
            hot_spot := hot_spot p ++ [h];
            LAD_inclination := LAD_inclination p ++ [inc];
            LAD_bimodality := LAD_bimodality p ++ [bim];
            s_az := s_az p ++ [az];
            s_za := s_za p ++ [(20 + (20 - 20) * u)%Q];
            v_az := v_az p ++ [0%Q];
            v_za := v_za p ++ [0%Q] |}.
Proof.
  unfold sample_bundle. intros Hs.
  apply gbind_inv in Hs as (n & g1 & _ & Hs).
  apply gbind_inv in Hs as (c & g2 & Hc & Hs).
  apply gbind_inv in Hs as (k & g3 & Hk & Hs).
  apply gbind_inv in Hs as (w & g4 & _ & Hs).
  apply gbind_inv in Hs as (m & g5 & Hm & Hs).
  apply gbind_inv in Hs as (r & g6 & _ & Hs).
  apply gbind_inv in Hs as (l & g7 & Hl & Hs).
  apply gbind_inv in Hs as (h & g8 & _ & Hs).
  apply gbind_inv in Hs as (inc & g9 & _ & Hs).
  apply gbind_inv in Hs as (bim & g10 & _ & Hs).
  apply gbind_inv in Hs as (az & g11 & _ & Hs).
  apply gbind_inv in Hs as (za & g12 & Hza & Hs).
  apply uniform_inv in Hza as [u ->].
  injection Hs as <- <-.
  exists n, c, k, w, m, r, l, h, inc, bim, az, u. split; [|done].
  unfold in_declared_intervals. split_and!; by eapply truncated_gauss_within.
Qed.

Lemma degenerate_uniform u : (20 + (20 - 20) * u == 20)%Q.
Proof. ring. Qed.

(** The sampling loop keeps both properties of the lists it extends. *)
Lemma sample_loop_keeps fuel n k p g p' g' :
  sample_loop fuel n p g = Some (p', g') ->
  lists_in_declared_intervals p -> fixed_geometry k p ->
  lists_in_declared_intervals p' /\ fixed_geometry (k + n) p'.
Proof.
  revert k p g. induction n as [|n IH]; intros k p g; simpl.
  - intros [= <- <-]. by rewrite Nat.add_0_r.
  - intros Hs Hp Hg. apply gbind_inv in Hs as (p1 & g1 & H1 & Hs).
    replace (k + S n) with (S k + n) by lia.
    apply (IH _ _ _ Hs); clear IH Hs.
    + apply sample_bundle_inv in H1
        as (? & c & ? & ? & ? & ? & ? & ? & ? & ? & ? & ? & Hin & ->).
      destruct Hin as (? & ? & ? & ?), Hp as (? & ? & ? & ?).
      unfold lists_in_declared_intervals; simpl.
      rewrite !Forall_app, !Forall_singleton. done.
    + apply sample_bundle_inv in H1
        as (? & c & ? & ? & ? & ? & ? & ? & ? & ? & ? & u & _ & ->).
      destruct Hg as (Hlen & Hza & Hva & Hvz).
      unfold fixed_geometry; simpl.
      rewrite length_app, Forall_app, Forall_singleton, Hva, Hvz; simpl.
      split_and!; [lia|done|apply degenerate_uniform| |];
        by rewrite <- replicate_cons_app.
Qed.

End Facts.
End VegSampling.

(** ** Indexing *)

Lemma getitem_ok {A} (l : list A) i x : getitem l i = Ok x <-> l !! i = Some x.
Proof. unfold getitem. destruct (l !! i); split; congruence. Qed.

Lemma rbind_ok_inv {A B} (r : result A) (k : A -> result B) b :
  rbind r k = Ok b -> exists a, r = Ok a /\ k a = Ok b.
Proof. destruct r as [a|e]; simpl; [|done]. intros Hk. by exists a. Qed.

Lemma take_indices_ok {A} (l : list A) idx xs :
  take_indices l idx = Ok xs ->
  length xs = length idx /\ Forall2 (fun i x => l !! i = Some x) idx xs.
Proof.
  revert xs. induction idx as [|i idx IH]; intros xs; simpl.
  - intros [= <-]. auto.
  - intros Hx. apply rbind_ok_inv in Hx as (x & Hx & Hk).
    apply rbind_ok_inv in Hk as (xs' & Hxs & [= <-]).
    apply getitem_ok in Hx. destruct (IH _ Hxs). simpl. auto.
Qed.

(** ** The canopy script: the arguments of a call *)

Module VegArgs.
Import Veg.

(** The arguments of the call of pass [j] are items [j] of the leaf and
    canopy lists, and items [i] of the four geometry lists. *)
Lemma bundle_args_inv p i j a :
  bundle_args p i j = Ok a ->
  N p !! j = Some (a_N a) /\
  chloro p !! j = Some (a_chloro a) /\
  caroten p !! j = Some (a_caroten a) /\
  brown p !! j = Some (a_brown a) /\
  EWT p !! j = Some (a_EWT a) /\
  LMA p !! j = Some (a_LMA a) /\
  soil_reflectance p !! j = Some (a_soil_reflectance a) /\
  LAI p !! j = Some (a_LAI a) /\
  hot_spot p !! j = Some (a_hot_spot a) /\
  LAD_inclination p !! j = Some (fst (a_LIDF a)) /\
  LAD_bimodality p !! j = Some (snd (a_LIDF a)) /\
  exists i', i = Some i' /\
    s_za p !! i' = Some (a_solar_zenith a) /\
    s_az p !! i' = Some (a_solar_azimuth a) /\
    v_za p !! i' = Some (a_view_zenith a) /\
    v_az p !! i' = Some (a_view_azimuth a).
Proof.
  unfold bundle_args. intros Ha.
  repeat (apply rbind_ok_inv in Ha as (? & ?%getitem_ok & Ha)).
  apply rbind_ok_inv in Ha as (i' & Hi & Ha).
  repeat (apply rbind_ok_inv in Ha as (? & ?%getitem_ok & Ha)).
  injection Ha as <-. simpl.
  destruct i as [i|]; [|done]. injection Hi as ->.
  split_and!; try done. by exists i'.
Qed.

End VegArgs.

(** ** Traces: properties every event of a run has *)

Lemma sbind_trace_Forall {A B} (P : event -> Prop) (m : script A) (k : A -> script B) :
  Forall P (fst m) -> (forall a, Forall P (fst (k a))) -> Forall P (fst (sbind m k)).
Proof.
  destruct m as [t [a|e]]; simpl; [|done].
  intros Ht Hk. specialize (Hk a). destruct (k a) as [t' r]. simpl in *.
  by apply Forall_app.
Qed.

Lemma lift_trace_Forall {A} (P : event -> Prop) (r : result A) : Forall P (fst (lift r)).
Proof. constructor. Qed.

Lemma for_each_trace_Forall {St} (P : event -> Prop) js (body : nat -> St -> script St) st :
  (forall j st', Forall P (fst (body j st'))) -> Forall P (fst (for_each js body st)).
Proof.
  intros Hbody. revert st. induction js as [|j js IH]; intros st; simpl.
  - constructor.
  - apply sbind_trace_Forall; auto.
Qed.

(** The model invocations of a trace, counted. *)
Definition count_invocations (tr : list event) : nat :=
  length (List.filter is_model_invocation tr).

Lemma count_invocations_app t1 t2 :
  count_invocations (t1 ++ t2) = count_invocations t1 + count_invocations t2.
Proof. unfold count_invocations. by rewrite List.filter_app, length_app. Qed.

Lemma count_invocations_prosail args :
  count_invocations (map Ev_prosail args) = length args.
Proof.
  unfold count_invocations. induction args as [|a args IH]; simpl; [done|].
  by rewrite IH.
Qed.

Lemma count_invocations_quiet tr :
  Forall (fun e => is_model_invocation e = false) tr -> count_invocations tr = 0.
Proof.
  unfold count_invocations. induction 1 as [|e tr He _ IH]; simpl; [done|].
  by rewrite He.
Qed.

(** ** The soil script: its two loops *)

Module SoilFacts.
Import Numpy NumpyFacts Fill Soil.

#[local] Arguments assign_column : simpl never.

Section Loop.
Context `{World}.
Variable cfg : config.
Variable d : draws.
Variable run : runner.
Variable good_bands : list nat.
Variable soil_spectra output_sixs : list string.

(** The wavelength argument of the runner: passed for the custom sensor
    alone. *)
Definition wl_arg : option (list Q) :=
  if String.eqb (target_sensor cfg) "custom" then Some (wl cfg) else None.

Definition run_result (r : runner) (s : sixs) : result (list Q * list Q) :=
  run_sixs_params r s wl_arg (output_type cfg).

(** The column the loop stores for a runner call that returned. *)
Definition stored_spectrum (e : event) : option (list Q) :=
  match e with
  | Ev_sixs r s =>
      match run_result r s with
      | Ok out =>
          match take_indices (snd out) good_bands with
          | Ok selected => Some selected
          | Raise _ => None
          end
      | Raise _ => None
      end
  | _ => None
  end.

(** A runner call of the trace returned (rather than raised). *)
Definition returned (e : event) : Prop :=
  match e with
  | Ev_sixs r s => is_raise (run_result r s) = false
  | _ => True
  end.

(** The variable [wavelengths] after the events [tr], from [w0]: what
    the last runner call that returned gave. *)
Definition wavelengths_after (w0 : option (list Q)) (tr : list event)
  : option (list Q) :=
  foldl (fun w e =>
           match e with
           | Ev_sixs r s =>
               match run_result r s with Ok out => Some (fst out) | Raise _ => w end
           | _ => w
           end) w0 tr.

(** The ground spectrum of a runner call comes from a soil file: its
    wavelength axis divided by 1000 if the unit tag read "Nanometers",
    and as it was for every other tag. *)
Definition ground_from_soil_file (e : event) : Prop :=
  match e with
  | Ev_sixs r s =>
      exists path soil0 first g,
        readJFSC path = Ok soil0 /\
        let soil := remove_water_bands soil0 in
        spectra soil !! 0 = Some first /\
        s_ground_reflectance s =
          Some (g, zip (if String.eqb (band_unit soil) "Nanometers"
                        then map (fun x => (x / 1000)%Q) (band_centers soil)
                        else band_centers soil) first)
  | _ => True
  end.

Lemma to_micrometers_spectra soil : spectra (to_micrometers soil) = spectra soil.
Proof. unfold to_micrometers. by destruct (String.eqb _ _). Qed.

Lemma to_micrometers_axis soil :
  band_centers (to_micrometers soil) =
  if String.eqb (band_unit soil) "Nanometers"
  then map (fun x => (x / 1000)%Q) (band_centers soil)
  else band_centers soil.
Proof. unfold to_micrometers. by destruct (String.eqb _ _). Qed.

Lemma two_columns_ok xs ys sp : two_columns xs ys = Ok sp -> sp = zip xs ys.
Proof. unfold two_columns. destruct (Nat.eqb _ _); congruence. Qed.

(** One pass of the inner loop that finished. *)
Lemma simulate_soil_ok g i j s arr w t s' arr' w' :
  simulate_soil cfg run good_bands soil_spectra g i j (s, arr, w)
    = (t, Ok (s', arr', w')) ->
  exists path selected out,
    t = [Ev_readJFSC path; Ev_sixs run s'] /\
    run_result run s' = Ok out /\
    take_indices (snd out) good_bands = Ok selected /\
    assign_column (i * n_bundles cfg + j + 1) selected arr = Ok arr' /\
    w' = Some (fst out).
Proof.
  unfold simulate_soil, call_readJFSC, call_sixs, lift. fold wl_arg.
  destruct (getitem soil_spectra j) as [path|] eqn:Hpath; simpl; [|done].
  destruct (readJFSC path) as [soil0|] eqn:Hsoil; simpl; [|done].
  destruct (getitem _ 0) as [first|] eqn:Hfirst; simpl; [|done].
  destruct (two_columns _ first) as [sp|] eqn:Hsp; simpl; [|done].
  fold (run_result run (set_ground_reflectance s (g, sp))).
  destruct (run_result run _) as [out|] eqn:Hout; simpl; [|done].
  destruct (take_indices _ good_bands) as [sel|] eqn:Hsel; simpl; [|done].
  destruct (assign_column _ sel arr) as [arr1|] eqn:Harr; simpl; [|done].
  intros [= <- <- <- <-]. exists path, sel, out. done.
Qed.

(** Every pass of the inner loop, finished or not: no artifact is
    written, and the ground spectrum of a runner call is that of the
    soil file read, converted as [ground_from_soil_file] says. *)
Lemma simulate_soil_trace g i j st :
  Forall (fun e => is_artifact_write e = false /\ ground_from_soil_file e)
         (fst (simulate_soil cfg run good_bands soil_spectra g i j st)).
Proof.
  destruct st as [[s arr] w].
  unfold simulate_soil, call_readJFSC, call_sixs, lift.
  destruct (getitem soil_spectra j) as [path|] eqn:Hpath; simpl; [|constructor].
  destruct (readJFSC path) as [soil0|] eqn:Hsoil; simpl; [|by repeat constructor].
  destruct (getitem _ 0) as [first|] eqn:Hfirst; simpl; [|by repeat constructor].
  destruct (two_columns _ first) as [sp|] eqn:Hsp; simpl; [|by repeat constructor].
  assert (Hev : ground_from_soil_file (Ev_sixs run (set_ground_reflectance s (g, sp)))).
  { simpl. exists path, soil0, first, g. split; [done|].
    apply getitem_ok in Hfirst. rewrite to_micrometers_spectra in Hfirst.
    split; [done|]. apply two_columns_ok in Hsp. rewrite to_micrometers_axis in Hsp.
    by rewrite Hsp. }
  destruct (run_sixs_params _ _ _ _) as [out|]; simpl; [|by repeat constructor].
  destruct (take_indices _ good_bands) as [sel|]; simpl; [|by repeat constructor].
  destruct (assign_column _ sel arr) as [arr1|]; simpl; by repeat constructor.
Qed.

Lemma wavelengths_after_app w0 t1 t2 :
  wavelengths_after w0 (t1 ++ t2) = wavelengths_after (wavelengths_after w0 t1) t2.
Proof. apply foldl_app. Qed.

(** The inner loop, finished: every runner call returned, and the array
    holds one more spectrum per pass, in call order. *)
Lemma inner_finished g i nb N m s0 arr0 w0 vs0 tr s arr w :
  for_range m (simulate_soil cfg run good_bands soil_spectra g i) (s0, arr0, w0)
    = (tr, Ok (s, arr, w)) ->
  length good_bands = nb ->
  filled nb N arr0 vs0 -> length vs0 = i * n_bundles cfg ->
  Forall returned tr /\
  count_invocations tr = m /\
  length (omap stored_spectrum tr) = m /\
  filled nb N arr (vs0 ++ omap stored_spectrum tr) /\
  w = wavelengths_after w0 tr.
Proof.
  intros Hrun Hnb H0 Hlen0. revert tr s arr w Hrun.
  induction m as [|m IH]; intros tr s arr w.
  - intros [= <- <- <- <-]. simpl. rewrite app_nil_r. auto.
  - rewrite for_range_S. intros Hrun.
    apply sbind_ok_inv in Hrun as (t1 & [[s1 arr1] w1] & t2 & H1 & H2 & ->).
    destruct (IH _ _ _ _ H1) as (Hret & Hcount & Hlen & Hfill & Hw).
    apply simulate_soil_ok in H2 as (path & sel & out & -> & Hout & Hsel & Harr & ->).
    assert (Hstored : omap stored_spectrum [Ev_readJFSC path; Ev_sixs run s] = [sel]).
    { simpl. by rewrite Hout, Hsel. }
    rewrite omap_app, Hstored, count_invocations_app, wavelengths_after_app.
    replace (i * n_bundles cfg + m + 1)
      with (length (vs0 ++ omap stored_spectrum t1) + 1) in Harr
      by (rewrite length_app; lia).
    eapply filled_assign in Harr as [Harr _]; [|exact Hfill].
    apply take_indices_ok in Hsel as [Hsel _].
    unfold broadcast in Harr. rewrite Hsel, Hnb, Nat.eqb_refl in Harr.
    split_and!.
    + apply Forall_app. split; [done|]. repeat constructor. simpl. by rewrite Hout.
    + unfold count_invocations at 2. simpl. lia.
    + rewrite length_app. simpl. lia.
    + by rewrite app_assoc.
    + simpl. by rewrite Hout.
Qed.

(** One pass of the outer loop that finished: its inner loop finished,
    and the 6S input file is written after it. *)
Lemma simulate_atmosphere_ok i s0 arr0 w0 t st' :
  simulate_atmosphere cfg d run good_bands soil_spectra output_sixs i (s0, arr0, w0)
    = (t, Ok st') ->
  exists s1 g inner path,
    for_range (n_bundles cfg)
      (simulate_soil cfg run good_bands soil_spectra g i) (s1, arr0, w0)
      = (inner, Ok st') /\
    t = inner ++ [Ev_write_input_file path (fst (fst st'))].
Proof.
  intros Hrun. unfold simulate_atmosphere in Hrun. cbn beta iota in Hrun.
  do 11 (apply sbind_ok_inv in Hrun as (? & ? & ? & [_ ->]%lift_ok_inv & Hrun & ->)).
  apply sbind_ok_inv in Hrun as (inner & st1 & t2 & Hinner & Hrun & ->).
  apply sbind_ok_inv in Hrun as (? & path & ? & [_ ->]%lift_ok_inv & Hrun & ->).
  unfold emit in Hrun. simpl in Hrun. injection Hrun as <- <-.
  eexists _, _, inner, path. split; [exact Hinner|done].
Qed.

Lemma simulate_atmosphere_trace i st :
  Forall (fun e => is_artifact_write e = false /\ ground_from_soil_file e)
    (fst (simulate_atmosphere cfg d run good_bands soil_spectra output_sixs i st)).
Proof.
  destruct st as [[s arr] w]. unfold simulate_atmosphere.
  repeat (apply sbind_trace_Forall; [apply lift_trace_Forall|intros ?]).
  apply sbind_trace_Forall.
  { apply for_each_trace_Forall. intros. apply simulate_soil_trace. }
  intros st'. apply sbind_trace_Forall; [apply lift_trace_Forall|intros path].
  apply sbind_trace_Forall; [by repeat constructor|intros _]. constructor.
Qed.

(** The outer loop, finished. *)
Lemma outer_finished nb N k s0 arr0 w0 tr s arr w :
  for_range k
    (simulate_atmosphere cfg d run good_bands soil_spectra output_sixs)
    (s0, arr0, w0) = (tr, Ok (s, arr, w)) ->
  length good_bands = nb ->
  filled nb N arr0 [] ->
  Forall returned tr /\
  count_invocations tr = k * n_bundles cfg /\
  length (omap stored_spectrum tr) = k * n_bundles cfg /\
  filled nb N arr (omap stored_spectrum tr) /\
  w = wavelengths_after w0 tr.
Proof.
  intros Hrun Hnb H0. revert tr s arr w Hrun.
  induction k as [|k IH]; intros tr s arr w.
  - intros [= <- <- <- <-]. simpl. auto.
  - rewrite for_range_S. intros Hrun.
    apply sbind_ok_inv in Hrun as (t1 & [[s1 arr1] w1] & t2 & H1 & H2 & ->).
    destruct (IH _ _ _ _ H1) as (Hret & Hcount & Hlen & Hfill & Hw).
    apply simulate_atmosphere_ok in H2 as (s2 & g & inner & path & Hinner & ->).
    eapply inner_finished in Hinner
      as (Hret' & Hcount' & Hlen' & Hfill' & Hw'); [|done|exact Hfill|done].
    rewrite !omap_app, !count_invocations_app, !wavelengths_after_app. simpl.
    rewrite app_nil_r, length_app.
    split_and!.
    + rewrite !Forall_app. split_and!; [done|done|by repeat constructor].
    + unfold count_invocations at 3. simpl. lia.
    + lia.
    + done.
    + by subst.
Qed.

End Loop.
End SoilFacts.

Module SoilRun.
Import Numpy NumpyFacts Fill Soil SoilFacts.

#[local] Arguments savetxt : simpl never.
#[local] Arguments tofile : simpl never.
#[local] Arguments transpose : simpl never.
#[local] Arguments drop_first_column : simpl never.
#[local] Arguments assign_column : simpl never.
#[local] Arguments zeros : simpl never.

Section Run.
Context `{World}.

(** The three file names. *)
Definition csv_path (cfg : config) : string := output_base cfg +:+ "_speclib.csv".
Definition sli_path (cfg : config) : string := output_base cfg +:+ "_speclib.sli".
Definition hdr_path (cfg : config) : string := output_base cfg +:+ "_speclib.hdr".

(** Every runner call of every run, finished or not, has the ground
    spectrum of a soil file. *)
Lemma main_trace cfg d : Forall ground_from_soil_file (fst (main cfg d)).
Proof.
  unfold main.
  apply sbind_trace_Forall; [apply lift_trace_Forall|intros soil_spectra].
  apply sbind_trace_Forall; [apply lift_trace_Forall|intros [[run nbands] good_bands]].
  apply sbind_trace_Forall.
  { apply for_each_trace_Forall. intros i st.
    eapply Forall_impl; [apply simulate_atmosphere_trace|]. by intros e [_ ?]. }
  intros st.
  do 3 (apply sbind_trace_Forall; [apply lift_trace_Forall|intros ?]).
  do 2 (apply sbind_trace_Forall; [by repeat constructor|intros _]).
  apply sbind_trace_Forall; [apply lift_trace_Forall|intros ?].
  destruct envi_bound; by repeat constructor.
Qed.

(** The shape of every run: nothing at all when the set-up raises;
    otherwise the events of the two loops, none of them an artifact, and
    then either nothing more (the run raised) or the csv and sli writes,
    followed by the hdr write if the name [envi] is bound. *)
Lemma soil_run_shape cfg d tr r :
  main cfg d = (tr, r) ->
  (tr = [] /\ is_raise r = true /\
   (is_raise (sample_soil_files cfg d) = true \/
    is_raise (sensor_setup (target_sensor cfg) (wl cfg)) = true)) \/
  exists run num_bands good_bands loop,
    sensor_setup (target_sensor cfg) (wl cfg) = Ok (run, num_bands, good_bands) /\
    Forall (fun e => is_artifact_write e = false) loop /\
    ((tr = loop /\ is_raise r = true) \/
     exists wavelengths axis,
       let spectra := omap (stored_spectrum cfg good_bands) loop in
       let nb := length good_bands in
       Forall (returned cfg) loop /\
       count_invocations loop = n_bundles cfg * n_atmospheres cfg /\
       length spectra = n_bundles cfg * n_atmospheres cfg /\
       Forall (fun v => length v = nb) spectra /\
       wavelengths_after cfg None loop = Some wavelengths /\
       take_indices wavelengths good_bands = Ok axis /\
       tr = loop ++
            Ev_savetxt (csv_path cfg) (axis :: spectra) ::
            Ev_tofile (sli_path cfg) (concat spectra) ::
            (if envi_bound
             then [Ev_write_envi_header (hdr_path cfg)
                     (metadata cfg nb (spectra_names (n_bundles cfg)) axis)]
             else []) /\
       r = if envi_bound then Ok tt else Raise NameError).
Proof.
  unfold main. fold (csv_path cfg) (sli_path cfg) (hdr_path cfg).
  destruct (sample_soil_files cfg d) as [soil_spectra|e] eqn:Hsample; simpl.
  2:{ intros [= <- <-]. left. auto. }
  destruct (sensor_setup _ _) as [[[run nbands] good_bands]|e] eqn:Hsensor; simpl.
  2:{ intros [= <- <-]. left. auto. }
  set (N := n_bundles cfg * n_atmospheres cfg).
  set (s0 := SixS _ _ _ _ _ _).
  destruct (for_range _ _ _) as [loop [[[s arr] w]|e]] eqn:Hloop; simpl.
  2:{ intros [= <- <-]. right. exists run, nbands, good_bands, loop.
      split; [done|]. split; [|by left].
      replace loop with (fst (for_range (n_atmospheres cfg)
        (simulate_atmosphere cfg d run good_bands soil_spectra (atmosphere_files cfg))
        (s0, zeros (length good_bands) (N + 1), None))) by by rewrite Hloop.
      apply for_each_trace_Forall. intros i st.
      eapply Forall_impl; [apply simulate_atmosphere_trace|]. by intros ? [? _]. }
  assert (Hquiet : Forall (fun e => is_artifact_write e = false) loop).
  { replace loop with (fst (for_range (n_atmospheres cfg)
      (simulate_atmosphere cfg d run good_bands soil_spectra (atmosphere_files cfg))
      (s0, zeros (length good_bands) (N + 1), None))) by by rewrite Hloop.
    apply for_each_trace_Forall. intros i st.
    eapply Forall_impl; [apply simulate_atmosphere_trace|]. by intros ? [? _]. }
  eapply outer_finished in Hloop
    as (Hret & Hcount & Hlen & Hfill & Hw); [|done|apply filled_zeros].
  intros Hrun. right. exists run, nbands, good_bands, loop.
  split; [done|]. split; [done|].
  destruct w as [wavelengths|]; simpl in Hrun.
  2:{ injection Hrun as <- <-. left. by rewrite app_nil_r. }
  destruct (take_indices wavelengths good_bands) as [axis|e] eqn:Haxis; simpl in Hrun.
  2:{ injection Hrun as <- <-. left. by rewrite app_nil_r. }
  destruct (assign_column 0 axis arr) as [arr'|e] eqn:Harr; simpl in Hrun.
  2:{ injection Hrun as <- <-. left. by rewrite app_nil_r. }
  assert (HN : length (omap (stored_spectrum cfg good_bands) loop) = N)
    by (unfold N; lia).
  eapply filled_export in Harr as (Hcsv & Hsli & _); [|exact Hfill|done].
  apply take_indices_ok in Haxis as Haxis'. destruct Haxis' as [Hlen_axis _].
  unfold broadcast in Hcsv. rewrite Hlen_axis, Nat.eqb_refl in Hcsv.
  rewrite Hcsv, Hsli in Hrun.
  right. exists wavelengths, axis. simpl.
  destruct Hfill as (_ & _ & _ & _ & Hlens & _).
  split_and!; try done; try (unfold N in *; lia).
  - destruct envi_bound; simpl in Hrun; by injection Hrun as <- <-.
  - destruct envi_bound; simpl in Hrun; by injection Hrun as <- <-.
Qed.

End Run.
End SoilRun.

(** * Main theorems *)

(** Every call on the trace of the canopy script was made with the
    arguments of some pass of its loop. *)
Lemma veg_calls_have_args `{Prosail} cfg p a :
  Ev_prosail a ∈ fst (Veg.simulate_and_export cfg p) ->
  exists k, Veg.bundle_args p (VegRun.leftover_i cfg) k = Ok a.
Proof.
  intros Ha.
  destruct (Veg.simulate_and_export cfg p) as [tr r] eqn:Hrun.
  apply VegRun.veg_run_shape in Hrun as (args & _ & Hargs & Hshape).
  assert (Hin : a ∈ args).
  { simpl in Ha.
    destruct Hshape as [[-> _]|(axis & arr & ? & ? & _ & _ & _ & _ & _ & _ & _ & _ & _ & _ & ->)].
    - apply list_elem_of_fmap in Ha as (a' & [= ->] & ?). done.
    - apply elem_of_app in Ha as [Ha|Ha].
      + apply list_elem_of_fmap in Ha as (a' & [= ->] & ?). done.
      + repeat (apply elem_of_cons in Ha as [Ha|Ha]; [discriminate|]).
        by apply elem_of_nil in Ha. }
  apply list_elem_of_lookup in Hin as [k Hk]. eauto.
Qed.

(** ** Sampling (canopy script) *)

(** C3.  Whatever the generator and however many redraws the rejection
    loops needed: once the sampling loop has returned its parameter
    lists, every chlorophyll value in them lies in [5, 75], every
    carotenoid value in [1.5, 15], every leaf mass per area in
    [0.0022, 0.0365] and every leaf area index in [0.1, 18]; and so do
    the four arguments of every call of the canopy model the script then
    makes. *)
Theorem accepted_values_within_intervals
    {G : Type} `{RandomSource G} `{Prosail}
    (cfg : Veg.config) (fuel : nat) (g g' : G) (p : Veg.params) :
  Veg.sample_loop fuel (Veg.n_bundles cfg) Veg.no_params g = Some (p, g') ->
  VegSampling.lists_in_declared_intervals p /\
  Veg.main cfg fuel g = Some (Veg.simulate_and_export cfg p) /\
  forall a, Ev_prosail a ∈ fst (Veg.simulate_and_export cfg p) ->
    VegSampling.in_declared_intervals
      (a_chloro a) (a_caroten a) (a_LMA a) (a_LAI a).
Proof.
  intros Hs.
  assert (Hp : VegSampling.lists_in_declared_intervals p).
  { eapply (VegSampling.sample_loop_keeps _ _ 0) in Hs as [Hp _]; [done| |].
    - repeat split; constructor.
    - repeat split; constructor. }
  split; [done|]. split; [unfold Veg.main; by rewrite Hs|].
  intros a Ha.
  apply veg_calls_have_args in Ha as [k Hk].
  apply VegArgs.bundle_args_inv in Hk
    as (_ & Hc & Hk & _ & _ & Hm & _ & Hl & _).
  destruct Hp as (Pc & Pk & Pm & Pl).
  unfold VegSampling.in_declared_intervals.
  rewrite Forall_lookup in Pc, Pk, Pm, Pl.
  split_and!; [by eapply Pc|by eapply Pk|by eapply Pm|by eapply Pl].
Qed.

(** C3, at work: three bundles drawn from the counter generator, where
    the rejection loops do redraw. *)
Lemma accepted_values_within_intervals_witness :
  exists p g',
    @Veg.sample_loop nat Demo.counter_source 10 3 Veg.no_params 0%nat
      = Some (p, g') /\
    VegSampling.lists_in_declared_intervals p /\
    forall a,
      Ev_prosail a ∈ fst (@Veg.simulate_and_export (Demo.toy_prosail 5)
                            (Demo.veg_cfg 3 5) p) ->
      VegSampling.in_declared_intervals
        (a_chloro a) (a_caroten a) (a_LMA a) (a_LAI a).
Proof.
  eexists _, _. split; [vm_compute; reflexivity|].
  pose proof (@accepted_values_within_intervals nat Demo.counter_source
                (Demo.toy_prosail 5)
                (Demo.veg_cfg 3 5) 10 0%nat _ _ eq_refl) as (Hp & _ & Ha).
  split; [exact Hp|exact Ha].
Defined.

(** C10.  In the canopy script, for every generator and every number of
    bundles, each sampled solar zenith is 20 (it is [20 + (20 - 20) * u]
    for a draw [u]) and each view azimuth and view zenith is 0; the
    solar azimuth does vary: the counter generator gives two bundles
    different azimuths. *)
Theorem geometry_fixed_except_solar_azimuth :
  (forall (G : Type) (R : RandomSource G) (fuel n : nat) (g g' : G) (p : Veg.params),
     Veg.sample_loop fuel n Veg.no_params g = Some (p, g') ->
     VegSampling.fixed_geometry n p) /\
  (exists p g' az0 az1,
     @Veg.sample_loop nat Demo.counter_source 10 2 Veg.no_params 0%nat
       = Some (p, g') /\
     Veg.s_az p = [az0; az1] /\ ~ (az0 == az1)%Q).
Proof.
  split.
  - intros G R fuel n g g' p Hs.
    eapply (VegSampling.sample_loop_keeps _ _ 0) in Hs as [_ Hg]; [done| |].
    + repeat split; constructor.
    + repeat split; constructor.
  - eexists _, _, _, _. split; [vm_compute; reflexivity|].
    split; [reflexivity|]. by vm_compute.
Qed.

(** C10, at work: three bundles from the counter generator. *)
Lemma geometry_fixed_except_solar_azimuth_witness :
  exists p g',
    @Veg.sample_loop nat Demo.counter_source 10 3 Veg.no_params 0%nat
      = Some (p, g') /\
    VegSampling.fixed_geometry 3 p.
Proof.
  eexists _, _. split; [vm_compute; reflexivity|].
  exact (proj1 geometry_fixed_except_solar_azimuth nat Demo.counter_source
           10 3 0%nat _ _ eq_refl).
Defined.

(** C2, as the code runs it.  Two bundles from the counter generator get
    the solar azimuths [az0] and [az1], which differ; the call for bundle
    0 is the first event of the run, and its solar azimuth is [az1], the
    one sampled for bundle 1: the call indexes the four geometry lists
    with [i], which the earlier loops left at the last bundle. *)
Theorem first_bundle_runs_with_last_bundles_geometry :
  exists p g' az0 az1 a0 rest,
    @Veg.sample_loop nat Demo.counter_source 10 2 Veg.no_params 0%nat
      = Some (p, g') /\
    Veg.s_az p = [az0; az1] /\ ~ (az0 == az1)%Q /\
    fst (@Veg.simulate_and_export (Demo.toy_prosail 2) (Demo.veg_cfg 2 2) p)
      = Ev_prosail a0 :: rest /\
    Veg.N p !! 0 = Some (a_N a0) /\
    a_solar_azimuth a0 = az1.
Proof.
  eexists _, _, _, _, _, _. split; [vm_compute; reflexivity|].
  split; [reflexivity|]. split; [by vm_compute|].
  split; [vm_compute; reflexivity|]. split; reflexivity.
Qed.

(** ** The exported library (both scripts) *)

Lemma veg_main_inv {G : Type} `{RandomSource G} `{Prosail} cfg fuel (g : G) run :
  Veg.main cfg fuel g = Some run ->
  exists p g', Veg.sample_loop fuel (Veg.n_bundles cfg) Veg.no_params g = Some (p, g') /\
               run = Veg.simulate_and_export cfg p.
Proof.
  unfold Veg.main.
  destruct (Veg.sample_loop _ _ _ _) as [[p g']|]; [|done].
  intros [= <-]. by exists p, g'.
Qed.

(** The header dictionaries, key by key. *)
Lemma veg_metadata_lookup cfg names arr :
  let md := Veg.metadata cfg names arr in
  md !! "samples" = Some (HInt (Veg.nb cfg)) /\
  md !! "lines" = Some (HInt (Veg.n_bundles cfg)) /\
  md !! "bands" = Some (HInt 1) /\
  md !! "header offset" = Some (HInt 0) /\
  md !! "interleave" = Some (HStr "bsq") /\
  md !! "spectra names" = Some (HNames names) /\
  md !! "wavelength" = Some (HFloats (Numpy.column 0 arr)).
Proof. unfold Veg.metadata. split_and!; by simplify_map_eq. Qed.

Lemma soil_metadata_lookup cfg nb names axis :
  let md := Soil.metadata cfg nb names axis in
  md !! "samples" = Some (HInt nb) /\
  md !! "lines" = Some (HInt (Soil.n_bundles cfg * Soil.n_atmospheres cfg)) /\
  md !! "bands" = Some (HInt 1) /\
  md !! "header offset" = Some (HInt 0) /\
  md !! "interleave" = Some (HStr "bsq") /\
  md !! "spectra names" = Some (HNames names) /\
  md !! "wavelength" = Some (HFloats axis).
Proof. unfold Soil.metadata. split_and!; by simplify_map_eq. Qed.

(** The layout the specification words for the sli file: all spectra's
    values for band 1, then all spectra's values for band 2, and so on. *)
Definition band_by_band (bands : nat) (spectra : list (list Q)) : list Q :=
  concat (map (fun k => map (fun v => nth k v 0%Q) spectra) (seq 0 bands)).

(** C1, as the code runs it.  Three bundles of five bands: the run
    finishes, and the csv it writes has 4 lines of 5 fields each, not 5
    lines of 4 fields. *)
Lemma csv_of_three_bundles_five_bands_is_4_by_5 :
  exists calls lines rest,
    @Veg.main nat Demo.counter_source (Demo.toy_prosail 5) (Demo.veg_cfg 3 5)
      10 0%nat
      = Some (calls ++ Ev_savetxt "/scratch/veg_bundles_speclib.csv" lines :: rest,
              Ok tt) /\
    count_invocations calls = 3 /\
    length lines = 4 /\ Forall (fun line => length line = 5) lines /\
    ~ (length lines = 5 /\ Forall (fun line => length line = 4) lines).
Proof.
  eexists [_; _; _], _, _. split; [vm_compute; reflexivity|].
  split; [reflexivity|]. split; [reflexivity|].
  split; [by repeat constructor|]. by intros [? _].
Qed.

(** The variable [wavelengths], once bound, holds what the last runner
    call of the trace returned. *)
Lemma wavelengths_of_the_last_call `{Soil.World} (cfg : Soil.config)
    (tr : list event) (w : list Q) :
  Forall (SoilFacts.returned cfg) tr ->
  SoilFacts.wavelengths_after cfg None tr = Some w ->
  exists before r s out after,
    tr = before ++ Ev_sixs r s :: after /\
    Forall (fun e => forall r' s', e <> Ev_sixs r' s') after /\
    SoilFacts.run_result cfg r s = Ok out /\
    fst out = w.
Proof.
  induction tr as [|e tr IH] using rev_ind; [done|].
  intros [Htr He]%Forall_app. apply Forall_cons in He as [He _].
  rewrite SoilFacts.wavelengths_after_app.
  assert (Hcase : (exists r s, e = Ev_sixs r s) \/ (forall r s, e <> Ev_sixs r s)).
  { destruct e; eauto; right; intros; discriminate. }
  destruct Hcase as [(r & s & ->)|Hne].
  - unfold SoilFacts.returned in He. simpl.
    destruct (SoilFacts.run_result cfg r s) as [out|] eqn:Hout; [|done].
    intros [= <-]. exists tr, r, s, out, []. by repeat constructor.
  - intros Hw.
    assert (Hw' : SoilFacts.wavelengths_after cfg None tr = Some w).
    { destruct e; try done. by destruct (Hne r s). }
    destruct (IH Htr Hw') as (before & r & s & out & after & -> & Hafter & Hout).
    exists before, r, s, out, (after ++ [e]).
    rewrite <- app_assoc. split; [done|]. split; [|done].
    apply Forall_app. split; [done|]. by repeat constructor.
Qed.

(** C1, amended.  A finished run of either script writes a csv whose
    first line is the wavelength axis and whose following lines are the
    spectra of the model invocations, one line per spectrum in
    invocation order; every line has one field per band.  The csv thus
    has one line more than there are spectra, and as many columns as
    bands.  The axis is the one the last model invocation returned, in
    the order it returned it: for the canopy script the first column of
    the last spectrum (its one item repeated if the model returned a
    single row), for the soil script the wavelengths of the last runner
    call at [good_bands]. *)
Theorem csv_has_one_line_per_spectrum :
  (forall (G : Type) (R : RandomSource G) (P : Prosail) cfg fuel (g : G) tr,
     Veg.main cfg fuel g = Some (tr, Ok tt) ->
     exists calls axis rest a s,
       let spectra := omap (VegFacts.stored_spectrum (Veg.nb cfg)) calls in
       tr = calls ++ Ev_savetxt (VegRun.csv_path cfg) (axis :: spectra) :: rest /\
       count_invocations calls = Veg.n_bundles cfg /\
       length spectra = Veg.n_bundles cfg /\
       length axis = Veg.nb cfg /\
       Forall (fun v => length v = Veg.nb cfg) spectra /\
       last calls = Some (Ev_prosail a) /\
       pyprosail_run a = Ok s /\
       axis = NumpyFacts.broadcast (Veg.nb cfg) (map fst s)) /\
  (forall (W : Soil.World) cfg d tr,
     Soil.main cfg d = (tr, Ok tt) ->
     exists run num_bands good_bands loop axis rest before r s out after,
       let spectra := omap (SoilFacts.stored_spectrum cfg good_bands) loop in
       Soil.sensor_setup (Soil.target_sensor cfg) (Soil.wl cfg)
         = Ok (run, num_bands, good_bands) /\
       tr = loop ++ Ev_savetxt (SoilRun.csv_path cfg) (axis :: spectra) :: rest /\
       count_invocations loop = Soil.n_bundles cfg * Soil.n_atmospheres cfg /\
       length spectra = Soil.n_bundles cfg * Soil.n_atmospheres cfg /\
       length axis = length good_bands /\
       Forall (fun v => length v = length good_bands) spectra /\
       loop = before ++ Ev_sixs r s :: after /\
       Forall (fun e => forall r' s', e <> Ev_sixs r' s') after /\
       SoilFacts.run_result cfg r s = Ok out /\
       take_indices (fst out) good_bands = Ok axis).
Proof.
  split.
  - intros G R P cfg fuel g tr Hmain.
    apply veg_main_inv in Hmain as (p & g' & _ & Hrun). symmetry in Hrun.
    apply VegRun.veg_run_shape in Hrun as (args & _ & _ & [[_ ?]|Hdone]); [done|].
    destruct Hdone as (axis & arr & a & s & _ & Hn & _ & Hlen & Hlens & Hlast & Hs
                       & Hbroadcast & Haxis & _ & ->).
    eexists (map Ev_prosail args), axis, _, a, s. simpl.
    split; [reflexivity|]. rewrite count_invocations_prosail.
    split_and!; try done. by rewrite fmap_last, Hlast.
  - intros W cfg d tr Hmain.
    apply SoilRun.soil_run_shape in Hmain as [(_ & ? & _)|Hloop]; [done|].
    destruct Hloop as (run & nbands & good_bands & loop & Hsensor & _ & [[_ ?]|Hdone]);
      [done|].
    destruct Hdone as (w & axis & Hret & Hcount & Hlen & Hlens & Hw & Haxis & -> & _).
    destruct (wavelengths_of_the_last_call cfg loop w Hret Hw)
      as (before & r & s & out & after & Hloop & Hafter & Hout & <-).
    pose proof (take_indices_ok _ _ _ Haxis) as [Hlength _].
    eexists run, nbands, good_bands, loop, axis, _, before, r, s, out, after. simpl.
    split; [done|]. split; [reflexivity|]. done.
Qed.

(** C1 amended, at work: the run of three bundles and five bands; the
    canopy model of the run returns the wavelengths 1 to 5. *)
Lemma csv_has_one_line_per_spectrum_witness :
  exists tr calls axis rest,
    @Veg.main nat Demo.counter_source (Demo.toy_prosail 5) (Demo.veg_cfg 3 5)
      10 0%nat = Some (tr, Ok tt) /\
    let spectra :=
      omap (@VegFacts.stored_spectrum (Demo.toy_prosail 5) 5) calls in
    tr = calls ++ Ev_savetxt (VegRun.csv_path (Demo.veg_cfg 3 5)) (axis :: spectra)
                    :: rest /\
    count_invocations calls = 3 /\ length spectra = 3 /\
    length axis = 5 /\ Forall (fun v => length v = 5) spectra /\
    Forall2 Qeq axis [1; 2; 3; 4; 5]%Q.
Proof.
  eexists _.
  pose proof (proj1 csv_has_one_line_per_spectrum nat Demo.counter_source
                (Demo.toy_prosail 5) (Demo.veg_cfg 3 5) 10 0%nat) as Hthm.
  edestruct Hthm as (calls & axis & rest & a & s & Htr & Hcount & Hlen & Haxis
                     & Hlens & _ & Hs & Hbroadcast);
    [vm_compute; reflexivity|].
  exists calls, axis, rest. split; [reflexivity|].
  split; [exact Htr|]. split; [exact Hcount|]. split; [exact Hlen|].
  split; [exact Haxis|]. split; [exact Hlens|].
  rewrite Hbroadcast. vm_compute in Hs. injection Hs as <-.
  vm_compute. repeat constructor.
Defined.

(** C4, as the code runs it.  Two bundles of two bands: the sli items
    are the two spectra one after the other, which is not the
    band-by-band order. *)
Lemma sli_of_two_bundles_is_not_band_by_band :
  exists calls csv items rest,
    @Veg.main nat Demo.counter_source (Demo.toy_prosail 2) (Demo.veg_cfg 2 2)
      10 0%nat
      = Some (calls ++ csv :: Ev_tofile "/scratch/veg_bundles_speclib.sli" items
                :: rest, Ok tt) /\
    let spectra := omap (@VegFacts.stored_spectrum (Demo.toy_prosail 2) 2) calls in
    length spectra = 2 /\
    items = concat spectra /\
    items <> band_by_band 2 spectra.
Proof.
  eexists [_; _], _, _, _. split; [vm_compute; reflexivity|].
  split; [reflexivity|]. split; [reflexivity|]. by vm_compute.
Qed.

(** C4, amended.  A finished run of either script writes to the sli file
    the spectra without the wavelength axis, spectrum after spectrum in
    invocation order: all bands of the first spectrum, then all bands of
    the second, and so on. *)
Theorem sli_is_spectrum_by_spectrum :
  (forall (G : Type) (R : RandomSource G) (P : Prosail) cfg fuel (g : G) tr,
     Veg.main cfg fuel g = Some (tr, Ok tt) ->
     exists calls csv rest,
       let spectra := omap (VegFacts.stored_spectrum (Veg.nb cfg)) calls in
       tr = calls ++ csv :: Ev_tofile (VegRun.sli_path cfg) (concat spectra) :: rest /\
       count_invocations calls = Veg.n_bundles cfg /\
       length spectra = Veg.n_bundles cfg /\
       Forall (fun v => length v = Veg.nb cfg) spectra) /\
  (forall (W : Soil.World) cfg d tr,
     Soil.main cfg d = (tr, Ok tt) ->
     exists run num_bands good_bands loop csv rest,
       let spectra := omap (SoilFacts.stored_spectrum cfg good_bands) loop in
       Soil.sensor_setup (Soil.target_sensor cfg) (Soil.wl cfg)
         = Ok (run, num_bands, good_bands) /\
       tr = loop ++ csv :: Ev_tofile (SoilRun.sli_path cfg) (concat spectra) :: rest /\
       count_invocations loop = Soil.n_bundles cfg * Soil.n_atmospheres cfg /\
       length spectra = Soil.n_bundles cfg * Soil.n_atmospheres cfg /\
       Forall (fun v => length v = length good_bands) spectra).
Proof.
  split.
  - intros G R P cfg fuel g tr Hmain.
    apply veg_main_inv in Hmain as (p & g' & _ & Hrun). symmetry in Hrun.
    apply VegRun.veg_run_shape in Hrun as (args & _ & _ & [[_ ?]|Hdone]); [done|].
    destruct Hdone as (axis & arr & a & s & _ & Hn & _ & Hlen & Hlens & _ & _ & _
                       & Haxis & _ & ->).
    eexists (map Ev_prosail args), _, _. simpl.
    split; [reflexivity|]. by rewrite count_invocations_prosail.
  - intros W cfg d tr Hmain.
    apply SoilRun.soil_run_shape in Hmain as [(_ & ? & _)|Hloop]; [done|].
    destruct Hloop as (run & nbands & good_bands & loop & Hsensor & _ & [[_ ?]|Hdone]);
      [done|].
    destruct Hdone as (w & axis & _ & Hcount & Hlen & Hlens & _ & Haxis & -> & _).
    eexists run, nbands, good_bands, loop, _, _. simpl.
    split; [done|]. split; [reflexivity|]. done.
Qed.

(** C4 amended, at work: the run of two bundles and two bands. *)
Lemma sli_is_spectrum_by_spectrum_witness :
  exists tr calls csv rest,
    @Veg.main nat Demo.counter_source (Demo.toy_prosail 2) (Demo.veg_cfg 2 2)
      10 0%nat = Some (tr, Ok tt) /\
    let spectra :=
      omap (@VegFacts.stored_spectrum (Demo.toy_prosail 2) 2) calls in
    tr = calls ++ csv :: Ev_tofile (VegRun.sli_path (Demo.veg_cfg 2 2))
                           (concat spectra) :: rest /\
    count_invocations calls = 2 /\ length spectra = 2 /\
    Forall (fun v => length v = 2) spectra.
Proof.
  eexists _.
  pose proof (proj1 sli_is_spectrum_by_spectrum nat Demo.counter_source
                (Demo.toy_prosail 2) (Demo.veg_cfg 2 2) 10 0%nat) as Hthm.
  edestruct Hthm as (calls & csv & rest & Hrest); [vm_compute; reflexivity|].
  exists calls, csv, rest. split; [reflexivity|exact Hrest].
Defined.

(** C6.  A finished run of either script ends with the three writes, and
    the header it writes last declares: samples, the band count, which is
    the number of values of every spectrum of the library; lines, the
    number of spectra, which is the number of model invocations of the
    run; bands 1; header offset 0; interleave "bsq". *)
Theorem header_declares_the_library_shape :
  (forall (G : Type) (R : RandomSource G) (P : Prosail) cfg fuel (g : G) tr,
     Veg.main cfg fuel g = Some (tr, Ok tt) ->
     exists calls axis md,
       let spectra := omap (VegFacts.stored_spectrum (Veg.nb cfg)) calls in
       tr = calls ++ [Ev_savetxt (VegRun.csv_path cfg) (axis :: spectra);
                      Ev_tofile (VegRun.sli_path cfg) (concat spectra);
                      Ev_write_envi_header (VegRun.hdr_path cfg) md] /\
       md !! "samples" = Some (HInt (Veg.nb cfg)) /\
       Forall (fun v => length v = Veg.nb cfg) spectra /\
       md !! "lines" = Some (HInt (Veg.n_bundles cfg)) /\
       length spectra = Veg.n_bundles cfg /\
       count_invocations calls = Veg.n_bundles cfg /\
       md !! "bands" = Some (HInt 1) /\
       md !! "header offset" = Some (HInt 0) /\
       md !! "interleave" = Some (HStr "bsq")) /\
  (forall (W : Soil.World) cfg d tr,
     Soil.main cfg d = (tr, Ok tt) ->
     exists run num_bands good_bands loop axis md,
       let spectra := omap (SoilFacts.stored_spectrum cfg good_bands) loop in
       let lines := Soil.n_bundles cfg * Soil.n_atmospheres cfg in
       Soil.sensor_setup (Soil.target_sensor cfg) (Soil.wl cfg)
         = Ok (run, num_bands, good_bands) /\
       tr = loop ++ [Ev_savetxt (SoilRun.csv_path cfg) (axis :: spectra);
                     Ev_tofile (SoilRun.sli_path cfg) (concat spectra);
                     Ev_write_envi_header (SoilRun.hdr_path cfg) md] /\
       md !! "samples" = Some (HInt (length good_bands)) /\
       Forall (fun v => length v = length good_bands) spectra /\
       md !! "lines" = Some (HInt lines) /\
       length spectra = lines /\
       count_invocations loop = lines /\
       md !! "bands" = Some (HInt 1) /\
       md !! "header offset" = Some (HInt 0) /\
       md !! "interleave" = Some (HStr "bsq")).
Proof.
  split.
  - intros G R P cfg fuel g tr Hmain.
    apply veg_main_inv in Hmain as (p & g' & _ & Hrun). symmetry in Hrun.
    apply VegRun.veg_run_shape in Hrun as (args & _ & _ & [[_ ?]|Hdone]); [done|].
    destruct Hdone as (axis & arr & a & s & _ & Hn & _ & Hlen & Hlens & _ & _ & _
                       & Haxis & _ & ->).
    destruct (veg_metadata_lookup cfg (Veg.spectra_names (Veg.n_bundles cfg)) arr)
      as (Hs & Hl & Hb & Ho & Hi & _).
    eexists (map Ev_prosail args), axis, _. simpl.
    split; [reflexivity|]. rewrite count_invocations_prosail.
    split_and!; eauto.
  - intros W cfg d tr Hmain.
    apply SoilRun.soil_run_shape in Hmain as [(_ & ? & _)|Hloop]; [done|].
    destruct Hloop as (run & nbands & good_bands & loop & Hsensor & _ & [[_ ?]|Hdone]);
      [done|].
    destruct Hdone as (w & axis & _ & Hcount & Hlen & Hlens & _ & Haxis & -> & Hr).
    destruct Soil.envi_bound; [|done].
    destruct (soil_metadata_lookup cfg (length good_bands)
                (Soil.spectra_names (Soil.n_bundles cfg)) axis)
      as (Hs & Hl & Hb & Ho & Hi & _).
    eexists run, nbands, good_bands, loop, axis, _. simpl.
    split; [done|]. split; [reflexivity|]. split_and!; eauto.
Qed.

(** C6, at work: five bands and three bundles that all succeed give
    samples 5, lines 3, bands 1. *)
Lemma header_declares_the_library_shape_witness :
  exists tr calls axis md,
    @Veg.main nat Demo.counter_source (Demo.toy_prosail 5) (Demo.veg_cfg 3 5)
      10 0%nat = Some (tr, Ok tt) /\
    let spectra :=
      omap (@VegFacts.stored_spectrum (Demo.toy_prosail 5) 5) calls in
    tr = calls ++ [Ev_savetxt (VegRun.csv_path (Demo.veg_cfg 3 5)) (axis :: spectra);
                   Ev_tofile (VegRun.sli_path (Demo.veg_cfg 3 5)) (concat spectra);
                   Ev_write_envi_header (VegRun.hdr_path (Demo.veg_cfg 3 5)) md] /\
    md !! "samples" = Some (HInt 5) /\
    md !! "lines" = Some (HInt 3) /\
    md !! "bands" = Some (HInt 1) /\
    count_invocations calls = 3.
Proof.
  eexists _.
  pose proof (proj1 header_declares_the_library_shape nat Demo.counter_source
                (Demo.toy_prosail 5) (Demo.veg_cfg 3 5) 10 0%nat) as Hthm.
  edestruct Hthm as (calls & axis & md & Htr & Hs & Hv & Hl
                     & Hn & Hc & Hb & _); [vm_compute; reflexivity|].
  exists calls, axis, md. split; [reflexivity|].
  split; [exact Htr|]. split; [exact Hs|]. split; [exact Hl|].
  split; [exact Hb|exact Hc].
Defined.

(** ** Errors *)

(** The three artifacts of a trace are written only after its loops:
    if the trace holds an artifact write at all, it is the events of the
    finished loops ([invocations] model invocations, each of which
    returned, and no artifact write) followed by nothing but artifact
    writes; and if some model invocation of the trace raised, the trace
    holds no artifact write. *)
Definition written_after_the_loops (returned : event -> Prop)
    (invocations : nat) (tr : list event) : Prop :=
  (forall e, e ∈ tr -> is_artifact_write e = true ->
     exists loop writes,
       tr = loop ++ writes /\
       Forall (fun e => is_artifact_write e = false) loop /\
       Forall (fun e => is_artifact_write e = true) writes /\
       count_invocations loop = invocations /\
       Forall returned loop) /\
  (forall e, e ∈ tr -> ~ returned e ->
     Forall (fun e => is_artifact_write e = false) tr).

Lemma quiet_trace_written_after returned n tr :
  Forall (fun e => is_artifact_write e = false) tr ->
  written_after_the_loops returned n tr.
Proof.
  intros Hq. split; [|done].
  intros e He Hw. rewrite Forall_forall in Hq. specialize (Hq e He). congruence.
Qed.

Lemma phased_trace_written_after (returned : event -> Prop) n loop writes :
  Forall (fun e => is_artifact_write e = false) loop ->
  Forall (fun e => is_artifact_write e = true) writes ->
  count_invocations loop = n ->
  Forall returned loop ->
  Forall returned writes ->
  written_after_the_loops returned n (loop ++ writes).
Proof.
  intros Hq Hw Hn Hr Hr'. split.
  - intros _ _ _. by exists loop, writes.
  - intros e He Hne. exfalso. apply Hne.
    apply elem_of_app in He as [He|He].
    + rewrite Forall_forall in Hr. auto.
    + rewrite Forall_forall in Hr'. auto.
Qed.

Lemma prosail_calls_quiet args :
  Forall (fun e => is_artifact_write e = false) (map Ev_prosail args).
Proof. apply Forall_fmap, Forall_true. done. Qed.

(** C9.  In every run of either script, finished or not, the csv, sli
    and hdr files are written only after the simulation loops: an
    artifact write in the trace means that all the model invocations of
    the loops (one per bundle, or one per atmosphere and bundle) were
    made and returned before it, and a model invocation that raised
    means that no artifact was written. *)
Theorem artifacts_written_only_after_the_loops :
  (forall (G : Type) (R : RandomSource G) (P : Prosail) cfg fuel (g : G) tr r,
     Veg.main cfg fuel g = Some (tr, r) ->
     written_after_the_loops VegFacts.returned (Veg.n_bundles cfg) tr) /\
  (forall (W : Soil.World) cfg d tr r,
     Soil.main cfg d = (tr, r) ->
     written_after_the_loops (SoilFacts.returned cfg)
       (Soil.n_bundles cfg * Soil.n_atmospheres cfg) tr).
Proof.
  split.
  - intros G R P cfg fuel g tr r Hmain.
    apply veg_main_inv in Hmain as (p & g' & _ & Hrun). symmetry in Hrun.
    apply VegRun.veg_run_shape in Hrun as (args & _ & _ & [[-> _]|Hdone]).
    { apply quiet_trace_written_after, prosail_calls_quiet. }
    destruct Hdone as (axis & arr & a & s & _ & Hn & Hret & _ & _ & _ & _ & _
                       & _ & _ & ->).
    apply phased_trace_written_after;
      [apply prosail_calls_quiet|by repeat constructor
      |by rewrite count_invocations_prosail|done|by repeat constructor].
  - intros W cfg d tr r Hmain.
    apply SoilRun.soil_run_shape in Hmain as [(-> & _)|Hloop].
    { apply quiet_trace_written_after. constructor. }
    destruct Hloop as (run & nbands & good_bands & loop & _ & Hq & [[-> _]|Hdone]).
    { by apply quiet_trace_written_after. }
    destruct Hdone as (w & axis & Hret & Hcount & _ & _ & _ & _ & -> & _).
    apply phased_trace_written_after; [done| |done|done|];
      destruct Soil.envi_bound; by repeat constructor.
Qed.

(** C9, at work: the canopy model raises on the second of three bundles;
    the trace is the two calls, and no artifact is written. *)
Lemma artifacts_written_only_after_the_loops_witness :
  exists tr,
    @Veg.main nat Demo.counter_source (Demo.picky_prosail 5 10) (Demo.veg_cfg 3 5)
      10 0%nat = Some (tr, Raise ModelError) /\
    length tr = 2 /\
    written_after_the_loops (@VegFacts.returned (Demo.picky_prosail 5 10)) 3 tr.
Proof.
  eexists _. split; [vm_compute; reflexivity|]. split; [reflexivity|].
  exact (proj1 artifacts_written_only_after_the_loops nat Demo.counter_source
           (Demo.picky_prosail 5 10) (Demo.veg_cfg 3 5) 10 0%nat _ _ eq_refl).
Defined.

Lemma unsupported_sensor_setup sensor wl :
  sensor ∉ Soil.supported_sensors ->
  Soil.sensor_setup sensor wl = Raise (OSError "Unsupported sensor configuration").
Proof.
  intros Hs. unfold Soil.sensor_setup.
  repeat (match goal with
          | |- context [String.eqb sensor ?name] =>
              destruct (String.eqb_spec sensor name) as [->|_];
              [exfalso; apply Hs; unfold Soil.supported_sensors; set_solver|]
          end).
  done.
Qed.

(** Every name of the list has a configuration. *)
Lemma supported_sensor_setup sensor wl :
  sensor ∈ Soil.supported_sensors ->
  is_raise (Soil.sensor_setup sensor wl) = false.
Proof.
  unfold Soil.supported_sensors. intros Hs.
  repeat (apply elem_of_cons in Hs as [->|Hs]; [done|]).
  by apply elem_of_nil in Hs.
Qed.

(** C7.  For every sensor name outside the supported ones, the soil
    script raises before any event: no soil file is read, no model is
    invoked, nothing is written.  The exception is the
    "Unsupported sensor configuration" error of the sensor chain, unless
    the sampling of soil files, which comes first, has raised already. *)
Theorem unsupported_sensor_raises_before_any_simulation
    `{Soil.World} (cfg : Soil.config) (d : Soil.draws) :
  Soil.target_sensor cfg ∉ Soil.supported_sensors ->
  fst (Soil.main cfg d) = [] /\
  is_raise (snd (Soil.main cfg d)) = true /\
  (is_raise (Soil.sample_soil_files cfg d) = false ->
   snd (Soil.main cfg d) = Raise (OSError "Unsupported sensor configuration")).
Proof.
  intros Hs. unfold Soil.main.
  rewrite (unsupported_sensor_setup _ (Soil.wl cfg) Hs).
  destruct (Soil.sample_soil_files cfg d); simpl; auto.
  split_and!; auto. done.
Qed.

(** C7, at work: a sensor the script does not know. *)
Lemma unsupported_sensor_raises_before_any_simulation_witness :
  @Soil.main (Demo.toy_world 10)
    (Demo.soil_cfg 2 2 "hyperion" ["nano.txt"; "micro.txt"; "furlong.txt"])
    (Demo.soil_draws [2; 0])
  = ([], Raise (OSError "Unsupported sensor configuration")).
Proof.
  pose proof (@unsupported_sensor_raises_before_any_simulation (Demo.toy_world 10)
    (Demo.soil_cfg 2 2 "hyperion" ["nano.txt"; "micro.txt"; "furlong.txt"])
    (Demo.soil_draws [2; 0])) as Hthm.
  destruct Hthm as (Htr & _ & Hr).
  - unfold Soil.supported_sensors. simpl.
    intros Hin. repeat (apply elem_of_cons in Hin as [Hin|Hin]; [discriminate|]).
    by apply elem_of_nil in Hin.
  - destruct (Soil.main _ _) as [tr r]. simpl in *.
    rewrite Htr, Hr; [reflexivity|]. reflexivity.
Defined.

(** C8, as the code runs it.  The soil file read carries the unit tag
    "Furlongs"; the run finishes all the same, and the runner is called
    with the wavelength axis of the file as it was. *)
Lemma unknown_unit_tag_raises_nothing :
  exists soil0 s rest,
    Demo.toy_readJFSC "furlong.txt" = Ok soil0 /\
    Soil.band_unit soil0 = "Furlongs" /\
    @Soil.main (Demo.toy_world 10)
      (Demo.soil_cfg 1 1 "landsat_oli" ["furlong.txt"]) (Demo.soil_draws [0])
    = (Ev_readJFSC "furlong.txt" :: Ev_sixs run_landsat_oli s :: rest, Ok tt) /\
    option_map (fun gr => map fst (snd gr)) (s_ground_reflectance s)
    = Some (Soil.band_centers (Demo.toy_remove_water_bands soil0)).
Proof.
  eexists _, _, _. split; [reflexivity|]. split; [reflexivity|].
  split; [vm_compute; reflexivity|]. reflexivity.
Qed.

(** The wavelength axis a soil file is passed on with: divided by 1000
    under the tag "Nanometers", as it is under every other tag. *)
Definition ground_axis (soil : Soil.soil_t) : list Q :=
  if String.eqb (Soil.band_unit soil) "Nanometers"
  then map (fun x => (x / 1000)%Q) (Soil.band_centers soil)
  else Soil.band_centers soil.

(** A pass of the inner loop over a soil file that can be read and whose
    first spectrum matches its wavelength axis in length: whatever the
    unit tag, the file is read, the runner is called with the spectrum
    against [ground_axis], and only the runner or the storing of its
    result can raise. *)
Lemma simulate_soil_reaches_the_runner `{Soil.World}
    (cfg : Soil.config) (run : runner) (good_bands : list nat)
    (soil_spectra : list string) (g : ground_reflectance_t) (i j : nat)
    (s : sixs) (arr : Numpy.ndarray) (w : option (list Q))
    (path : string) (soil0 : Soil.soil_t) (first : list Q) :
  soil_spectra !! j = Some path ->
  Soil.readJFSC path = Ok soil0 ->
  Soil.spectra (Soil.remove_water_bands soil0) !! 0 = Some first ->
  length (Soil.band_centers (Soil.remove_water_bands soil0)) = length first ->
  let s' := Soil.set_ground_reflectance s
              (g, zip (ground_axis (Soil.remove_water_bands soil0)) first) in
  Soil.simulate_soil cfg run good_bands soil_spectra g i j (s, arr, w) =
    ([Ev_readJFSC path; Ev_sixs run s'],
     (let* out := SoilFacts.run_result cfg run s' in
      let* selected := take_indices (snd out) good_bands in
      let* output_array :=
        Numpy.assign_column (i * Soil.n_bundles cfg + j + 1) selected arr in
      Ok (s', output_array, Some (fst out)))%result).
Proof.
  intros Hpath Hread Hfirst Hlen s'.
  unfold Soil.simulate_soil, Soil.call_readJFSC, Soil.call_sixs, lift.
  fold (SoilFacts.wl_arg cfg).
  rewrite (proj2 (getitem_ok _ _ _) Hpath). simpl. rewrite Hread. simpl.
  rewrite SoilFacts.to_micrometers_spectra.
  rewrite (proj2 (getitem_ok _ _ _) Hfirst). simpl.
  unfold Soil.two_columns.
  rewrite SoilFacts.to_micrometers_axis. fold (ground_axis (Soil.remove_water_bands soil0)).
  assert (Hlen' : length (ground_axis (Soil.remove_water_bands soil0)) = length first).
  { unfold ground_axis. destruct (String.eqb _ _); [by rewrite length_map|done]. }
  rewrite Hlen', Nat.eqb_refl. simpl.
  subst s'. unfold SoilFacts.run_result.
  destruct (Soil.run_sixs_params _ _ _ _) as [out|e]; simpl; [|done].
  destruct (take_indices (snd out) good_bands) as [sel|e]; simpl; [|done].
  by destruct (Numpy.assign_column _ sel arr).
Qed.

(** C8, amended.  First: in every run of the soil script, every runner
    call is made with the ground spectrum of a soil file that was read:
    the first spectrum of the file after the water-band filter, against
    a wavelength axis that is the file's divided by 1000 when the unit
    tag is "Nanometers", and the file's unchanged for every other tag.
    Second: the unit tag stops no pass of the inner loop.  For every
    file that can be read and whose first spectrum is as long as its
    wavelength axis, whatever its tag, the pass reads the file and calls
    the runner with that spectrum; the pass raises only if the runner
    raises or its result cannot be stored. *)
Theorem ground_axis_in_micrometers_only_from_nanometers :
  (forall (W : Soil.World) (cfg : Soil.config) (d : Soil.draws) (r : runner)
          (s : sixs),
     Ev_sixs r s ∈ fst (Soil.main cfg d) ->
     exists path soil0 first g,
       Soil.readJFSC path = Ok soil0 /\
       let soil := Soil.remove_water_bands soil0 in
       Soil.spectra soil !! 0 = Some first /\
       s_ground_reflectance s =
         Some (g, zip (if String.eqb (Soil.band_unit soil) "Nanometers"
                       then map (fun x => (x / 1000)%Q) (Soil.band_centers soil)
                       else Soil.band_centers soil) first)) /\
  (forall (W : Soil.World) (cfg : Soil.config) (run : runner)
          (good_bands : list nat) (soil_spectra : list string)
          (g : ground_reflectance_t) (i j : nat) (s : sixs) (arr : Numpy.ndarray)
          (w : option (list Q)) (path : string) (soil0 : Soil.soil_t)
          (first : list Q),
     soil_spectra !! j = Some path ->
     Soil.readJFSC path = Ok soil0 ->
     let soil := Soil.remove_water_bands soil0 in
     Soil.spectra soil !! 0 = Some first ->
     length (Soil.band_centers soil) = length first ->
     let s' := Soil.set_ground_reflectance s
                 (g, zip (if String.eqb (Soil.band_unit soil) "Nanometers"
                          then map (fun x => (x / 1000)%Q) (Soil.band_centers soil)
                          else Soil.band_centers soil) first) in
     Soil.simulate_soil cfg run good_bands soil_spectra g i j (s, arr, w) =
       ([Ev_readJFSC path; Ev_sixs run s'],
        (let* out := SoilFacts.run_result cfg run s' in
         let* selected := take_indices (snd out) good_bands in
         let* output_array :=
           Numpy.assign_column (i * Soil.n_bundles cfg + j + 1) selected arr in
         Ok (s', output_array, Some (fst out)))%result)).
Proof.
  split.
  - intros W cfg d r s Hin. pose proof (SoilRun.main_trace cfg d) as Hall.
    rewrite Forall_forall in Hall. exact (Hall _ Hin).
  - intros W cfg run good_bands soil_spectra g i j s arr w path soil0 first
      Hpath Hread soil Hfirst Hlen.
    exact (simulate_soil_reaches_the_runner cfg run good_bands soil_spectra g i j
             s arr w path soil0 first Hpath Hread Hfirst Hlen).
Qed.

(** C8 amended, at work: a file in nanometers, for which the runner gets
    the axis in micrometers; and a pass over a file in furlongs, which
    reads it and calls the runner with the axis as it is. *)
Lemma ground_axis_in_micrometers_only_from_nanometers_witness :
  (exists s path soil0 first g,
     Ev_sixs run_landsat_oli s
       ∈ fst (@Soil.main (Demo.toy_world 10)
                (Demo.soil_cfg 1 1 "landsat_oli" ["nano.txt"]) (Demo.soil_draws [0])) /\
     Demo.toy_readJFSC path = Ok soil0 /\
     let soil := Demo.toy_remove_water_bands soil0 in
     Soil.spectra soil !! 0 = Some first /\
     s_ground_reflectance s =
       Some (g, zip (if String.eqb (Soil.band_unit soil) "Nanometers"
                     then map (fun x => (x / 1000)%Q) (Soil.band_centers soil)
                     else Soil.band_centers soil) first)) /\
  (exists soil0 s' r,
     Demo.toy_readJFSC "furlong.txt" = Ok soil0 /\
     Soil.band_unit soil0 = "Furlongs" /\
     @Soil.simulate_soil (Demo.toy_world 10)
       (Demo.soil_cfg 1 1 "landsat_oli" ["furlong.txt"]) run_landsat_oli (seq 1 6)
       ["furlong.txt"] HomogeneousLambertian 0 0
       (SixS (Some (SatelliteLevel, SeaLevel)) None None (Some 0.3%Q) None None,
        Numpy.zeros 6 2, None)
     = ([Ev_readJFSC "furlong.txt"; Ev_sixs run_landsat_oli s'], r) /\
     option_map (fun gr => map fst (snd gr)) (s_ground_reflectance s')
       = Some [2; 11]%Q /\
     is_raise r = false).
Proof.
  split.
  - assert (Hin : exists s, Ev_sixs run_landsat_oli s
        ∈ fst (@Soil.main (Demo.toy_world 10)
                 (Demo.soil_cfg 1 1 "landsat_oli" ["nano.txt"]) (Demo.soil_draws [0]))).
    { eexists. vm_compute. apply list_elem_of_further, list_elem_of_here. }
    destruct Hin as [s Hin]. exists s.
    destruct (proj1 ground_axis_in_micrometers_only_from_nanometers
                (Demo.toy_world 10) _ _ _ _ Hin)
      as (path & soil0 & first & g & Hrest).
    exists path, soil0, first, g. split; [exact Hin|exact Hrest].
  - pose proof (proj2 ground_axis_in_micrometers_only_from_nanometers
                  (Demo.toy_world 10)
                  (Demo.soil_cfg 1 1 "landsat_oli" ["furlong.txt"]) run_landsat_oli
                  (seq 1 6) ["furlong.txt"] HomogeneousLambertian 0 0
                  (SixS (Some (SatelliteLevel, SeaLevel)) None None (Some 0.3%Q)
                     None None)
                  (Numpy.zeros 6 2) None "furlong.txt"
                  (Soil.SoilSpectrum "Furlongs" [2; 7; 11]%Q [[0.1; -1; 0.3]%Q])
                  [0.1; 0.3]%Q eq_refl eq_refl eq_refl eq_refl) as Hpass.
    eexists _, _, _. split; [reflexivity|]. split; [reflexivity|].
    split; [exact Hpass|]. split; reflexivity.
Defined.

(** ** The header's list of spectrum names *)

(** The same world, with the name [envi] bound or not.  Nothing in
    spec-soil-bundles.py binds [envi] (lines 8-12 import [numpy], [aei],
    [random], [spectral] and the names of [Py6S]), so the script as it
    is written runs in a world [with_envi W false]. *)
Definition with_envi (W : Soil.World) (b : bool) : Soil.World := {|
  Soil.readJFSC := @Soil.readJFSC W;
  Soil.remove_water_bands := @Soil.remove_water_bands W;
  Soil.run_sixs_params := @Soil.run_sixs_params W;
  Soil.envi_bound := b
|}.

(** The dictionary the soil script builds at lines 286-298 declares
    [n_bundles * n_atmospheres] lines and lists the [n_bundles] names of
    lines 222-223. *)
Lemma soil_metadata_names_and_lines (cfg : Soil.config) (nb : nat) (axis : list Q) :
  let md := Soil.metadata cfg nb (Soil.spectra_names (Soil.n_bundles cfg)) axis in
  md !! "lines" = Some (HInt (Soil.n_bundles cfg * Soil.n_atmospheres cfg)) /\
  exists names,
    md !! "spectra names" = Some (HNames names) /\
    length names = Soil.n_bundles cfg.
Proof.
  destruct (soil_metadata_lookup cfg nb (Soil.spectra_names (Soil.n_bundles cfg)) axis)
    as (_ & Hlines & _ & _ & _ & Hnames & _).
  split; [done|]. eexists. split; [exact Hnames|].
  unfold Soil.spectra_names. by rewrite length_map, length_seq.
Qed.



(** ** Further properties of the canopy script *)

(** X1.  Every call of the canopy model, for whichever bundle, is made
    with the solar zenith, solar azimuth, view zenith and view azimuth
    sampled for the last bundle: the call reads the four geometry lists
    at [i], which the loops before it left at [n_bundles - 1]. *)
Theorem every_call_runs_with_the_last_bundles_geometry
    `{Prosail} (cfg : Veg.config) (p : Veg.params) (a : prosail_args) :
  Ev_prosail a ∈ fst (Veg.simulate_and_export cfg p) ->
  Veg.s_za p !! (Veg.n_bundles cfg - 1) = Some (a_solar_zenith a) /\
  Veg.s_az p !! (Veg.n_bundles cfg - 1) = Some (a_solar_azimuth a) /\
  Veg.v_za p !! (Veg.n_bundles cfg - 1) = Some (a_view_zenith a) /\
  Veg.v_az p !! (Veg.n_bundles cfg - 1) = Some (a_view_azimuth a).
Proof.
  intros Ha. apply veg_calls_have_args in Ha as [k Hk].
  apply VegArgs.bundle_args_inv in Hk
    as (_ & _ & _ & _ & _ & _ & _ & _ & _ & _ & _ & i & Hi & Hgeo).
  unfold VegRun.leftover_i in Hi.
  destruct (Veg.n_bundles cfg) as [|n]; simpl in Hi; [done|].
  injection Hi as <-. replace (S n - 1) with n by lia. done.
Qed.

(** X1, at work: the first call of a run of two bundles. *)
Lemma every_call_runs_with_the_last_bundles_geometry_witness :
  exists p g' a rest,
    @Veg.sample_loop nat Demo.counter_source 10 2 Veg.no_params 0%nat
      = Some (p, g') /\
    fst (@Veg.simulate_and_export (Demo.toy_prosail 2) (Demo.veg_cfg 2 2) p)
      = Ev_prosail a :: rest /\
    Veg.s_az p !! 1 = Some (a_solar_azimuth a).
Proof.
  eexists _, _, _, _. split; [vm_compute; reflexivity|].
  split; [vm_compute; reflexivity|].
  refine (proj1 (proj2 (@every_call_runs_with_the_last_bundles_geometry
            (Demo.toy_prosail 2) (Demo.veg_cfg 2 2) _ _ _))).
  vm_compute. apply list_elem_of_here.
Defined.



(** ** The canopy script: list lengths and uniform ranges *)

Module VegLists.
Import Veg VegSampling.

(** All fifteen parameter lists hold [n] items. *)
Definition all_lengths (n : nat) (p : params) : Prop :=
  length (N p) = n /\ length (chloro p) = n /\ length (caroten p) = n /\
  length (brown p) = n /\ length (EWT p) = n /\ length (LMA p) = n /\
  length (soil_reflectance p) = n /\ length (LAI p) = n /\
  length (hot_spot p) = n /\ length (LAD_inclination p) = n /\
  length (LAD_bimodality p) = n /\ length (s_az p) = n /\
  length (s_za p) = n /\ length (v_az p) = n /\ length (v_za p) = n.

(** The seven parameters drawn with [random.uniform] lie in the ranges
    the script passes. *)
Definition lists_in_uniform_ranges (p : params) : Prop :=
  Forall (within 1.3 2.5) (N p) /\
  Forall (within 0.002 0.05) (EWT p) /\
  Forall (within 0 1) (soil_reflectance p) /\
  Forall (within 0.05 0.5) (hot_spot p) /\
  Forall (within (-0.4) 0.4) (LAD_inclination p) /\
  Forall (within (-0.1) 0.2) (LAD_bimodality p) /\
  Forall (within 0 360) (s_az p).

Lemma uniform_value_within (a b u : Q) :
  (a <= b)%Q -> (0 <= u)%Q -> (u < 1)%Q -> within a b (a + (b - a) * u).
Proof.
  intros Hab Hu0 Hu1. unfold within.
  assert (H0 : (0 <= (b - a) * u)%Q).
  { apply Qmult_le_0_compat; [|done]. lra. }
  assert (H1 : ((b - a) * u <= (b - a) * 1)%Q).
  { rewrite !(Qmult_comm (b - a)). apply Qmult_le_compat_r; lra. }
  split; lra.
Qed.

Section Facts.
Context {G : Type} `{RandomSource G}.

(** [random()] returns a float of [0, 1). *)
Definition unit_interval_source : Prop :=
  forall g : G, (0 <= fst (random g))%Q /\ (fst (random g) < 1)%Q.

Lemma uniform_within a b g x g' :
  unit_interval_source -> (a <= b)%Q ->
  uniform a b g = Some (x, g') -> within a b x.
Proof.
  intros Hsrc Hab. unfold uniform.
  destruct (Hsrc g) as [H0 H1]. destruct (random g) as [u g1]. simpl in *.
  intros [= <- <-]. by apply uniform_value_within.
Qed.

Lemma sample_bundle_appends fuel p g p' g' :
  sample_bundle fuel p g = Some (p', g') ->
  exists n c k w m r l h inc bim az za g1 g4 g6 g8 g9 g10 g11 h1 h4 h6 h8 h9 h10 h11,
    uniform 1.3 2.5 g1 = Some (n, h1) /\
    uniform 0.002 0.05 g4 = Some (w, h4) /\
    uniform 0 1 g6 = Some (r, h6) /\
    uniform 0.05 0.5 g8 = Some (h, h8) /\
    uniform (-0.4) 0.4 g9 = Some (inc, h9) /\
    uniform (-0.1) 0.2 g10 = Some (bim, h10) /\
    uniform 0 360 g11 = Some (az, h11) /\
    p' = {| N := N p ++ [n];
            chloro := chloro p ++ [c];
            caroten := caroten p ++ [k];
            brown := brown p ++ [0%Q];
            EWT := EWT p ++ [w];
            LMA := LMA p ++ [m];
            soil_reflectance := soil_reflectance p ++ [r];
            LAI := LAI p ++ [l];
            hot_spot := hot_spot p ++ [h];
            LAD_inclination := LAD_inclination p ++ [inc];
            LAD_bimodality := LAD_bimodality p ++ [bim];
            s_az := s_az p ++ [az];
            s_za := s_za p ++ [za];
            v_az := v_az p ++ [0%Q];
            v_za := v_za p ++ [0%Q] |}.
Proof.
  unfold sample_bundle. intros Hs.
  apply gbind_inv in Hs as (n & g1 & Hn & Hs).
  apply gbind_inv in Hs as (c & g2 & _ & Hs).
  apply gbind_inv in Hs as (k & g3 & _ & Hs).
  apply gbind_inv in Hs as (w & g4 & Hw & Hs).
  apply gbind_inv in Hs as (m & g5 & _ & Hs).
  apply gbind_inv in Hs as (r & g6 & Hr & Hs).
  apply gbind_inv in Hs as (l & g7 & _ & Hs).
  apply gbind_inv in Hs as (h & g8 & Hh & Hs).
  apply gbind_inv in Hs as (inc & g9 & Hinc & Hs).
  apply gbind_inv in Hs as (bim & g10 & Hbim & Hs).
  apply gbind_inv in Hs as (az & g11 & Haz & Hs).
  apply gbind_inv in Hs as (za & g12 & _ & Hs).
  injection Hs as <- <-.
  eexists n, c, k, w, m, r, l, h, inc, bim, az, za, _, _, _, _, _, _, _,
    _, _, _, _, _, _, _.
  split_and!; [exact Hn|exact Hw|exact Hr|exact Hh|exact Hinc|exact Hbim
              |exact Haz|reflexivity].
Qed.

Lemma sample_loop_lengths fuel n k p g p' g' :
  sample_loop fuel n p g = Some (p', g') ->
  all_lengths k p -> all_lengths (k + n) p'.
Proof.
  revert k p g. induction n as [|n IH]; intros k p g; simpl.
  - intros [= <- <-]. by rewrite Nat.add_0_r.
  - intros Hs Hp. apply gbind_inv in Hs as (p1 & g1 & H1 & Hs).
    replace (k + S n) with (S k + n) by lia.
    apply (IH _ _ _ Hs). clear IH Hs.
    apply sample_bundle_appends in H1
      as (? & ? & ? & ? & ? & ? & ? & ? & ? & ? & ? & ? & ? & ? & ? & ? & ? & ?
          & ? & ? & ? & ? & ? & ? & ? & ? & _ & _ & _ & _ & _ & _ & _ & ->).
    unfold all_lengths in *. simpl. rewrite !length_app. simpl. lia.
Qed.

Lemma sample_loop_uniform_ranges fuel n p g p' g' :
  unit_interval_source ->
  sample_loop fuel n p g = Some (p', g') ->
  lists_in_uniform_ranges p -> lists_in_uniform_ranges p'.
Proof.
  intros Hsrc. revert p g. induction n as [|n IH]; intros p g; simpl.
  - by intros [= <- <-].
  - intros Hs Hp. apply gbind_inv in Hs as (p1 & g1 & H1 & Hs).
    apply (IH _ _ Hs). clear IH Hs.
    apply sample_bundle_appends in H1
      as (? & ? & ? & ? & ? & ? & ? & ? & ? & ? & ? & ? & ? & ? & ? & ? & ? & ?
          & ? & ? & ? & ? & ? & ? & ? & ?
          & Hn & Hw & Hr & Hh & Hinc & Hbim & Haz & ->).
    destruct Hp as (? & ? & ? & ? & ? & ? & ?).
    unfold lists_in_uniform_ranges. simpl.
    rewrite !Forall_app, !Forall_singleton.
    split_and!; try done; eapply uniform_within; try eassumption; by vm_compute.
Qed.

End Facts.

(** With lists of [n] items, the arguments of every pass [j < n] are
    found, whatever index [i < n] the geometry lists are read at. *)
Lemma bundle_args_found p n i j :
  all_lengths n p -> i < n -> j < n ->
  exists a, bundle_args p (Some i) j = Ok a.
Proof.
  intros (H1 & H2 & H3 & H4 & H5 & H6 & H7 & H8 & H9 & H10 & H11 & H12 & H13
          & H14 & H15) Hi Hj.
  unfold bundle_args.
  repeat (match goal with
          | |- context [getitem ?l ?k] =>
              let x := fresh "x" in
              let Hx := fresh "Hx" in
              destruct (lookup_lt_is_Some_2 l k ltac:(lia)) as [x Hx];
              rewrite (proj2 (getitem_ok l k x) Hx); simpl
          end).
  eauto.
Qed.

End VegLists.

(** ** Loops that raise *)

(** A loop that raised did so in some pass [k], after [k] finished
    passes. *)
Lemma for_range_raise_inv {St} n (body : nat -> St -> script St) st tr e :
  for_range n body st = (tr, Raise e) ->
  exists k t1 st1 t2,
    k < n /\ for_range k body st = (t1, Ok st1) /\
    body k st1 = (t2, Raise e) /\ tr = t1 ++ t2.
Proof.
  revert tr. induction n as [|n IH]; intros tr.
  - discriminate.
  - rewrite for_range_S. intros Hrun.
    apply sbind_inv in Hrun as [(t1 & st1 & t2 & H1 & H2 & ->)|(e' & H1 & [= <-])].
    + exists n, t1, st1, t2. auto.
    + destruct (IH _ H1) as (k & t1 & st1 & t2 & Hk & ? & ? & ?).
      exists k, t1, st1, t2. split; [lia|done].
Qed.

Module VegFailure.
Import Numpy NumpyFacts Fill Veg VegFacts VegLists.

#[local] Arguments assign_column : simpl never.

Section Facts.
Context `{Prosail}.

(** A call returned a spectrum the output array takes: as many rows as
    bands, or a single row. *)
Definition fits (nb : nat) (e : event) : Prop :=
  match e with
  | Ev_prosail a =>
      exists s, pyprosail_run a = Ok s /\ (length s = nb \/ length s = 1)
  | _ => True
  end.

Lemma loop_finished_fits p i nb N n arr0 sp0 tr arr sp :
  for_range n (simulate_bundle p i) (arr0, sp0) = (tr, Ok (arr, sp)) ->
  filled nb N arr0 [] ->
  Forall (fits nb) tr.
Proof.
  intros Hrun H0. revert tr arr sp Hrun. induction n as [|n IH]; intros tr arr sp.
  - intros [= <- <- <-]. constructor.
  - rewrite for_range_S. intros Hrun.
    apply sbind_ok_inv in Hrun as (t1 & [arr1 sp1] & t2 & H1 & H2 & ->).
    pose proof (loop_finished _ _ _ _ _ _ _ _ _ _ H1 H0) as (_ & _ & Hfill & _).
    destruct (simulate_bundle_cases p i n arr1 sp1)
      as [(e & He & _)|[(a & e & He & _)|(a & s & arr' & He & Ha & Hs & Harr)]];
      rewrite He in H2; try discriminate.
    injection H2 as <- <- <-.
    apply Forall_app. split; [by eapply IH|]. constructor; [|done].
    destruct Hfill as (Hwf & Hrows & _).
    apply assign_column_ok in Harr as (_ & Hlen & _); [|done].
    simpl. exists s. rewrite length_map, Hrows in Hlen. done.
Qed.

(** Why [a[:, k] = v] raises, for a column [k] the array has. *)
Lemma assign_column_raise k v a e :
  k < ncols a -> assign_column k v a = Raise e ->
  e = ValueError /\ length v <> nrows a /\ length v <> 1.
Proof.
  intros Hk. unfold assign_column.
  destruct (Nat.ltb_spec k (ncols a)); [|lia].
  destruct (Nat.eqb_spec (length v) (nrows a)); [done|].
  destruct (Nat.eqb_spec (length v) 1); [done|].
  by intros [= <-].
Qed.

End Facts.
End VegFailure.

(** The sampled lists are long enough for every lookup of the
    simulation loop. *)
Lemma sampled_args_found
    {G : Type} `{RandomSource G}
    (cfg : Veg.config) (fuel : nat) (g g' : G) (p : Veg.params) :
  Veg.sample_loop fuel (Veg.n_bundles cfg) Veg.no_params g = Some (p, g') ->
  forall j, j < Veg.n_bundles cfg ->
    exists a, Veg.bundle_args p (VegRun.leftover_i cfg) j = Ok a.
Proof.
  intros Hs.
  assert (Hlen : VegLists.all_lengths (Veg.n_bundles cfg) p).
  { apply (VegLists.sample_loop_lengths _ _ 0) in Hs; [done|].
    repeat split. }
  intros j Hj. unfold VegRun.leftover_i.
  destruct (Veg.n_bundles cfg) as [|n] eqn:Hn; [lia|]. simpl.
  apply (VegLists.bundle_args_found p (S n)); auto with lia.
Qed.

(** X3.  In the canopy script the sampling loop leaves [n_bundles] items
    in each of its fifteen parameter lists, so the list lookups of the
    simulation loop never raise: for every pass [j < n_bundles] the
    arguments of the call are found. *)
Theorem canopy_lists_hold_one_item_per_bundle
    {G : Type} `{RandomSource G}
    (cfg : Veg.config) (fuel : nat) (g g' : G) (p : Veg.params) :
  Veg.sample_loop fuel (Veg.n_bundles cfg) Veg.no_params g = Some (p, g') ->
  VegLists.all_lengths (Veg.n_bundles cfg) p /\
  forall j, j < Veg.n_bundles cfg ->
    exists a, Veg.bundle_args p (VegRun.leftover_i cfg) j = Ok a.
Proof.
  intros Hs. split; [|by eapply sampled_args_found].
  apply (VegLists.sample_loop_lengths _ _ 0) in Hs; [done|].
  repeat split.
Qed.

(** X3, at work: three bundles from the counter generator. *)
Lemma canopy_lists_hold_one_item_per_bundle_witness :
  exists p g',
    @Veg.sample_loop nat Demo.counter_source 10 3 Veg.no_params 0%nat
      = Some (p, g') /\
    VegLists.all_lengths 3 p /\
    forall j, j < 3 ->
      exists a, Veg.bundle_args p (VegRun.leftover_i (Demo.veg_cfg 3 5)) j = Ok a.
Proof.
  eexists _, _. split; [vm_compute; reflexivity|].
  exact (@canopy_lists_hold_one_item_per_bundle nat Demo.counter_source
           (Demo.veg_cfg 3 5) 10 0%nat _ _ eq_refl).
Defined.

(** X4.  With a generator whose [random()] lies in [0, 1), every value
    the canopy script draws with [random.uniform] lies in the range it
    passes: the structure coefficient in [1.3, 2.5], the water thickness
    in [0.002, 0.05], the soil metric in [0, 1], the hot spot in
    [0.05, 0.5], the two leaf-angle parameters in [-0.4, 0.4] and
    [-0.1, 0.2], and the solar azimuth in [0, 360]. *)
Theorem uniform_parameters_within_their_ranges
    {G : Type} `{RandomSource G} (fuel n : nat) (g g' : G) (p : Veg.params) :
  VegLists.unit_interval_source ->
  Veg.sample_loop fuel n Veg.no_params g = Some (p, g') ->
  VegLists.lists_in_uniform_ranges p.
Proof.
  intros Hsrc Hs.
  apply (VegLists.sample_loop_uniform_ranges _ _ _ _ _ _ Hsrc Hs).
  repeat split; constructor.
Qed.

(** The counter generator draws [(g mod 10) / 10]. *)
Lemma counter_source_in_unit_interval :
  @VegLists.unit_interval_source nat Demo.counter_source.
Proof.
  intros g. simpl. unfold Qle, Qlt. simpl.
  pose proof (Nat.mod_upper_bound g 10). lia.
Qed.

(** X4, at work: three bundles from the counter generator. *)
Lemma uniform_parameters_within_their_ranges_witness :
  exists p g',
    @Veg.sample_loop nat Demo.counter_source 10 3 Veg.no_params 0%nat
      = Some (p, g') /\
    VegLists.lists_in_uniform_ranges p.
Proof.
  eexists _, _. split; [vm_compute; reflexivity|].
  exact (@uniform_parameters_within_their_ranges nat Demo.counter_source
           10 3 0%nat _ _ counter_source_in_unit_interval eq_refl).
Defined.

(** How the model of a run raises: with no bundles, at line 174; or at a
    call of the canopy model, the last event of its trace.  The writes
    of the export are taken to succeed here. *)
Lemma veg_raise_cases
    {G : Type} `{RandomSource G} `{Prosail}
    (cfg : Veg.config) (fuel : nat) (g : G) (tr : list event) (e : exn) :
  Veg.main cfg fuel g = Some (tr, Raise e) ->
  (Veg.n_bundles cfg = 0 /\ tr = [] /\ e = NameError) \/
  (exists calls a,
     tr = calls ++ [Ev_prosail a] /\
     (exists args, calls = map Ev_prosail args) /\
     count_invocations calls < Veg.n_bundles cfg /\
     Forall (VegFailure.fits (Veg.nb cfg)) calls /\
     (pyprosail_run a = Raise e \/
      exists s, pyprosail_run a = Ok s /\ e = ValueError /\
                length s <> Veg.nb cfg /\ length s <> 1)).
Proof.
  intros Hmain.
  apply veg_main_inv in Hmain as (p & g' & Hs & Hrun). symmetry in Hrun.
  pose proof (sampled_args_found _ _ _ _ _ Hs) as Hargs. clear Hs.
  unfold Veg.simulate_and_export in Hrun. fold (VegRun.leftover_i cfg) in Hrun.
  set (n := Veg.n_bundles cfg) in *.
  destruct (for_range n _ _) as [t [[arr sp]|e']] eqn:Hloop.
  - (* the loop finished *)
    pose proof (VegFacts.loop_finished _ _ (Veg.nb cfg) n _ _ _ _ _ _ Hloop
                  (Fill.filled_zeros _ _)) as (_ & _ & Hfill & Hsp).
    pose proof (VegFailure.loop_finished_fits _ _ (Veg.nb cfg) n _ _ _ _ _ _ Hloop
                  (Fill.filled_zeros _ _)) as Hfits.
    destruct n as [|n'] eqn:Hn.
    + left. subst sp. injection Hloop as <- _. simpl in Hrun.
      by injection Hrun as <- <-.
    + exfalso. destruct Hsp as (a & s & Hlast & Hs & ->). simpl in Hrun.
      destruct (Numpy.assign_column 0 (map fst s) arr) as [arr'|e'] eqn:Harr;
        simpl in Hrun; [done|].
      destruct Hfill as (_ & Hrows & Hcols & _).
      apply VegFailure.assign_column_raise in Harr as (_ & H1 & H2); [|lia].
      rewrite length_map, Hrows in H1. rewrite length_map in H2.
      apply last_Some_elem_of in Hlast.
      rewrite Forall_forall in Hfits.
      destruct (Hfits _ Hlast) as (s' & Hs' & Hlen). rewrite Hs in Hs'. injection Hs' as <-.
      lia.
  - (* the loop raised *)
    simpl in Hrun. injection Hrun as <- <-. right.
    apply for_range_raise_inv in Hloop
      as (k & t1 & [arr1 sp1] & t2 & Hk & H1 & H2 & ->).
    pose proof (VegFacts.loop_finished _ _ (Veg.nb cfg) (Veg.n_bundles cfg)
                  _ _ _ _ _ _ H1 (Fill.filled_zeros _ _))
      as (_ & _ & Hfill & _).
    pose proof (VegFailure.loop_finished_fits _ _ (Veg.nb cfg) (Veg.n_bundles cfg)
                  _ _ _ _ _ _ H1 (Fill.filled_zeros _ _)) as Hfits.
    apply VegFacts.loop_trace in H1 as (args & -> & _ & _ & Hlen).
    specialize (Hlen _ eq_refl).
    destruct (VegFacts.simulate_bundle_cases p (VegRun.leftover_i cfg) k arr1 sp1)
      as [(e1 & He & Hno)|[(a & e1 & He & Ha & Hwhy)|(a & s & arr' & He & _)]];
      rewrite He in H2; try discriminate.
    + destruct (Hargs k Hk) as [a Ha]. congruence.
    + injection H2 as <- <-. exists (map Ev_prosail args), a.
      rewrite count_invocations_prosail. split_and!; [done|by eexists|fold n; lia|done|].
      destruct Hwhy as [Hwhy|(s & Hs & Harr)]; [by left|right].
      destruct Hfill as (_ & Hrows & Hcols & _).
      apply VegFailure.assign_column_raise in Harr as (-> & H1 & H2);
        [|fold n in Hk; lia].
      rewrite length_map in H1, H2. rewrite Hrows in H1. by exists s.
Qed.


(** In a finished run there was a bundle, and every call returned a
    spectrum the array took. *)
Lemma veg_finished_calls_fit
    {G : Type} `{RandomSource G} `{Prosail}
    (cfg : Veg.config) (fuel : nat) (g : G) (tr : list event) :
  Veg.main cfg fuel g = Some (tr, Ok tt) ->
  0 < Veg.n_bundles cfg /\
  forall a, Ev_prosail a ∈ tr -> VegFailure.fits (Veg.nb cfg) (Ev_prosail a).
Proof.
  intros Hmain.
  apply veg_main_inv in Hmain as (p & g' & _ & Hrun). symmetry in Hrun.
  unfold Veg.simulate_and_export in Hrun. fold (VegRun.leftover_i cfg) in Hrun.
  set (n := Veg.n_bundles cfg) in *.
  destruct (for_range n _ _) as [t [[arr sp]|e']] eqn:Hloop; [|discriminate Hrun].
  pose proof (VegFacts.loop_finished _ _ (Veg.nb cfg) n _ _ _ _ _ _ Hloop
                (Fill.filled_zeros _ _)) as (_ & _ & _ & Hsp).
  pose proof (VegFailure.loop_finished_fits _ _ (Veg.nb cfg) n _ _ _ _ _ _ Hloop
                (Fill.filled_zeros _ _)) as Hfits.
  destruct n as [|n'] eqn:Hn.
  { subst sp. simpl in Hrun. discriminate Hrun. }
  split; [lia|].
  destruct Hsp as (a0 & s & _ & _ & ->). simpl in Hrun.
  destruct (Numpy.assign_column 0 (map fst s) arr) as [arr'|e'];
    simpl in Hrun; [|discriminate Hrun].
  injection Hrun as <-. intros a Hin.
  apply elem_of_app in Hin as [Hin|Hin].
  - rewrite Forall_forall in Hfits. by apply Hfits.
  - repeat (apply elem_of_cons in Hin as [Hin|Hin]; [discriminate Hin|]).
    by apply elem_of_nil in Hin.
Qed.

(** The run stopped at the call with arguments [a]: its trace holds
    calls of the canopy model and nothing else, the call is the last of
    them, not all bundles were done, and the calls before it returned
    spectra the array took. *)
Definition stops_at `{Prosail} (cfg : Veg.config) (tr : list event)
    (a : prosail_args) : Prop :=
  exists args,
    tr = map Ev_prosail args ++ [Ev_prosail a] /\
    length args < Veg.n_bundles cfg /\
    Forall (VegFailure.fits (Veg.nb cfg)) (map Ev_prosail args).

(** X5.  What stops a run of the canopy script before its export.  With
    no bundles nothing is called or written, and line 174 raises
    NameError for the unbound [spectrum].  A call of the canopy model
    that raises ends the run with its exception: the call is the last
    event of the trace and nothing is written.  So does, with
    ValueError, a call that returns a spectrum whose row count is
    neither the band count nor 1, which the output array cannot take. *)
Theorem canopy_run_stops_at_the_failing_call
    {G : Type} `{RandomSource G} `{Prosail}
    (cfg : Veg.config) (fuel : nat) (g : G) (tr : list event) (r : result unit) :
  Veg.main cfg fuel g = Some (tr, r) ->
  (Veg.n_bundles cfg = 0 -> tr = [] /\ r = Raise NameError) /\
  (forall a e, Ev_prosail a ∈ tr -> pyprosail_run a = Raise e ->
     r = Raise e /\ stops_at cfg tr a) /\
  (forall a s, Ev_prosail a ∈ tr -> pyprosail_run a = Ok s ->
     length s <> Veg.nb cfg -> length s <> 1 ->
     r = Raise ValueError /\ stops_at cfg tr a).
Proof.
  intros Hmain. destruct r as [[]|e0].
  - destruct (veg_finished_calls_fit _ _ _ _ Hmain) as [Hn Hfits].
    split; [lia|]. split.
    + intros a e Hin Hraise. destruct (Hfits a Hin) as (s & Hs & _). congruence.
    + intros a s Hin Hs H1 H2. destruct (Hfits a Hin) as (s' & Hs' & Hlen).
      rewrite Hs in Hs'. injection Hs' as <-. lia.
  - destruct (veg_raise_cases _ _ _ _ _ Hmain)
      as [(Hn & -> & ->)|(calls & a0 & -> & [args ->] & Hcount & Hfits & Hwhy)].
    { split; [done|]. split; intros a ? Hin; by apply elem_of_nil in Hin. }
    rewrite count_invocations_prosail in Hcount.
    assert (Hstop : stops_at cfg (map Ev_prosail args ++ [Ev_prosail a0]) a0)
      by by exists args.
    assert (Hlast : forall a, Ev_prosail a ∈ map Ev_prosail args ++ [Ev_prosail a0] ->
              a = a0 \/ exists s, pyprosail_run a = Ok s /\
                                  (length s = Veg.nb cfg \/ length s = 1)).
    { intros a Hin. apply elem_of_app in Hin as [Hin|Hin].
      - right. rewrite Forall_forall in Hfits. exact (Hfits _ Hin).
      - left. apply list_elem_of_singleton in Hin. congruence. }
    split; [lia|]. split.
    + intros a e Hin Hraise.
      destruct (Hlast a Hin) as [->|(s & Hs & _)]; [|congruence].
      destruct Hwhy as [Hwhy|(s & Hs & _)]; [|congruence].
      split; [congruence|done].
    + intros a s Hin Hs H1 H2.
      destruct (Hlast a Hin) as [->|(s' & Hs' & Hlen)].
      2:{ rewrite Hs in Hs'. injection Hs' as <-. lia. }
      destruct Hwhy as [Hwhy|(s' & _ & -> & _)]; [congruence|done].
Qed.

(** X5, at work: the canopy model raises on the second of three
    bundles; the run ends there with the model's exception. *)
Lemma canopy_run_stops_at_the_failing_call_witness :
  exists tr a,
    @Veg.main nat Demo.counter_source (Demo.picky_prosail 5 10) (Demo.veg_cfg 3 5)
      10 0%nat = Some (tr, Raise ModelError) /\
    last tr = Some (Ev_prosail a) /\
    length tr = 2 /\
    @pyprosail_run (Demo.picky_prosail 5 10) a = Raise ModelError /\
    @stops_at (Demo.picky_prosail 5 10) (Demo.veg_cfg 3 5) tr a.
Proof.
  eexists _, _. split; [vm_compute; reflexivity|].
  split; [reflexivity|]. split; [reflexivity|].
  split; [vm_compute; reflexivity|].
  refine (proj2 (proj1 (proj2
            (@canopy_run_stops_at_the_failing_call nat Demo.counter_source
               (Demo.picky_prosail 5 10) (Demo.veg_cfg 3 5) 10 0%nat _
               (Raise ModelError) _)) _ ModelError _ _)).
  - vm_compute. reflexivity.
  - apply list_elem_of_further, list_elem_of_here.
  - vm_compute. reflexivity.
Defined.

(** ** The three artifacts together *)

Lemma concat_length_uniform (n : nat) (vs : list (list Q)) :
  Forall (fun v => length v = n) vs -> length (concat vs) = length vs * n.
Proof.
  induction 1 as [|v vs Hv _ IH]; simpl; [done|].
  rewrite length_app, IH, Hv. done.
Qed.

(** The three writes that end a finished run describe one library: the
    csv is the axis followed by the spectra, the sli is the spectra
    joined, the header's wavelength entry is the axis, and the header's
    lines times samples is the number of items in the sli. *)
Definition one_library (csv : list (list Q)) (sli : list Q)
    (md : gmap string hdr_value) : Prop :=
  exists axis spectra samples lines,
    csv = axis :: spectra /\
    sli = concat spectra /\
    md !! "wavelength" = Some (HFloats axis) /\
    md !! "samples" = Some (HInt samples) /\
    md !! "lines" = Some (HInt lines) /\
    length axis = samples /\
    length spectra = lines /\
    Forall (fun v => length v = samples) spectra /\
    length sli = lines * samples.

(** X6.  A finished run of either script ends with a csv, an sli and a
    header that agree: the sli holds exactly the csv lines after the
    first, joined; the header's wavelength list is the first csv line;
    and the header's samples and lines are the length and the number of
    those lines, so that the sli holds lines times samples values. *)
Theorem artifacts_describe_one_library :
  (forall (G : Type) (R : RandomSource G) (P : Prosail) cfg fuel (g : G) tr,
     Veg.main cfg fuel g = Some (tr, Ok tt) ->
     exists calls csv sli md,
       tr = calls ++ [Ev_savetxt (VegRun.csv_path cfg) csv;
                      Ev_tofile (VegRun.sli_path cfg) sli;
                      Ev_write_envi_header (VegRun.hdr_path cfg) md] /\
       one_library csv sli md) /\
  (forall (W : Soil.World) cfg d tr,
     Soil.main cfg d = (tr, Ok tt) ->
     exists loop csv sli md,
       tr = loop ++ [Ev_savetxt (SoilRun.csv_path cfg) csv;
                     Ev_tofile (SoilRun.sli_path cfg) sli;
                     Ev_write_envi_header (SoilRun.hdr_path cfg) md] /\
       one_library csv sli md).
Proof.
  split.
  - intros G R P cfg fuel g tr Hmain.
    apply veg_main_inv in Hmain as (p & g' & _ & Hrun). symmetry in Hrun.
    apply VegRun.veg_run_shape in Hrun as (args & _ & _ & [[_ ?]|Hdone]); [done|].
    destruct Hdone as (axis & arr & a & s & _ & Hn & _ & Hlen & Hlens & _ & _ & _
                       & Haxis & Hcol & ->).
    destruct (veg_metadata_lookup cfg (Veg.spectra_names (Veg.n_bundles cfg)) arr)
      as (Hs & Hl & _ & _ & _ & _ & Hw).
    eexists _, _, _, _. split; [reflexivity|].
    eexists axis, _, _, _. rewrite Hcol in Hw.
    split_and!; try done.
    by rewrite (concat_length_uniform _ _ Hlens), Hlen.
  - intros W cfg d tr Hmain.
    apply SoilRun.soil_run_shape in Hmain as [(_ & ? & _)|Hloop]; [done|].
    destruct Hloop as (run & nbands & good_bands & loop & Hsensor & _ & [[_ ?]|Hdone]);
      [done|].
    destruct Hdone as (w & axis & _ & Hcount & Hlen & Hlens & _ & Haxis & -> & Hr).
    destruct Soil.envi_bound; [|done].
    destruct (soil_metadata_lookup cfg (length good_bands)
                (Soil.spectra_names (Soil.n_bundles cfg)) axis)
      as (Hs & Hl & _ & _ & _ & _ & Hw).
    apply take_indices_ok in Haxis as [Haxis _].
    eexists _, _, _, _. split; [reflexivity|].
    eexists axis, _, _, _.
    split_and!; try done.
    by rewrite (concat_length_uniform _ _ Hlens), Hlen.
Qed.

(** X6, at work: the soil script for two atmospheres and two bundles. *)
Lemma artifacts_describe_one_library_witness :
  exists tr loop csv sli md,
    @Soil.main (Demo.toy_world 10)
      (Demo.soil_cfg 2 2 "landsat_oli" ["nano.txt"; "micro.txt"; "furlong.txt"])
      (Demo.soil_draws [2; 0]) = (tr, Ok tt) /\
    tr = loop ++ [Ev_savetxt "/data/soil_bundles_speclib.csv" csv;
                  Ev_tofile "/data/soil_bundles_speclib.sli" sli;
                  Ev_write_envi_header "/data/soil_bundles_speclib.hdr" md] /\
    one_library csv sli md.
Proof.
  eexists _.
  edestruct (proj2 artifacts_describe_one_library (Demo.toy_world 10)
               (Demo.soil_cfg 2 2 "landsat_oli" ["nano.txt"; "micro.txt"; "furlong.txt"])
               (Demo.soil_draws [2; 0]))
    as (loop & csv & sli & md & Htr & Hlib); [vm_compute; reflexivity|].
  exists loop, csv, sli, md. split; [reflexivity|]. split; [exact Htr|exact Hlib].
Defined.

(** ** The sensor table of the soil script *)

Lemma sensor_setup_good_bands sensor wl run num_bands good_bands :
  Soil.sensor_setup sensor wl = Ok (run, num_bands, good_bands) ->
  exists first count,
    good_bands = seq first count /\ first + count <= num_bands.
Proof.
  unfold Soil.sensor_setup.
  repeat (match goal with
          | |- context [String.eqb sensor ?name] =>
              destruct (String.eqb sensor name);
              [match goal with
               | |- Ok (_, _, seq ?first ?count) = _ -> _ =>
                   intros Heq; exists first, count;
                   injection Heq as <- <- <-; split; [reflexivity|simpl; lia]
               end|]
          end).
  done.
Qed.

(** X7.  For every sensor the soil script configures, the bands it keeps
    are distinct, ascending indices below the sensor's band count; so
    when the runner returns one value per band of the sensor, selecting
    the kept bands never raises and gives one value per kept band. *)
Theorem good_bands_index_the_sensor_bands
    (sensor : string) (wl : list Q) (run : runner) (num_bands : nat)
    (good_bands : list nat) :
  Soil.sensor_setup sensor wl = Ok (run, num_bands, good_bands) ->
  Forall (fun b => b < num_bands) good_bands /\
  NoDup good_bands /\
  (forall i j b c, good_bands !! i = Some b -> good_bands !! j = Some c ->
                   i < j -> b < c) /\
  forall results : list Q, length results = num_bands ->
    exists selected, take_indices results good_bands = Ok selected /\
                     length selected = length good_bands.
Proof.
  intros Hs. apply sensor_setup_good_bands in Hs as (first & count & -> & Hle).
  assert (Hall : Forall (fun b => b < num_bands) (seq first count)).
  { apply Forall_seq. intros. lia. }
  split; [done|]. split; [apply NoDup_seq|]. split.
  - intros i j b c Hi Hj Hij.
    apply lookup_seq in Hi as [-> _]. apply lookup_seq in Hj as [-> _]. lia.
  - intros results Hlen. revert Hall. generalize (seq first count).
    induction 1 as [|b bs Hb _ IH]; simpl; [by exists []|].
    destruct IH as (sel & -> & Hsel).
    destruct (lookup_lt_is_Some_2 results b ltac:(lia)) as [x Hx].
    rewrite (proj2 (getitem_ok _ _ _) Hx). simpl.
    exists (x :: sel). simpl. auto.
Qed.

(** X7, at work: Landsat OLI keeps bands 1 to 6 of its 10. *)
Lemma good_bands_index_the_sensor_bands_witness :
  Soil.sensor_setup "landsat_oli" [] = Ok (run_landsat_oli, 10, seq 1 6) /\
  Forall (fun b => b < 10) (seq 1 6) /\ NoDup (seq 1 6).
Proof.
  split; [reflexivity|].
  destruct (good_bands_index_the_sensor_bands "landsat_oli" [] run_landsat_oli
              10 (seq 1 6) eq_refl) as (Hall & Hnd & _).
  split; [exact Hall|exact Hnd].
Defined.

(** ** The soil script: which atmosphere and which soil file each call
    runs with *)

(** A loop keeps an invariant of its state, and every event it emits
    has a property, when every pass does so from a state with the
    invariant. *)
Lemma for_each_trace_inv {St} (I : St -> Prop) (P : event -> Prop) js
    (body : nat -> St -> script St) st :
  (forall j st0, j ∈ js -> I st0 ->
     Forall P (fst (body j st0)) /\
     forall st1, snd (body j st0) = Ok st1 -> I st1) ->
  I st ->
  Forall P (fst (for_each js body st)) /\
  forall st1, snd (for_each js body st) = Ok st1 -> I st1.
Proof.
  revert st. induction js as [|j js IH]; intros st Hbody Hst; simpl.
  - split; [constructor|]. by intros st1 [= <-].
  - destruct (Hbody j st (list_elem_of_here _ _) Hst) as [HP HI].
    destruct (body j st) as [t [st0|e]]; simpl in *.
    + destruct (IH st0) as [HP' HI'].
      { intros j' st' Hj'. apply Hbody. by apply list_elem_of_further. }
      { by apply HI. }
      destruct (for_each js body st0) as [t' r]. simpl in *.
      split; [by apply Forall_app|done].
    + split; [done|]. discriminate.
Qed.

Lemma concat_replicate_snoc {A} (x : list A) k :
  concat (replicate k x) ++ x = concat (replicate (S k) x).
Proof.
  induction k as [|k IH]; simpl; [by rewrite app_nil_r|].
  rewrite <- app_assoc. f_equal. exact IH.
Qed.

Module SoilOrder.
Import Numpy Soil SoilFacts.

#[local] Arguments assign_column : simpl never.

(** The [SixS] object carries the parameters drawn for atmosphere [i]:
    the altitudes of lines 73-77, and item [i] of each array of lines
    59-90, the view azimuth after its shift to the 0-360 scale. *)
Definition atmosphere_is (d : draws) (i : nat) (s : sixs) : Prop :=
  exists ai aero ti atmos thickness sa sz va vz,
    aero_profile_ind d !! i = Some ai /\ aero_profile !! ai = Some aero /\
    atmos_profile_ind d !! i = Some ti /\ atmos_profile !! ti = Some atmos /\
    aot d !! i = Some thickness /\
    solar_a d !! i = Some sa /\ solar_z d !! i = Some sz /\
    to_0_360 (view_a d) !! i = Some va /\ view_z d !! i = Some vz /\
    s_altitudes s = Some (SatelliteLevel, SeaLevel) /\
    s_aero_profile s = Some aero /\
    s_atmos_profile s = Some atmos /\
    s_aot550 s = Some thickness /\
    s_geometry s = Some (Geometry sa sz va vz).

Lemma atmosphere_is_set_ground d i s gr :
  atmosphere_is d i s -> atmosphere_is d i (set_ground_reflectance s gr).
Proof. done. Qed.

Definition sixs_of (st : loop_state) : sixs := fst (fst st).

Section Order.
Context `{World}.
Variable cfg : config.
Variable d : draws.
Variable run : runner.
Variable good_bands : list nat.
Variable soil_spectra output_sixs : list string.

(** The [SixS] object of a runner call holds the spectrum of the soil
    file [path] as ground reflectance. *)
Definition ground_is (path : string) (s : sixs) : Prop :=
  exists soil0 first g,
    readJFSC path = Ok soil0 /\
    let soil := remove_water_bands soil0 in
    spectra soil !! 0 = Some first /\
    s_ground_reflectance s =
      Some (g, zip (if String.eqb (band_unit soil) "Nanometers"
                    then map (fun x => (x / 1000)%Q) (band_centers soil)
                    else band_centers soil) first).

(** One finished pass of the inner loop, in full. *)
Lemma simulate_soil_pass g i j s arr w t st' :
  simulate_soil cfg run good_bands soil_spectra g i j (s, arr, w) = (t, Ok st') ->
  exists path gr,
    soil_spectra !! j = Some path /\
    sixs_of st' = set_ground_reflectance s gr /\
    ground_is path (sixs_of st') /\
    is_Some (stored_spectrum cfg good_bands (Ev_sixs run (sixs_of st'))) /\
    t = [Ev_readJFSC path; Ev_sixs run (sixs_of st')].
Proof.
  unfold simulate_soil, call_readJFSC, call_sixs, lift. fold (wl_arg cfg).
  destruct (getitem soil_spectra j) as [path|] eqn:Hpath; simpl; [|done].
  destruct (readJFSC path) as [soil0|] eqn:Hsoil; simpl; [|done].
  destruct (getitem _ 0) as [first|] eqn:Hfirst; simpl; [|done].
  destruct (two_columns _ first) as [sp|] eqn:Hsp; simpl; [|done].
  fold (run_result cfg run (set_ground_reflectance s (g, sp))).
  destruct (run_result cfg run _) as [out|] eqn:Hout; simpl; [|done].
  destruct (take_indices _ good_bands) as [sel|] eqn:Hsel; simpl; [|done].
  destruct (assign_column _ sel arr) as [arr1|]; simpl; [|done].
  intros [= <- <-]. apply getitem_ok in Hpath.
  exists path, (g, sp). split_and!; try done.
  2:{ unfold sixs_of. simpl. rewrite Hout, Hsel. by eexists. }
  exists soil0, first, g. split; [done|].
  apply getitem_ok in Hfirst. rewrite to_micrometers_spectra in Hfirst.
  apply two_columns_ok in Hsp. rewrite to_micrometers_axis in Hsp.
  simpl. by rewrite Hsp.
Qed.

(** The soil files read, and the [SixS] objects of the runner calls, of
    a trace, in order. *)
Definition reads (tr : list event) : list string :=
  omap (fun e => match e with Ev_readJFSC path => Some path | _ => None end) tr.

Definition calls (tr : list event) : list (runner * sixs) :=
  omap (fun e => match e with Ev_sixs r s => Some (r, s) | _ => None end) tr.

(** The sensor's runner was called with a [SixS] object that holds the
    parameters of atmosphere [i] and the spectrum of soil file [j], and
    it returned a spectrum the loop stored. *)
Definition call_of (i j : nat) (c : runner * sixs) : Prop :=
  fst c = run /\
  atmosphere_is d i (snd c) /\
  (exists path, soil_spectra !! j = Some path /\ ground_is path (snd c)) /\
  is_Some (stored_spectrum cfg good_bands (Ev_sixs run (snd c))).

(** The 6S input files written, in order. *)
Definition input_files (tr : list event) : list string :=
  omap (fun e => match e with Ev_write_input_file path _ => Some path | _ => None end)
       tr.

(** The inner loop, finished, for atmosphere [i]: it read the first [m]
    sampled soil files in order, wrote no input file, and its [j]-th call
    ran with atmosphere [i] and the spectrum of soil file [j]. *)
Lemma inner_order g i m s0 arr0 w0 tr st' :
  for_range m (simulate_soil cfg run good_bands soil_spectra g i) (s0, arr0, w0)
    = (tr, Ok st') ->
  atmosphere_is d i s0 ->
  atmosphere_is d i (sixs_of st') /\
  reads tr = take m soil_spectra /\
  m <= length soil_spectra /\
  input_files tr = [] /\
  length (calls tr) = m /\
  forall j c, calls tr !! j = Some c -> call_of i j c.
Proof.
  intros Hrun H0. revert tr st' Hrun. induction m as [|m IH]; intros tr st'.
  - intros [= <- <-]. simpl. rewrite take_0. split_and!; auto with lia.
    intros j c. by rewrite lookup_nil.
  - rewrite for_range_S. intros Hrun.
    apply sbind_ok_inv in Hrun as (t1 & [[s1 arr1] w1] & t2 & H1 & H2 & ->).
    destruct (IH _ _ H1) as (Hatm & Hreads & Hm & Hfiles & Hlen & Hcalls).
    apply simulate_soil_pass in H2
      as (path & gr & Hpath & Hs & Hground & Hstored & ->).
    unfold reads, calls, input_files in *. rewrite !omap_app. simpl.
    rewrite Hreads, Hfiles.
    assert (Hatm' : atmosphere_is d i (sixs_of st')).
    { rewrite Hs. by apply atmosphere_is_set_ground. }
    split_and!.
    + done.
    + by rewrite (take_S_r _ _ _ Hpath).
    + apply lookup_lt_Some in Hpath. lia.
    + done.
    + rewrite length_app. simpl. lia.
    + intros j c Hj. apply lookup_app_Some in Hj as [Hj|[Hge Hj]]; [eauto|].
      apply list_lookup_singleton_Some in Hj as [Hj <-].
      replace j with m by lia. unfold call_of. simpl. split_and!; eauto.
Qed.

(** One finished pass of the outer loop, in full. *)
Lemma simulate_atmosphere_pass i s0 arr0 w0 t st' :
  simulate_atmosphere cfg d run good_bands soil_spectra output_sixs i (s0, arr0, w0)
    = (t, Ok st') ->
  s_altitudes s0 = Some (SatelliteLevel, SeaLevel) ->
  exists s1 g inner path,
    atmosphere_is d i s1 /\
    for_range (n_bundles cfg)
      (simulate_soil cfg run good_bands soil_spectra g i) (s1, arr0, w0)
      = (inner, Ok st') /\
    output_sixs !! i = Some path /\
    t = inner ++ [Ev_write_input_file path (sixs_of st')].
Proof.
  intros Hrun Halt. unfold simulate_atmosphere in Hrun. cbn beta iota in Hrun.
  apply sbind_ok_inv in Hrun as (? & ai & ? & [Hai%getitem_ok ->]%lift_ok_inv & Hrun & ->).
  apply sbind_ok_inv in Hrun as (? & aero & ? & [Haero%getitem_ok ->]%lift_ok_inv & Hrun & ->).
  apply sbind_ok_inv in Hrun as (? & ti & ? & [Hti%getitem_ok ->]%lift_ok_inv & Hrun & ->).
  apply sbind_ok_inv in Hrun as (? & atmos & ? & [Hatmos%getitem_ok ->]%lift_ok_inv & Hrun & ->).
  apply sbind_ok_inv in Hrun as (? & th & ? & [Hth%getitem_ok ->]%lift_ok_inv & Hrun & ->).
  apply sbind_ok_inv in Hrun as (? & sa & ? & [Hsa%getitem_ok ->]%lift_ok_inv & Hrun & ->).
  apply sbind_ok_inv in Hrun as (? & sz & ? & [Hsz%getitem_ok ->]%lift_ok_inv & Hrun & ->).
  apply sbind_ok_inv in Hrun as (? & va & ? & [Hva%getitem_ok ->]%lift_ok_inv & Hrun & ->).
  apply sbind_ok_inv in Hrun as (? & vz & ? & [Hvz%getitem_ok ->]%lift_ok_inv & Hrun & ->).
  apply sbind_ok_inv in Hrun as (? & gi & ? & [_ ->]%lift_ok_inv & Hrun & ->).
  apply sbind_ok_inv in Hrun as (? & g & ? & [_ ->]%lift_ok_inv & Hrun & ->).
  apply sbind_ok_inv in Hrun as (inner & st1 & t2 & Hinner & Hrun & ->).
  apply sbind_ok_inv in Hrun as (? & path & ? & [Hpath%getitem_ok ->]%lift_ok_inv & Hrun & ->).
  unfold emit in Hrun. simpl in Hrun. injection Hrun as <- <-.
  eexists _, g, inner, path. split_and!; [|exact Hinner|done|done].
  exists ai, aero, ti, atmos, th, sa, sz, va, vz. simpl. split_and!; done.
Qed.

Lemma set_ground_reflectance_altitudes s gr :
  s_altitudes (set_ground_reflectance s gr) = s_altitudes s.
Proof. done. Qed.

(** The outer loop, finished after [k] atmospheres. *)
Lemma outer_order k s0 arr0 w0 tr st' :
  for_range k
    (simulate_atmosphere cfg d run good_bands soil_spectra output_sixs)
    (s0, arr0, w0) = (tr, Ok st') ->
  s_altitudes s0 = Some (SatelliteLevel, SeaLevel) ->
  s_altitudes (sixs_of st') = Some (SatelliteLevel, SeaLevel) /\
  reads tr = concat (replicate k (take (n_bundles cfg) soil_spectra)) /\
  input_files tr = take k output_sixs /\
  k <= length output_sixs /\
  (0 < k -> n_bundles cfg <= length soil_spectra) /\
  length (calls tr) = k * n_bundles cfg /\
  forall i j c, j < n_bundles cfg ->
    calls tr !! (i * n_bundles cfg + j) = Some c -> call_of i j c.
Proof.
  intros Hrun H0. revert tr st' Hrun. induction k as [|k IH]; intros tr st'.
  - intros [= <- <-]. simpl. rewrite take_0. split_and!; auto with lia.
    intros i j c _. by rewrite lookup_nil.
  - rewrite for_range_S. intros Hrun.
    apply sbind_ok_inv in Hrun as (t1 & [[s1 arr1] w1] & t2 & H1 & H2 & ->).
    destruct (IH _ _ H1) as (Halt & Hreads & Hfiles & Hk & _ & Hlen & Hcalls).
    apply simulate_atmosphere_pass in H2
      as (s2 & g & inner & path & Hatm & Hinner & Hpath & ->); [|done].
    eapply inner_order in Hinner
      as (Hatm' & Hreads' & Hm & Hfiles' & Hlen' & Hcalls'); [|exact Hatm].
    unfold reads, calls, input_files in *. rewrite !omap_app. simpl.
    rewrite Hreads, Hfiles, Hreads', Hfiles', !app_nil_r. simpl.
    split_and!.
    + by destruct Hatm' as (? & ? & ? & ? & ? & ? & ? & ? & ? & _ & _ & _ & _ & _
                           & _ & _ & _ & _ & ? & _).
    + apply concat_replicate_snoc.
    + by rewrite (take_S_r _ _ _ Hpath).
    + apply lookup_lt_Some in Hpath. lia.
    + done.
    + rewrite length_app. lia.
    + intros i j c Hj Hs.
      apply lookup_app_Some in Hs as [Hs|[Hge Hs]]; [by eapply Hcalls|].
      rewrite Hlen in Hge, Hs.
      pose proof (lookup_lt_Some _ _ _ Hs) as Hlt. rewrite Hlen' in Hlt.
      assert (i = k) as -> by nia.
      replace (k * n_bundles cfg + j - k * n_bundles cfg) with j in Hs by lia.
      eauto.
Qed.

End Order.
End SoilOrder.

Lemma omap_lookup_all_some {A B} (f : A -> option B) (l : list A) k :
  Forall (fun x => is_Some (f x)) l -> omap f l !! k = l !! k ≫= f.
Proof.
  intros Hall. revert k. induction Hall as [|x l [y Hy] _ IH]; intros k; simpl.
  - by rewrite !lookup_nil.
  - rewrite Hy. destruct k as [|k]; simpl; [by rewrite Hy|apply IH].
Qed.

Module SoilFinished.
Import Numpy NumpyFacts Fill Soil SoilFacts SoilRun SoilOrder.

#[local] Arguments savetxt : simpl never.
#[local] Arguments tofile : simpl never.
#[local] Arguments transpose : simpl never.
#[local] Arguments drop_first_column : simpl never.
#[local] Arguments assign_column : simpl never.
#[local] Arguments zeros : simpl never.

Section Facts.
Context `{World}.

(** The [SixS] object the script starts from. *)
Definition initial_sixs : sixs :=
  SixS (Some (SatelliteLevel, SeaLevel)) None None None None None.

(** The two loops of the script, run from the start. *)
Definition the_loops (cfg : config) (d : draws) (run : runner)
    (good_bands : list nat) (soil_spectra : list string) : script loop_state :=
  for_range (n_atmospheres cfg)
    (simulate_atmosphere cfg d run good_bands soil_spectra (atmosphere_files cfg))
    (initial_sixs,
     zeros (length good_bands) (n_bundles cfg * n_atmospheres cfg + 1), None).

(** A run is its set-up, its loops, and what follows them. *)
Lemma main_phases cfg d tr r :
  main cfg d = (tr, r) ->
  (tr = [] /\ is_raise r = true) \/
  exists soil_spectra run num_bands good_bands loop lr tail,
    sample_soil_files cfg d = Ok soil_spectra /\
    sensor_setup (target_sensor cfg) (wl cfg) = Ok (run, num_bands, good_bands) /\
    the_loops cfg d run good_bands soil_spectra = (loop, lr) /\
    tr = loop ++ tail /\
    Forall (fun e => is_artifact_write e = true) tail /\
    ((tail = [] /\ is_raise r = true) \/
     exists st csv sli rest,
       lr = Ok st /\
       tail = Ev_savetxt (csv_path cfg) csv :: Ev_tofile (sli_path cfg) sli :: rest /\
       csv = hd [] csv :: omap (stored_spectrum cfg good_bands) loop).
Proof.
  unfold main. fold (csv_path cfg) (sli_path cfg) (hdr_path cfg). fold initial_sixs.
  destruct (sample_soil_files cfg d) as [soil_spectra|e] eqn:Hsample; simpl.
  2:{ intros [= <- <-]. left. auto. }
  destruct (sensor_setup _ _) as [[[run nbands] good_bands]|e] eqn:Hsensor; simpl.
  2:{ intros [= <- <-]. left. auto. }
  fold (the_loops cfg d run good_bands soil_spectra).
  destruct (the_loops _ _ _ _ _) as [loop [[[s arr] w]|e]] eqn:Hloop; simpl.
  2:{ intros [= <- <-]. right.
      exists soil_spectra, run, nbands, good_bands, loop, (Raise e), [].
      rewrite app_nil_r. split_and!; auto. }
  intros Hrun. right.
  pose proof Hloop as Hfin. unfold the_loops in Hfin.
  eapply (outer_finished _ _ _ _ _ _ (length good_bands)
            (n_bundles cfg * n_atmospheres cfg)) in Hfin
    as (_ & _ & Hlen & Hfill & _); [|done|apply filled_zeros].
  destruct w as [wavelengths|]; simpl in Hrun.
  2:{ injection Hrun as <- <-.
      exists soil_spectra, run, nbands, good_bands, loop, (Ok (s, arr, None)), [].
      rewrite app_nil_r. split_and!; auto. }
  destruct (take_indices wavelengths good_bands) as [axis|e] eqn:Haxis; simpl in Hrun.
  2:{ injection Hrun as <- <-.
      exists soil_spectra, run, nbands, good_bands, loop,
        (Ok (s, arr, Some wavelengths)), [].
      rewrite app_nil_r. split_and!; auto. }
  destruct (assign_column 0 axis arr) as [arr'|e] eqn:Harr; simpl in Hrun.
  2:{ injection Hrun as <- <-.
      exists soil_spectra, run, nbands, good_bands, loop,
        (Ok (s, arr, Some wavelengths)), [].
      rewrite app_nil_r. split_and!; auto. }
  assert (HN : length (omap (stored_spectrum cfg good_bands) loop)
               = n_bundles cfg * n_atmospheres cfg) by lia.
  eapply filled_export in Harr as (Hcsv & _ & _); [|exact Hfill|done].
  rewrite Hcsv in Hrun.
  destruct envi_bound; simpl in Hrun; injection Hrun as <- <-;
    (eexists soil_spectra, run, nbands, good_bands, loop,
       (Ok (s, arr, Some wavelengths)), _;
     split_and!; [done|done|done|reflexivity|by repeat constructor|right];
     eexists _, _, _, _; split_and!; reflexivity).
Qed.

End Facts.
End SoilFinished.

Lemma stored_of_calls `{Soil.World} cfg good_bands tr :
  omap (SoilFacts.stored_spectrum cfg good_bands) tr =
  omap (fun c => SoilFacts.stored_spectrum cfg good_bands (Ev_sixs (fst c) (snd c)))
       (SoilOrder.calls tr).
Proof.
  unfold SoilOrder.calls.
  induction tr as [|e tr IH]; [done|].
  cbn [omap list_omap]. rewrite IH.
  by destruct e.
Qed.

(** X8.  In a finished run of the soil script the runner calls come
    atmosphere by atmosphere and, within an atmosphere, soil file by
    soil file: call number [i * n_bundles + j] is made by the sensor's
    runner with the parameters drawn for atmosphere [i] and the spectrum
    of the [j]-th sampled soil file, and the spectrum it returns is line
    [i * n_bundles + j + 2] of the csv. *)
Theorem soil_spectra_are_ordered_by_atmosphere_then_soil_file
    `{Soil.World} (cfg : Soil.config) (d : Soil.draws) (tr : list event) :
  Soil.main cfg d = (tr, Ok tt) ->
  exists soil_spectra run num_bands good_bands loop csv rest,
    Soil.sample_soil_files cfg d = Ok soil_spectra /\
    Soil.sensor_setup (Soil.target_sensor cfg) (Soil.wl cfg)
      = Ok (run, num_bands, good_bands) /\
    tr = loop ++ Ev_savetxt (SoilRun.csv_path cfg) csv :: rest /\
    length (SoilOrder.calls loop) = Soil.n_atmospheres cfg * Soil.n_bundles cfg /\
    forall i j, i < Soil.n_atmospheres cfg -> j < Soil.n_bundles cfg ->
      exists c spectrum,
        SoilOrder.calls loop !! (i * Soil.n_bundles cfg + j) = Some c /\
        SoilOrder.call_of cfg d run good_bands soil_spectra i j c /\
        SoilFacts.stored_spectrum cfg good_bands (Ev_sixs run (snd c))
          = Some spectrum /\
        csv !! (i * Soil.n_bundles cfg + j + 1) = Some spectrum.
Proof.
  intros Hmain.
  apply SoilFinished.main_phases in Hmain as [[_ ?]|Hphases]; [done|].
  destruct Hphases as (ss & run & nbands & gb & loop & lr & tail & Hss & Hsensor
                       & Hloops & -> & _ & [[_ ?]|Hdone]); [done|].
  destruct Hdone as (st & csv & sli & rest & -> & -> & Hcsv).
  unfold SoilFinished.the_loops in Hloops.
  eapply SoilOrder.outer_order in Hloops
    as (_ & _ & _ & _ & _ & Hlen & Hcalls); [|done].
  exists ss, run, nbands, gb, loop, csv, (Ev_tofile (SoilRun.sli_path cfg) sli :: rest).
  split_and!; try done.
  intros i j Hi Hj.
  destruct (lookup_lt_is_Some_2 (SoilOrder.calls loop) (i * Soil.n_bundles cfg + j))
    as [c Hc]; [rewrite Hlen; nia|].
  pose proof (Hcalls i j c Hj Hc) as Hcall.
  destruct Hcall as (Hrun & Hatm & Hground & [spectrum Hstored]).
  exists c, spectrum. split_and!; try done.
  rewrite Hcsv, Nat.add_1_r. simpl.
  rewrite stored_of_calls, omap_lookup_all_some, Hc; simpl.
  - by rewrite Hrun.
  - apply Forall_lookup. intros k c' Hk.
    pose proof (lookup_lt_Some _ _ _ Hk) as Hlt. rewrite Hlen in Hlt.
    assert (Hpos : Soil.n_bundles cfg <> 0) by nia.
    pose proof (Nat.div_mod_eq k (Soil.n_bundles cfg)) as Hdm.
    pose proof (Nat.mod_upper_bound k (Soil.n_bundles cfg) Hpos) as Hmod.
    rewrite Hdm, (Nat.mul_comm (Soil.n_bundles cfg)) in Hk.
    destruct (Hcalls _ _ _ Hmod Hk) as (-> & _ & _ & Hs). done.
Qed.

(** X8, at work: two atmospheres and two soil files. *)
Lemma soil_spectra_are_ordered_by_atmosphere_then_soil_file_witness :
  exists tr soil_spectra run good_bands loop csv rest,
    @Soil.main (Demo.toy_world 10)
      (Demo.soil_cfg 2 2 "landsat_oli" ["nano.txt"; "micro.txt"; "furlong.txt"])
      (Demo.soil_draws [2; 0]) = (tr, Ok tt) /\
    soil_spectra = ["furlong.txt"; "nano.txt"] /\
    tr = loop ++ Ev_savetxt "/data/soil_bundles_speclib.csv" csv :: rest /\
    forall i j, i < 2 -> j < 2 ->
      exists c spectrum,
        SoilOrder.calls loop !! (i * 2 + j) = Some c /\
        @SoilOrder.call_of (Demo.toy_world 10)
          (Demo.soil_cfg 2 2 "landsat_oli" ["nano.txt"; "micro.txt"; "furlong.txt"])
          (Demo.soil_draws [2; 0]) run good_bands soil_spectra i j c /\
        csv !! (i * 2 + j + 1) = Some spectrum.
Proof.
  eexists _.
  edestruct (@soil_spectra_are_ordered_by_atmosphere_then_soil_file
               (Demo.toy_world 10)
               (Demo.soil_cfg 2 2 "landsat_oli" ["nano.txt"; "micro.txt"; "furlong.txt"])
               (Demo.soil_draws [2; 0]))
    as (ss & run & nbands & gb & loop & csv & rest & Hss & _ & Htr & _ & Hcalls);
    [vm_compute; reflexivity|].
  exists ss, run, gb, loop, csv, rest.
  split; [reflexivity|]. split; [vm_compute in Hss; congruence|].
  split; [exact Htr|].
  intros i j Hi Hj. destruct (Hcalls i j Hi Hj) as (c & sp & Hc & Hcall & _ & Hline).
  exists c, sp. split; [exact Hc|]. split; [exact Hcall|exact Hline].
Defined.

(** ** The soil script: what it reads and writes inside the loops *)

Lemma artifact_tail_is_quiet (tail : list event) :
  Forall (fun e => is_artifact_write e = true) tail ->
  SoilOrder.reads tail = [] /\ SoilOrder.input_files tail = [] /\
  SoilOrder.calls tail = [].
Proof.
  unfold SoilOrder.reads, SoilOrder.input_files, SoilOrder.calls.
  induction 1 as [|e tail He _ IH]; [done|].
  destruct e; try discriminate He; simpl; exact IH.
Qed.

Lemma atmosphere_files_length cfg :
  length (Soil.atmosphere_files cfg) = Soil.n_atmospheres cfg.
Proof. unfold Soil.atmosphere_files. by rewrite length_map, length_seq. Qed.

(** X9.  A finished run of the soil script reads the sampled soil files
    again for every atmosphere, in the sampled order, and writes one 6S
    input file per atmosphere, in order, under the names
    [<base>_atm_01.sixs], [<base>_atm_02.sixs], ... *)
Theorem every_atmosphere_rereads_the_soil_files
    `{Soil.World} (cfg : Soil.config) (d : Soil.draws) (tr : list event) :
  Soil.main cfg d = (tr, Ok tt) ->
  exists soil_spectra,
    Soil.sample_soil_files cfg d = Ok soil_spectra /\
    SoilOrder.reads tr =
      concat (replicate (Soil.n_atmospheres cfg)
                (take (Soil.n_bundles cfg) soil_spectra)) /\
    SoilOrder.input_files tr = Soil.atmosphere_files cfg.
Proof.
  intros Hmain.
  apply SoilFinished.main_phases in Hmain as [[_ ?]|Hphases]; [done|].
  destruct Hphases as (ss & run & nbands & gb & loop & lr & tail & Hss & Hsensor
                       & Hloops & -> & Htail & [[_ ?]|Hdone]); [done|].
  destruct Hdone as (st & csv & sli & rest & -> & _ & _).
  apply artifact_tail_is_quiet in Htail as (Hr & Hf & _).
  unfold SoilFinished.the_loops in Hloops.
  eapply SoilOrder.outer_order in Hloops
    as (_ & Hreads & Hfiles & _); [|done].
  exists ss. split; [done|].
  unfold SoilOrder.reads, SoilOrder.input_files in *.
  rewrite !omap_app, Hr, Hf, !app_nil_r, Hreads, Hfiles.
  split; [done|].
  apply take_ge. by rewrite atmosphere_files_length.
Qed.

(** X9, at work: two atmospheres, two soil files. *)
Lemma every_atmosphere_rereads_the_soil_files_witness :
  exists tr,
    @Soil.main (Demo.toy_world 10)
      (Demo.soil_cfg 2 2 "landsat_oli" ["nano.txt"; "micro.txt"; "furlong.txt"])
      (Demo.soil_draws [2; 0]) = (tr, Ok tt) /\
    SoilOrder.reads tr = ["furlong.txt"; "nano.txt"; "furlong.txt"; "nano.txt"] /\
    SoilOrder.input_files tr =
      ["/data/soil_bundles_atm_01.sixs"; "/data/soil_bundles_atm_02.sixs"].
Proof.
  eexists _.
  edestruct (@every_atmosphere_rereads_the_soil_files
               (Demo.toy_world 10)
               (Demo.soil_cfg 2 2 "landsat_oli" ["nano.txt"; "micro.txt"; "furlong.txt"])
               (Demo.soil_draws [2; 0]))
    as (ss & Hss & Hreads & Hfiles); [vm_compute; reflexivity|].
  split; [reflexivity|].
  vm_compute in Hss. injection Hss as <-.
  split; [exact Hreads|exact Hfiles].
Defined.

(** ** The soil script with nothing to simulate *)

Definition is_input_file_write (e : event) : Prop :=
  match e with Ev_write_input_file _ _ => True | _ => False end.

Lemma loops_without_spectra `{Soil.World} cfg d run good_bands soil_spectra :
  Soil.n_bundles cfg * Soil.n_atmospheres cfg = 0 ->
  Forall is_input_file_write
    (fst (SoilFinished.the_loops cfg d run good_bands soil_spectra)).
Proof.
  intros Hzero. unfold SoilFinished.the_loops, for_range.
  destruct (Soil.n_bundles cfg) as [|nb] eqn:Hnb.
  - apply for_each_trace_Forall. intros i [[s arr] w].
    unfold Soil.simulate_atmosphere. rewrite Hnb.
    repeat (apply sbind_trace_Forall; [apply lift_trace_Forall|intros ?]).
    apply sbind_trace_Forall; [by repeat constructor|intros _]. constructor.
  - assert (Soil.n_atmospheres cfg = 0) as -> by lia. constructor.
Qed.

Lemma wavelengths_after_quiet `{Soil.World} cfg w0 tr :
  count_invocations tr = 0 -> SoilFacts.wavelengths_after cfg w0 tr = w0.
Proof.
  unfold count_invocations, SoilFacts.wavelengths_after.
  revert w0. induction tr as [|e tr IH]; intros w0; [done|].
  destruct e; simpl; try discriminate; intros Hq; by apply IH.
Qed.

(** X10.  With no bundles or no atmospheres the soil script cannot
    finish: the run raises, it makes no model call and reads no soil
    file, and it writes none of the three artifacts; all it can leave
    behind are 6S input files. *)
Theorem soil_run_without_spectra_raises
    `{Soil.World} (cfg : Soil.config) (d : Soil.draws) (tr : list event)
    (r : result unit) :
  Soil.n_bundles cfg * Soil.n_atmospheres cfg = 0 ->
  Soil.main cfg d = (tr, r) ->
  is_raise r = true /\ Forall is_input_file_write tr.
Proof.
  intros Hzero Hmain.
  destruct (SoilRun.soil_run_shape _ _ _ _ Hmain) as [(-> & Hr & _)|Hshape].
  { split; [done|constructor]. }
  destruct Hshape as (run' & nbands' & gb' & loop' & _ & Hquiet & Hcases).
  destruct Hcases as [[-> Hr]|Hdone].
  - split; [done|].
    apply SoilFinished.main_phases in Hmain as [[-> _]|Hphases]; [constructor|].
    destruct Hphases as (ss & run & nbands & gb & loop & lr & tail & _ & _
                         & Hloops & -> & Htail & _).
    apply Forall_app in Hquiet as [_ Hquiet].
    destruct tail as [|e tail].
    + rewrite app_nil_r.
      pose proof (loops_without_spectra cfg d run gb ss Hzero) as Hl.
      by rewrite Hloops in Hl.
    + apply Forall_cons in Hquiet as [Hq _]. apply Forall_cons in Htail as [Ht _].
      congruence.
  - destruct Hdone as (w & axis & _ & Hcount & _ & _ & Hw & _).
    rewrite wavelengths_after_quiet in Hw; [done|lia].
Qed.

(** X10, at work: two atmospheres and no bundle leave two input files
    and a [NameError]. *)
Lemma soil_run_without_spectra_raises_witness :
  exists tr,
    @Soil.main (Demo.toy_world 10)
      (Demo.soil_cfg 2 0 "landsat_oli" ["nano.txt"]) (Demo.soil_draws [])
      = (tr, Raise NameError) /\
    length tr = 2 /\ Forall is_input_file_write tr.
Proof.
  eexists _. split; [vm_compute; reflexivity|]. split; [reflexivity|].
  apply (@soil_run_without_spectra_raises (Demo.toy_world 10)
           (Demo.soil_cfg 2 0 "landsat_oli" ["nano.txt"]) (Demo.soil_draws [])
           _ (Raise NameError)); [reflexivity|vm_compute; reflexivity].
Defined.

(** ** The soil script: the view azimuth of every call *)

Lemma sbind_trace_Forall_ok {A B} (P : event -> Prop) (m : script A)
    (k : A -> script B) :
  Forall P (fst m) -> (forall a, snd m = Ok a -> Forall P (fst (k a))) ->
  Forall P (fst (sbind m k)).
Proof.
  destruct m as [t [a|e]]; simpl; [|done].
  intros Ht Hk. specialize (Hk a eq_refl). destruct (k a) as [t' r]. simpl in *.
  by apply Forall_app.
Qed.

Module SoilScale.
Import Numpy Soil SoilOrder.

#[local] Arguments assign_column : simpl never.

(** A view azimuth on the 0-360 scale, as lines 86-90 leave one that was
    drawn from 0 to 5: up to 2.5 degrees either side of north.  The
    upper bound is closed: over the rationals a wrapped value stays
    below 360, but in double precision a draw just below 2.5 wraps to
    360.0 exactly, and the closed bounds are the ones rounding keeps. *)
Definition view_azimuth_in_scale (va : Q) : Prop :=
  (0 <= va /\ va <= 2.5)%Q \/ (357.5 <= va /\ va <= 360)%Q.

Definition geometry_in_scale (s : sixs) : Prop :=
  exists sa sz va vz,
    s_geometry s = Some (Geometry sa sz va vz) /\ view_azimuth_in_scale va.

Definition call_in_scale (e : event) : Prop :=
  match e with
  | Ev_sixs _ s => geometry_in_scale s
  | _ => True
  end.

Lemma to_0_360_in_scale (l : list Q) i va :
  Forall (fun x => 0 <= x /\ x <= 5)%Q l ->
  to_0_360 l !! i = Some va -> view_azimuth_in_scale va.
Proof.
  intros Hl. unfold to_0_360. rewrite list_lookup_fmap.
  destruct (l !! i) as [x|] eqn:Hx; simpl; [|done].
  eapply Forall_lookup in Hl as [H0 H5]; [|exact Hx].
  intros [= <-]. unfold view_azimuth_in_scale.
  destruct (Qle_bool 0 (x - 2.5)) eqn:Hle; simpl.
  - apply Qle_bool_iff in Hle. left. split; lra.
  - assert (~ (0 <= x - 2.5)%Q) by (rewrite <- Qle_bool_iff; congruence).
    right. split; lra.
Qed.

Section Facts.
Context `{World}.
Variable cfg : config.
Variable d : draws.
Variable run : runner.
Variable good_bands : list nat.
Variable soil_spectra output_sixs : list string.

(** A pass of the inner loop changes the ground reflectance only. *)
Lemma simulate_soil_in_scale g i j st :
  geometry_in_scale (sixs_of st) ->
  Forall call_in_scale
    (fst (simulate_soil cfg run good_bands soil_spectra g i j st)) /\
  forall st1, snd (simulate_soil cfg run good_bands soil_spectra g i j st) = Ok st1 ->
    geometry_in_scale (sixs_of st1).
Proof.
  destruct st as [[s arr] w]. unfold sixs_of. simpl. intros Hs.
  unfold simulate_soil, call_readJFSC, call_sixs, lift.
  destruct (getitem soil_spectra j) as [path|]; simpl; [|by split; [constructor|]].
  destruct (readJFSC path) as [soil0|]; simpl; [|by split; [repeat constructor|]].
  destruct (getitem _ 0) as [first|]; simpl; [|by split; [repeat constructor|]].
  destruct (two_columns _ first) as [sp|]; simpl; [|by split; [repeat constructor|]].
  assert (Hev : call_in_scale (Ev_sixs run (set_ground_reflectance s (g, sp)))) by done.
  destruct (run_sixs_params _ _ _ _) as [out|]; simpl;
    [|by split; [repeat constructor|]].
  destruct (take_indices _ good_bands) as [sel|]; simpl;
    [|by split; [repeat constructor|]].
  destruct (assign_column _ sel arr) as [arr1|]; simpl;
    [|by split; [repeat constructor|]].
  split; [by repeat constructor|]. by intros st1 [= <-].
Qed.

(** A pass of the outer loop sets the geometry of atmosphere [i], whose
    view azimuth is item [i] of the shifted array. *)
Lemma simulate_atmosphere_in_scale i st :
  Forall (fun x => 0 <= x /\ x <= 5)%Q (view_a d) ->
  Forall call_in_scale
    (fst (simulate_atmosphere cfg d run good_bands soil_spectra output_sixs i st)).
Proof.
  intros Hd. destruct st as [[s arr] w]. unfold simulate_atmosphere.
  do 7 (apply sbind_trace_Forall; [apply lift_trace_Forall|intros ?]).
  apply sbind_trace_Forall_ok; [apply lift_trace_Forall|intros va Hva].
  simpl in Hva. apply getitem_ok in Hva.
  do 3 (apply sbind_trace_Forall; [apply lift_trace_Forall|intros ?]).
  apply sbind_trace_Forall.
  { unfold for_range.
    apply (for_each_trace_inv (fun st => geometry_in_scale (sixs_of st))).
    - intros j st0 _. apply simulate_soil_in_scale.
    - unfold sixs_of, geometry_in_scale. simpl.
      eexists _, _, _, _. split; [reflexivity|].
      eapply to_0_360_in_scale; [exact Hd|exact Hva]. }
  intros st'. apply sbind_trace_Forall; [apply lift_trace_Forall|intros path].
  apply sbind_trace_Forall; [by repeat constructor|intros _]. constructor.
Qed.

End Facts.
End SoilScale.

(** X11.  When the view azimuths are drawn from 0 to 5 degrees (line 86),
    every call of the runner, in every run of the soil script, finished
    or not, has a geometry whose view azimuth is within 2.5 degrees of
    north on the 0-360 scale: in [0, 2.5] or in [357.5, 360], both ends
    included. *)
Theorem view_azimuth_of_every_call_is_within_the_scale
    `{Soil.World} (cfg : Soil.config) (d : Soil.draws) (tr : list event)
    (r : result unit) :
  Forall (fun x => 0 <= x /\ x <= 5)%Q (Soil.view_a d) ->
  Soil.main cfg d = (tr, r) ->
  Forall SoilScale.call_in_scale tr.
Proof.
  intros Hd Hmain.
  replace tr with (fst (Soil.main cfg d)) by by rewrite Hmain.
  unfold Soil.main.
  apply sbind_trace_Forall; [apply lift_trace_Forall|intros soil_spectra].
  apply sbind_trace_Forall; [apply lift_trace_Forall|intros [[run nbands] good_bands]].
  apply sbind_trace_Forall.
  { apply for_each_trace_Forall. intros i st.
    by apply SoilScale.simulate_atmosphere_in_scale. }
  intros st.
  do 3 (apply sbind_trace_Forall; [apply lift_trace_Forall|intros ?]).
  do 2 (apply sbind_trace_Forall; [by repeat constructor|intros _]).
  apply sbind_trace_Forall; [apply lift_trace_Forall|intros ?].
  destruct Soil.envi_bound; by repeat constructor.
Qed.

(** X11, at work: draws of 0.5 and 2.5 degrees become view azimuths of
    358 and 0 degrees. *)
Lemma view_azimuth_of_every_call_is_within_the_scale_witness :
  Forall (fun x => 0 <= x /\ x <= 5)%Q (Soil.view_a (Demo.soil_draws [2; 0])) /\
  Forall2 Qeq (Soil.to_0_360 (Soil.view_a (Demo.soil_draws [2; 0])))
    [358; 0; 1.5]%Q /\
  Forall SoilScale.call_in_scale
    (fst (@Soil.main (Demo.toy_world 10)
            (Demo.soil_cfg 2 2 "landsat_oli" ["nano.txt"; "micro.txt"; "furlong.txt"])
            (Demo.soil_draws [2; 0]))).
Proof.
  assert (Hd : Forall (fun x => 0 <= x /\ x <= 5)%Q
                 (Soil.view_a (Demo.soil_draws [2; 0]))).
  { repeat constructor; simpl; lra. }
  split; [exact Hd|]. split; [vm_compute; repeat constructor|].
  eapply (@view_azimuth_of_every_call_is_within_the_scale (Demo.toy_world 10));
    [exact Hd|]. apply surjective_pairing.
Defined.

(** ** The soil script: what the 6S input files hold *)

Module SoilInputs.
Import Numpy Soil SoilFacts SoilOrder.

(** The 6S input files written, each with the [SixS] object it was
    written from, in order. *)
Definition written (tr : list event) : list (string * sixs) :=
  omap (fun e => match e with
                 | Ev_write_input_file path s => Some (path, s)
                 | _ => None
                 end) tr.

Lemma written_nil tr : input_files tr = [] -> written tr = [].
Proof.
  unfold input_files, written.
  induction tr as [|e tr IH]; [done|]. destruct e; simpl; try done.
Qed.

Section Facts.
Context `{World}.
Variable cfg : config.
Variable d : draws.
Variable run : runner.
Variable good_bands : list nat.
Variable soil_spectra output_sixs : list string.

(** After the inner loop the [SixS] object holds the spectrum of the
    soil file of its last pass. *)
Lemma inner_last g i m s0 arr0 w0 tr st' :
  for_range (S m) (simulate_soil cfg run good_bands soil_spectra g i) (s0, arr0, w0)
    = (tr, Ok st') ->
  exists path, soil_spectra !! m = Some path /\ ground_is path (sixs_of st').
Proof.
  rewrite for_range_S. intros Hrun.
  apply sbind_ok_inv in Hrun as (t1 & [[s1 arr1] w1] & t2 & _ & H2 & _).
  apply simulate_soil_pass in H2 as (path & gr & Hpath & _ & Hground & _).
  by exists path.
Qed.

(** The input file of atmosphere [i], written after its inner loop. *)
Definition input_file_of (i : nat) (c : string * sixs) : Prop :=
  output_sixs !! i = Some (fst c) /\
  atmosphere_is d i (snd c) /\
  forall m, n_bundles cfg = S m ->
    exists path, soil_spectra !! m = Some path /\ ground_is path (snd c).

Lemma outer_written k s0 arr0 w0 tr st' :
  for_range k
    (simulate_atmosphere cfg d run good_bands soil_spectra output_sixs)
    (s0, arr0, w0) = (tr, Ok st') ->
  s_altitudes s0 = Some (SatelliteLevel, SeaLevel) ->
  length (written tr) = k /\
  forall i c, written tr !! i = Some c -> input_file_of i c.
Proof.
  intros Hrun H0. revert tr st' Hrun. induction k as [|k IH]; intros tr st'.
  - intros [= <- <-]. split; [done|]. intros i c Hc. by simpl in Hc.
  - rewrite for_range_S. intros Hrun.
    apply sbind_ok_inv in Hrun as (t1 & [[s1 arr1] w1] & t2 & H1 & H2 & ->).
    destruct (IH _ _ H1) as (Hlen & Hfiles).
    eapply outer_order in H1 as (Halt & _); [|exact H0].
    apply simulate_atmosphere_pass in H2
      as (s2 & g & inner & path & Hatm & Hinner & Hpath & ->); [|done].
    pose proof Hinner as Hinner'.
    eapply inner_order in Hinner' as (Hatm' & _ & _ & Hquiet & _); [|exact Hatm].
    apply written_nil in Hquiet.
    unfold written in *. rewrite !omap_app, Hquiet. simpl.
    split; [rewrite length_app; simpl; lia|].
    intros i c Hc. apply lookup_app_Some in Hc as [Hc|[Hi Hc]]; [by apply Hfiles|].
    rewrite Hlen in Hi, Hc.
    destruct (i - k) as [|?] eqn:Hik; [|by simpl in Hc].
    assert (i = k) as -> by lia. injection Hc as <-.
    split; [done|]. split; [done|]. simpl.
    intros m Hm. rewrite Hm in Hinner. by eapply inner_last.
Qed.

End Facts.
End SoilInputs.

Lemma finished_soil_run_has_spectra `{Soil.World} cfg d tr :
  Soil.main cfg d = (tr, Ok tt) ->
  0 < Soil.n_bundles cfg /\ 0 < Soil.n_atmospheres cfg.
Proof.
  intros Hmain.
  destruct (SoilRun.soil_run_shape _ _ _ _ Hmain) as [(_ & ? & _)|Hshape]; [done|].
  destruct Hshape as (run' & nbands' & gb' & loop' & _ & _ & [[_ ?]|Hdone]); [done|].
  destruct Hdone as (w & axis & _ & Hcount & _ & _ & Hw & _).
  destruct (decide (Soil.n_bundles cfg * Soil.n_atmospheres cfg = 0)) as [Hz|Hz]; [|nia].
  rewrite wavelengths_after_quiet in Hw; [done|lia].
Qed.

Lemma atmosphere_files_lookup cfg i :
  i < Soil.n_atmospheres cfg ->
  Soil.atmosphere_files cfg !! i =
    Some (Soil.output_base cfg +:+ "_atm_" +:+ zero_padded 2 (i + 1) +:+ ".sixs").
Proof.
  intros Hi. unfold Soil.atmosphere_files.
  rewrite list_lookup_fmap, lookup_seq_lt; done.
Qed.

(** X12.  In a finished run of the soil script the 6S input file of
    atmosphere [i], [<base>_atm_<i+1>.sixs], is written once, after the
    inner loop of that atmosphere: it holds the parameters drawn for
    atmosphere [i] and, as ground reflectance, the spectrum of the last
    sampled soil file only, whichever bundle is meant. *)
Theorem input_file_holds_the_last_soil_file_of_its_atmosphere
    `{Soil.World} (cfg : Soil.config) (d : Soil.draws) (tr : list event) :
  Soil.main cfg d = (tr, Ok tt) ->
  exists soil_spectra last,
    Soil.sample_soil_files cfg d = Ok soil_spectra /\
    soil_spectra !! (Soil.n_bundles cfg - 1) = Some last /\
    length (SoilInputs.written tr) = Soil.n_atmospheres cfg /\
    forall i, i < Soil.n_atmospheres cfg ->
      exists s,
        SoilInputs.written tr !! i =
          Some (Soil.output_base cfg +:+ "_atm_" +:+ zero_padded 2 (i + 1) +:+ ".sixs",
                s) /\
        SoilOrder.atmosphere_is d i s /\
        SoilOrder.ground_is last s.
Proof.
  intros Hmain.
  destruct (finished_soil_run_has_spectra _ _ _ Hmain) as [Hnb Hna].
  apply SoilFinished.main_phases in Hmain as [[_ ?]|Hphases]; [done|].
  destruct Hphases as (ss & run & nbands & gb & loop & lr & tail & Hss & Hsensor
                       & Hloops & -> & Htail & [[_ ?]|Hdone]); [done|].
  destruct Hdone as (st & csv & sli & rest & -> & _ & _).
  apply artifact_tail_is_quiet in Htail as (_ & Hf & _).
  apply SoilInputs.written_nil in Hf.
  unfold SoilFinished.the_loops in Hloops.
  pose proof Hloops as Horder.
  eapply SoilOrder.outer_order in Horder as (_ & _ & _ & _ & Hfiles & _); [|done].
  eapply SoilInputs.outer_written in Hloops as (Hlen & Hwritten); [|done].
  destruct (Soil.n_bundles cfg) as [|m] eqn:Hm; [lia|].
  replace (S m - 1) with m by lia.
  destruct (lookup_lt_is_Some_2 ss m) as [last Hlast]; [specialize (Hfiles Hna); lia|].
  exists ss, last. split; [done|]. split; [done|].
  assert (Hall : SoilInputs.written (loop ++ tail) = SoilInputs.written loop).
  { unfold SoilInputs.written in *. by rewrite omap_app, Hf, app_nil_r. }
  rewrite Hall. split; [done|].
  intros i Hi.
  destruct (lookup_lt_is_Some_2 (SoilInputs.written loop) i) as [[path s] Hc]; [lia|].
  destruct (Hwritten _ _ Hc) as (Hpath & Hatm & Hground). simpl in *.
  rewrite atmosphere_files_lookup in Hpath by done. injection Hpath as <-.
  exists s. split; [done|]. split; [done|].
  destruct (Hground m Hm) as (path' & Hpath' & Hg). congruence.
Qed.

(** X12, at work: with the soil files sampled in the order furlong.txt,
    nano.txt, both input files hold the spectrum of nano.txt. *)
Lemma input_file_holds_the_last_soil_file_of_its_atmosphere_witness :
  exists tr soil_spectra,
    @Soil.main (Demo.toy_world 10)
      (Demo.soil_cfg 2 2 "landsat_oli" ["nano.txt"; "micro.txt"; "furlong.txt"])
      (Demo.soil_draws [2; 0]) = (tr, Ok tt) /\
    soil_spectra = ["furlong.txt"; "nano.txt"] /\
    forall i, i < 2 ->
      exists s,
        SoilInputs.written tr !! i =
          Some ("/data/soil_bundles" +:+ "_atm_" +:+ zero_padded 2 (i + 1) +:+ ".sixs",
                s) /\
        @SoilOrder.ground_is (Demo.toy_world 10) "nano.txt" s.
Proof.
  eexists _.
  edestruct (@input_file_holds_the_last_soil_file_of_its_atmosphere
               (Demo.toy_world 10)
               (Demo.soil_cfg 2 2 "landsat_oli" ["nano.txt"; "micro.txt"; "furlong.txt"])
               (Demo.soil_draws [2; 0]))
    as (ss & last & Hss & Hlast & _ & Hfiles); [vm_compute; reflexivity|].
  exists ss. split; [reflexivity|].
  vm_compute in Hss. injection Hss as <-.
  split; [reflexivity|].
  vm_compute in Hlast. injection Hlast as <-.
  intros i Hi. destruct (Hfiles i Hi) as (s & Hs & _ & Hg).
  exists s. split; [exact Hs|exact Hg].
Defined.


(** ** The soil script: the sampled soil files *)

Lemma take_indices_total {A} (l : list A) idx :
  Forall (fun i => i < length l) idx -> exists xs, take_indices l idx = Ok xs.
Proof.
  induction 1 as [|i idx Hi _ [xs IH]]; simpl; [by exists []|].
  destruct (lookup_lt_is_Some_2 l i Hi) as [x Hx].
  rewrite (proj2 (getitem_ok _ _ _) Hx), IH. simpl. by exists (x :: xs).
Qed.

Lemma take_indices_elem_of {A} (l : list A) idx xs :
  Forall2 (fun i x => l !! i = Some x) idx xs -> Forall (fun x => x ∈ l) xs.
Proof.
  induction 1 as [|i x idx xs Hx _ IH]; constructor; [|done].
  by eapply list_elem_of_lookup_2.
Qed.

Lemma take_indices_NoDup {A} (l : list A) idx xs :
  NoDup l -> NoDup idx ->
  Forall2 (fun i x => l !! i = Some x) idx xs -> NoDup xs.
Proof.
  intros Hl Hidx Hall. induction Hall as [|i x idx xs Hx Hall IH]; [constructor|].
  apply NoDup_cons in Hidx as [Hi Hidx]. apply NoDup_cons. split; [|by apply IH].
  intros Hin. apply Hi. clear IH Hidx Hi.
  induction Hall as [|j y idx xs Hy Hall IH]; [by apply elem_of_nil in Hin|].
  apply elem_of_cons in Hin as [->|Hin].
  - rewrite (NoDup_lookup l i j y Hl Hx Hy). apply list_elem_of_here.
  - apply list_elem_of_further. by apply IH.
Qed.

(** X13.  When [random.sample] keeps its contract ([n_bundles] distinct
    indices into [soil_files]), lines 127-130 raise nothing and give
    [n_bundles] paths of [soil_files], distinct if the list names no
    file twice: no soil file is used by two bundles. *)
Theorem sampled_soil_files_are_distinct_files_of_the_list
    (cfg : Soil.config) (d : Soil.draws) :
  length (Soil.srnd d) = Soil.n_bundles cfg ->
  NoDup (Soil.srnd d) ->
  Forall (fun i => i < length (Soil.soil_files cfg)) (Soil.srnd d) ->
  exists soil_spectra,
    Soil.sample_soil_files cfg d = Ok soil_spectra /\
    length soil_spectra = Soil.n_bundles cfg /\
    Forall (fun path => path ∈ Soil.soil_files cfg) soil_spectra /\
    (NoDup (Soil.soil_files cfg) -> NoDup soil_spectra).
Proof.
  intros Hlen Hnd Hin.
  assert (Hle : Soil.n_bundles cfg <= length (Soil.soil_files cfg)).
  { rewrite <- Hlen.
    trans (length (seq 0 (length (Soil.soil_files cfg)))); [|by rewrite length_seq].
    apply submseteq_length, NoDup_submseteq; [done|].
    intros i Hi. apply elem_of_seq. rewrite Forall_forall in Hin.
    specialize (Hin i Hi). lia. }
  destruct (take_indices_total _ _ Hin) as [xs Hxs].
  exists xs. unfold Soil.sample_soil_files.
  destruct (Nat.ltb_spec (length (Soil.soil_files cfg)) (Soil.n_bundles cfg)); [lia|].
  split; [done|].
  apply take_indices_ok in Hxs as [Hl Hall].
  split; [lia|]. split.
  - by eapply take_indices_elem_of.
  - intros Hfiles. by eapply take_indices_NoDup.
Qed.

(** X13, at work: indices 2 and 0 into three files. *)
Lemma sampled_soil_files_are_distinct_files_of_the_list_witness :
  exists soil_spectra,
    Soil.sample_soil_files
      (Demo.soil_cfg 2 2 "landsat_oli" ["nano.txt"; "micro.txt"; "furlong.txt"])
      (Demo.soil_draws [2; 0]) = Ok soil_spectra /\
    length soil_spectra = 2 /\ NoDup soil_spectra.
Proof.
  destruct (sampled_soil_files_are_distinct_files_of_the_list
              (Demo.soil_cfg 2 2 "landsat_oli" ["nano.txt"; "micro.txt"; "furlong.txt"])
              (Demo.soil_draws [2; 0]))
    as (ss & Hss & Hlen & _ & Hnd).
  - reflexivity.
  - compute_done.
  - simpl. repeat constructor.
  - exists ss. split; [exact Hss|]. split; [exact Hlen|].
    apply Hnd. compute_done.
Defined.


(** ** The soil script: the last line *)

#[local] Arguments Numpy.savetxt : simpl never.
#[local] Arguments Numpy.tofile : simpl never.
#[local] Arguments Numpy.transpose : simpl never.
#[local] Arguments Numpy.drop_first_column : simpl never.
#[local] Arguments Numpy.assign_column : simpl never.
#[local] Arguments Numpy.zeros : simpl never.

(** X14.  Line 299 is the last thing the soil script does, so a run in
    which the name [envi] is not bound differs from the run in which it
    is bound only at the header: either both runs raise the same
    exception after the same events, or the run without [envi] has
    written the same csv and sli, lacks only the header write, and
    raises NameError. *)
Theorem unbound_envi_costs_only_the_header
    (W : Soil.World) (cfg : Soil.config) (d : Soil.draws) (tr : list event)
    (r : result unit) :
  @Soil.main (with_envi W false) cfg d = (tr, r) ->
  is_raise r = true /\
  (@Soil.main (with_envi W true) cfg d = (tr, r) \/
   (r = Raise NameError /\
    exists loop csv sli md,
      tr = loop ++ [Ev_savetxt (SoilRun.csv_path cfg) csv;
                    Ev_tofile (SoilRun.sli_path cfg) sli] /\
      @Soil.main (with_envi W true) cfg d
        = (tr ++ [Ev_write_envi_header (SoilRun.hdr_path cfg) md], Ok tt))).
Proof.
  unfold Soil.main.
  fold (SoilRun.csv_path cfg) (SoilRun.sli_path cfg) (SoilRun.hdr_path cfg).
  change (@Soil.simulate_atmosphere (with_envi W false))
    with (@Soil.simulate_atmosphere W).
  change (@Soil.simulate_atmosphere (with_envi W true))
    with (@Soil.simulate_atmosphere W).
  destruct (Soil.sample_soil_files cfg d) as [soil_spectra|e]; simpl.
  2:{ intros [= <- <-]. auto. }
  destruct (Soil.sensor_setup _ _) as [[[run nbands] good_bands]|e]; simpl.
  2:{ intros [= <- <-]. auto. }
  destruct (for_range _ _ _) as [loop [[[s arr] w]|e]]; simpl.
  2:{ intros [= <- <-]. auto. }
  destruct w as [wavelengths|]; simpl.
  2:{ intros [= <- <-]. auto. }
  destruct (take_indices wavelengths good_bands) as [axis|e]; simpl.
  2:{ intros [= <- <-]. auto. }
  destruct (Numpy.assign_column 0 axis arr) as [arr'|e]; simpl.
  2:{ intros [= <- <-]. auto. }
  intros [= <- <-]. split; [done|]. right. split; [done|].
  eexists loop, _, _, _. split; [reflexivity|].
  rewrite <- !app_assoc. reflexivity.
Qed.

(** X14, at work. *)
Lemma unbound_envi_costs_only_the_header_witness :
  exists tr md,
    @Soil.main (with_envi (Demo.toy_world 10) false)
      (Demo.soil_cfg 2 2 "landsat_oli" ["nano.txt"; "micro.txt"; "furlong.txt"])
      (Demo.soil_draws [2; 0]) = (tr, Raise NameError) /\
    @Soil.main (with_envi (Demo.toy_world 10) true)
      (Demo.soil_cfg 2 2 "landsat_oli" ["nano.txt"; "micro.txt"; "furlong.txt"])
      (Demo.soil_draws [2; 0])
      = (tr ++ [Ev_write_envi_header "/data/soil_bundles_speclib.hdr" md], Ok tt).
Proof.
  eexists _.
  edestruct (unbound_envi_costs_only_the_header (Demo.toy_world 10)
               (Demo.soil_cfg 2 2 "landsat_oli" ["nano.txt"; "micro.txt"; "furlong.txt"])
               (Demo.soil_draws [2; 0]))
    as (_ & [Hsame|(_ & loop & csv & sli & md & _ & Hbound)]);
    [vm_compute; reflexivity| |].
  - exfalso. vm_compute in Hsame. discriminate Hsame.
  - exists md. split; [reflexivity|exact Hbound].
Defined.


(** ** File and spectrum names *)

Module Names.

(** Reading a decimal numeral back. *)
Definition decode (s : string) : option nat :=
  option_map Nat.of_uint (NilEmpty.uint_of_string s).

Lemma decode_str n : decode (str n) = Some n.
Proof.
  unfold decode, str.
  assert (Hnil : Nat.to_uint n <> Decimal.Nil).
  { intros Hnil. pose proof (Unsigned.of_to n) as Hn. rewrite Hnil in Hn.
    simpl in Hn. subst n. discriminate Hnil. }
  replace (NilZero.string_of_uint (Nat.to_uint n))
    with (NilEmpty.string_of_uint (Nat.to_uint n)) by by destruct (Nat.to_uint n).
  rewrite NilEmpty.usu. simpl. by rewrite Unsigned.of_to.
Qed.

Lemma decode_zero s : decode ("0" +:+ s) = decode s.
Proof.
  unfold decode. change ("0" +:+ s) with (String (Ascii.Ascii false false false false true true false false) s).
  simpl. destruct (NilEmpty.uint_of_string s) as [u|]; [|done].
  reflexivity.
Qed.

Lemma decode_zeros k s :
  decode (String.concat "" (replicate k "0") +:+ s) = decode s.
Proof.
  induction k as [|k IH]; [done|].
  destruct k as [|k]; [apply decode_zero|].
  change (decode ("0" +:+ (String.concat "" (replicate (S k) "0") +:+ s))
          = decode s).
  by rewrite decode_zero.
Qed.

Lemma decode_zero_padded w n : decode (zero_padded w n) = Some n.
Proof. unfold zero_padded. by rewrite decode_zeros, decode_str. Qed.

Lemma str_inj : Inj (=) (=) str.
Proof.
  intros n m Heq. apply (f_equal decode) in Heq.
  rewrite !decode_str in Heq. congruence.
Qed.

Lemma zero_padded_inj w : Inj (=) (=) (zero_padded w).
Proof.
  intros n m Heq. apply (f_equal decode) in Heq.
  rewrite !decode_zero_padded in Heq. congruence.
Qed.

Lemma string_length_app s t :
  String.length (s +:+ t) = String.length s + String.length t.
Proof.
  induction s as [|a s IH]; [done|].
  change (String a s +:+ t) with (String a (s +:+ t)). simpl. congruence.
Qed.

Lemma string_app_inv_tail s1 s2 t : s1 +:+ t = s2 +:+ t -> s1 = s2.
Proof.
  revert s2. induction s1 as [|a s1 IH]; intros [|b s2] Heq.
  - done.
  - apply (f_equal String.length) in Heq.
    rewrite !string_length_app in Heq. simpl in Heq. lia.
  - apply (f_equal String.length) in Heq.
    rewrite !string_length_app in Heq. simpl in Heq. lia.
  - change (String a (s1 +:+ t) = String b (s2 +:+ t)) in Heq.
    injection Heq as -> Heq. f_equal. by apply IH.
Qed.

Lemma NoDup_names (f : nat -> string) n :
  (forall i j, f i = f j -> i = j) -> NoDup (map f (seq 0 n)).
Proof.
  intros Hf. apply (NoDup_fmap_2_strong f); [|apply NoDup_seq].
  intros i j _ _. apply Hf.
Qed.

End Names.

(** X15.  The names the scripts make are pairwise distinct, whatever the
    counts: the spectrum names of the canopy script (['veg bundle ' +
    str(i+1)]), those of the soil script (['Soil bundle %03d']), and the
    6S input files of the soil script ([output_base + '_atm_%02d.sixs']),
    also past the width of the zero padding; so no input file is written
    over another. *)
Theorem names_are_pairwise_distinct (n : nat) (cfg : Soil.config) :
  NoDup (Veg.spectra_names n) /\
  NoDup (Soil.spectra_names n) /\
  NoDup (Soil.atmosphere_files cfg).
Proof.
  split_and!.
  - apply Names.NoDup_names. intros i j Heq.
    apply (inj (String.append _)), Names.str_inj in Heq. lia.
  - apply Names.NoDup_names. intros i j Heq.
    apply (inj (String.append _)), Names.zero_padded_inj in Heq. lia.
  - apply Names.NoDup_names. intros i j Heq.
    apply (inj (String.append _)), (inj (String.append _)) in Heq.
    apply Names.string_app_inv_tail, Names.zero_padded_inj in Heq. lia.
Qed.
